(** * marketbeat: table location, field parsing and record assembly

    A shallow embedding of [marketbeat/marketbeat.py].  Python values are
    modelled as follows.

    - [str] is a list of Unicode code points ([pystr]); the arrow glyph the
      page uses between an old and a new value is the code point U+279D.
    - A BeautifulSoup document is a finite tree of tags, strings and comments
      ([node]); [find], [find_all], [findNext], [.text], [.string] and [.get]
      are functions over the document-order list of descendants.
    - A raised exception is the [Raise] branch of [result]; [try/except
      Exception] is a match on it.
    - The network and the clock are arguments: [getSoup] maps a URL to the
      parsed page, [today] is the calendar date the clock gives.
    - A pandas DataFrame is a list of column names and a list of rows.
    - A float is written as the decimal numeral it was read from (sign,
      digits, power of ten): the rounding to binary64 is not part of the
      model.

    The Unicode character database, the rendering of floats and of years
    below 1000, and the regular-expression engine behind [re.compile] are
    library code outside the repository: they are the fields of
    [PyRuntime], and every statement holds for every such runtime.

    Limits of the model.
    - [requests.get] is assumed to return a page: [getSoup] is total.
    - A DataFrame keeps the Python values of its cells: pandas' choice of a
      dtype per column is not modelled, and the text of a cell is assumed
      not to end with U+0000, which numpy's [astype(str)] would drop.
    - [int] reads numerals of any length.
    - The strings inside [script] and [style] elements are strings like
      the others.

    The file has two parts: the embedding (the library functions the
    source calls, the functions of the source with their names, a runtime
    and pages to compute with, and the notions the statements use), and
    the properties. *)

From Stdlib Require Import List String Ascii NArith ZArith Bool Lia QArith_base DecimalString.
Import ListNotations.
Close Scope Q_scope.
Open Scope string_scope.
Open Scope list_scope.

Set Implicit Arguments.
Set Warnings "-register-all".

(* ================================================================== *)
(** ** Exceptions *)

Inductive exn : Set :=
| AttributeError
| IndexError
| KeyError
| TypeError
| ValueError
| ReError.

(** The name of the exception's class, as [type(e).__name__] gives it. *)
Definition exc_name (e : exn) : string :=
  match e with
  | AttributeError => "AttributeError"
  | IndexError => "IndexError"
  | KeyError => "KeyError"
  | TypeError => "TypeError"
  | ValueError => "ValueError"
  | ReError => "error"
  end.

Inductive result (A : Type) : Type :=
| Ok (a : A)
| Raise (e : exn).

Arguments Ok {A} a.
Arguments Raise {A} e.

Definition bind {A B} (r : result A) (k : A -> result B) : result B :=
  match r with
  | Ok a => k a
  | Raise e => Raise e
  end.

Declare Scope py_scope.
Delimit Scope py_scope with py.
Notation "x <- e ;; k" := (bind e (fun x => k))
  (at level 61, e at next level, right associativity) : py_scope.
Notation "' pat <- e ;; k" := (bind e (fun x => match x with pat => k end))
  (at level 61, pat pattern, e at next level, right associativity) : py_scope.

(** [x.attr] where [x] may be [None]. *)
Definition attr_of {A} (o : option A) : result A :=
  match o with
  | Some a => Ok a
  | None => Raise AttributeError
  end.

(** [l[i]] on a list. *)
Definition index {A} (l : list A) (i : nat) : result A :=
  match nth_error l i with
  | Some a => Ok a
  | None => Raise IndexError
  end.

(* ================================================================== *)
(** ** Strings *)

Definition char := N.
Definition pystr := list char.
Bind Scope N_scope with char.

(** An ASCII literal as a Python string. *)
Definition py (s : string) : pystr := map N_of_ascii (list_ascii_of_string s).

(** U+279D, the arrow between the old and the new value of a cell. *)
Definition ARROW : char := 10141%N.

Fixpoint str_eqb (a b : pystr) : bool :=
  match a, b with
  | [], [] => true
  | x :: a', y :: b' => (x =? y)%N && str_eqb a' b'
  | _, _ => false
  end.

Definition in_range (lo hi c : char) : bool := ((lo <=? c) && (c <=? hi))%N.

(** [Py_UNICODE_ISSPACE]: what [str.strip()] removes and [\s] matches. *)
Definition py_isspace (c : char) : bool :=
  in_range 9 13 c || in_range 28 32 c || (c =? 133)%N || (c =? 160)%N
  || (c =? 5760)%N || in_range 8192 8202 c || (c =? 8232)%N || (c =? 8233)%N
  || (c =? 8239)%N || (c =? 8287)%N || (c =? 12288)%N.

(** [Py_ISSPACE]: the C-level test the number parsers use on ASCII text. *)
Definition c_isspace (c : char) : bool := in_range 9 13 c || (c =? 32)%N.

Definition is_ascii_digit (c : char) : bool := in_range 48 57 c.

Definition is_ascii_alnum (c : char) : bool :=
  in_range 48 57 c || in_range 65 90 c || in_range 97 122 c.

Fixpoint dropwhile {A} (p : A -> bool) (l : list A) : list A :=
  match l with
  | [] => []
  | x :: r => if p x then dropwhile p r else l
  end.

Fixpoint takewhile {A} (p : A -> bool) (l : list A) : list A :=
  match l with
  | [] => []
  | x :: r => if p x then x :: takewhile p r else []
  end.

Definition lstrip (s : pystr) : pystr := dropwhile py_isspace s.
Definition rstrip (s : pystr) : pystr := rev (dropwhile py_isspace (rev s)).

(** [s.strip()] *)
Definition strip (s : pystr) : pystr := rstrip (lstrip s).

(** [s.split(sep)] for a one-character separator: never empty. *)
Fixpoint split (sep : char) (s : pystr) : list pystr :=
  match s with
  | [] => [[]]
  | c :: r =>
      if (c =? sep)%N then [] :: split sep r
      else match split sep r with
           | h :: t => (c :: h) :: t
           | [] => [[c]]
           end
  end.

(** [l[-1]] on the result of [split]. *)
Definition last_of (l : list pystr) : pystr := last l [].

Fixpoint starts_with (p s : pystr) : bool :=
  match p, s with
  | [], _ => true
  | x :: p', y :: s' => (x =? y)%N && starts_with p' s'
  | _ :: _, [] => false
  end.

(** [old in s] *)
Fixpoint contains (old s : pystr) : bool :=
  starts_with old s ||
  match s with
  | [] => false
  | _ :: r => contains old r
  end.

(** [s.replace(old, new)] for a non-empty [old], as at every call of the
    source: occurrences are replaced left to right, without overlap.
    [skip] counts the characters of the occurrence still to pass over. *)
Fixpoint replace_from (old new : pystr) (skip : nat) (s : pystr) : pystr :=
  match s with
  | [] => []
  | c :: r =>
      match skip with
      | S k => replace_from old new k r
      | O =>
          if starts_with old s
          then new ++ replace_from old new (Nat.pred (List.length old)) r
          else c :: replace_from old new O r
      end
  end.

Definition replace (old new s : pystr) : pystr := replace_from old new O s.

(** [sep.join(l)] *)
Fixpoint join (sep : pystr) (l : list pystr) : pystr :=
  match l with
  | [] => []
  | [x] => x
  | x :: r => x ++ sep ++ join sep r
  end.

(** [re.findall(r"\S+", s)]: the maximal runs of non-space characters;
    [cur] is the run being read, reversed. *)
Fixpoint tokens_from (cur : pystr) (s : pystr) : list pystr :=
  match s with
  | [] => match cur with [] => [] | _ => [rev cur] end
  | c :: r =>
      if py_isspace c
      then match cur with [] => tokens_from [] r | _ => rev cur :: tokens_from [] r end
      else tokens_from (c :: cur) r
  end.

Definition tokens (s : pystr) : list pystr := tokens_from [] s.

(* ================================================================== *)
(** ** Numbers *)

(** A float, as the numeral it was read from:
    [Finite neg m e] is (-1)^neg * m * 10^e. *)
Inductive pyfloat : Set :=
| Finite (neg : bool) (digits : N) (exp10 : Z)
| Inf (neg : bool)
| NaN.

(** The rational a finite float was read from. *)
Definition float_value (f : pyfloat) : option Q :=
  match f with
  | Finite neg m e =>
      let z := if neg then (- Z.of_N m)%Z else Z.of_N m in
      Some (if (0 <=? e)%Z then Qmake (z * 10 ^ e) 1
            else Qmake z (Z.to_pos (10 ^ (- e))))
  | _ => None
  end.

(** [str(n)] for an integer. *)
Definition str_of_Z (z : Z) : pystr :=
  py (DecimalString.NilZero.string_of_int (Z.to_int z)).

(** Characters a regular expression reads as themselves. *)
Definition re_plain (c : char) : bool :=
  negb (existsb (N.eqb c) [46; 94; 36; 42; 43; 63; 123; 125; 91; 93; 92; 124; 40; 41]%N).

(** The library code the source calls and the repository does not hold.
    - [unicode_decimal c]: the digit value of a decimal digit outside ASCII
      ([Py_UNICODE_TODECIMAL]);
    - [unicode_alnum c]: [str.isalnum] of a character outside ASCII;
    - [float_repr]: [str] of a float;
    - [strftime_Y]: C's [%Y], four digits from the year 1000 on;
    - [re_compile_ok p], [re_search p s]: whether [re.compile(p)] accepts
      the pattern, and whether [re.compile(p).search(s)] finds a match; a
      pattern [.*w.*] whose [w] has no special character finds [w]
      anywhere in [s]. *)
Class PyRuntime : Type := {
  unicode_decimal : char -> option N;
  unicode_decimal_lt : forall c d, unicode_decimal c = Some d -> (d < 10)%N;
  unicode_alnum : char -> bool;
  float_repr : pyfloat -> pystr;
  strftime_Y : Z -> pystr;
  strftime_Y_four : forall y, (1000 <= y <= 9999)%Z -> strftime_Y y = str_of_Z y;
  re_compile_ok : pystr -> bool;
  re_search : pystr -> pystr -> bool;
  re_search_plain : forall w,
    forallb re_plain w = true ->
    re_compile_ok (py ".*" ++ w ++ py ".*") = true /\
    forall s, re_search (py ".*" ++ w ++ py ".*") s = contains w s
}.

Section Numbers.
Context {R : PyRuntime}.
Local Open Scope N_scope.

(** [Py_UNICODE_TODECIMAL] *)
Definition decimal_value (c : char) : option N :=
  if c <? 128 then (if is_ascii_digit c then Some (c - 48) else None)
  else unicode_decimal c.

(** [\d] of a [str] pattern *)
Definition is_decimal (c : char) : bool :=
  match decimal_value c with Some _ => true | None => false end.

(** [\w] of a [str] pattern *)
Definition is_word (c : char) : bool :=
  if c <? 128 then is_ascii_alnum c || (c =? 95) else unicode_alnum c.

(** What [int] and [float] do to a [str] first: spaces outside ASCII become
    a blank, decimal digits outside ASCII the ASCII digit of their value,
    and the text ends with a question mark at any other character outside
    ASCII. *)
Fixpoint to_ascii (s : pystr) : pystr :=
  match s with
  | [] => []
  | c :: r =>
      if c <? 127 then c :: to_ascii r
      else if py_isspace c then 32 :: to_ascii r
      else match decimal_value c with
           | Some d => (48 + d) :: to_ascii r
           | None => [63]
           end
  end.

Definition sign (s : pystr) : bool * pystr :=
  match s with
  | c :: r => if c =? 43 then (false, r) else if c =? 45 then (true, r) else (false, s)
  | [] => (false, s)
  end.

Definition cons_fst (c : char) (o : option (pystr * pystr)) : option (pystr * pystr) :=
  match o with
  | Some (ds, rest) => Some (c :: ds, rest)
  | None => None
  end.

(** The rest of a run of digits after its first one: digits, each possibly
    preceded by one underscore.  An underscore that no digit follows is an
    error. *)
Fixpoint run_tail (s : pystr) : option (pystr * pystr) :=
  match s with
  | [] => Some ([], [])
  | c :: r =>
      if is_ascii_digit c then cons_fst c (run_tail r)
      else if c =? 95 then
        match r with
        | d :: r' => if is_ascii_digit d then cons_fst d (run_tail r') else None
        | [] => None
        end
      else Some ([], s)
  end.

(** A run of digits at the head of [s]: its digits, and what follows. *)
Definition run (s : pystr) : option (pystr * pystr) :=
  match s with
  | c :: r => if is_ascii_digit c then cons_fst c (run_tail r) else None
  | [] => None
  end.

Definition N_of_digits (ds : pystr) : N :=
  fold_left (fun a c => 10 * a + (c - 48)) ds 0.

Definition signed (neg : bool) (n : N) : Z :=
  if neg then (- Z.of_N n)%Z else Z.of_N n.

(** [int(s)] for a [str]: blanks, an optional sign, a run of digits, blanks. *)
Definition int_of_str (s : pystr) : result Z :=
  let '(neg, u) := sign (dropwhile c_isspace (to_ascii s)) in
  match run u with
  | Some (ds, rest) =>
      match dropwhile c_isspace rest with
      | [] => Ok (signed neg (N_of_digits ds))
      | _ :: _ => Raise ValueError
      end
  | None => Raise ValueError
  end.

Definition lower (c : char) : char := if in_range 65 90 c then c + 32 else c.

(** [inf], [infinity] and [nan], in any case. *)
Definition special (neg : bool) (u : pystr) : option pyfloat :=
  let l := map lower u in
  if str_eqb l (py "inf") || str_eqb l (py "infinity") then Some (Inf neg)
  else if str_eqb l (py "nan") then Some NaN
  else None.

(** The exponent after the digits [ds], of which [nfrac] stand behind the
    point: [e] or [E], an optional sign, a run of digits.  Without a run the
    numeral ends before the letter. *)
Definition exponent (ds : pystr) (nfrac : nat) (s : pystr) : N * Z * pystr :=
  let plain := (N_of_digits ds, (- Z.of_nat nfrac)%Z, s) in
  match s with
  | c :: r =>
      if (c =? 101) || (c =? 69) then
        let '(eneg, r') := sign r in
        match run r' with
        | Some (es, rest) =>
            (N_of_digits ds, (signed eneg (N_of_digits es) - Z.of_nat nfrac)%Z, rest)
        | None => plain
        end
      else plain
  | [] => plain
  end.

(** A decimal point at the head of [s]: what follows it. *)
Definition point (s : pystr) : option pystr :=
  match s with
  | c :: r => if c =? 46 then Some r else None
  | [] => None
  end.

(** The longest decimal numeral at the head of [u], as C's [strtod] reads
    it: digits with an optional point, at least one digit, an optional
    exponent. *)
Definition number (u : pystr) : option (N * Z * pystr) :=
  match run u with
  | Some (ip, r1) =>
      match point r1 with
      | Some r2 =>
          match run r2 with
          | Some (fp, r3) => Some (exponent (ip ++ fp) (List.length fp) r3)
          | None => Some (exponent ip 0 r2)
          end
      | None => Some (exponent ip 0 r1)
      end
  | None =>
      match point u with
      | Some r2 =>
          match run r2 with
          | Some (fp, r3) => Some (exponent fp (List.length fp) r3)
          | None => None
          end
      | None => None
      end
  end.

(** [float(s)] for a [str]. *)
Definition float_of_str (s : pystr) : result pyfloat :=
  let t := rev (dropwhile c_isspace (rev (dropwhile c_isspace (to_ascii s)))) in
  let '(neg, u) := sign t in
  match special neg u with
  | Some f => Ok f
  | None =>
      match number u with
      | Some (m, e, []) => Ok (Finite neg m e)
      | _ => Raise ValueError
      end
  end.

End Numbers.

(* ================================================================== *)
(** ** Regular expressions of the source, and dates *)

(** A piece of a pattern: the ways it can match at the head of a string, in
    the order a backtracking matcher tries them, each with the text matched
    and the text left. *)
Definition piece := pystr -> list (pystr * pystr).

Definition one (p : char -> bool) : piece :=
  fun s => match s with
           | c :: r => if p c then [([c], r)] else []
           | [] => []
           end.

Definition lit (c : char) : piece := one (N.eqb c).

Definition then_ (a b : piece) : piece :=
  fun s => flat_map (fun m1 => map (fun m2 => (fst m1 ++ fst m2, snd m2)) (b (snd m1))) (a s).

Definition alt (a b : piece) : piece := fun s => a s ++ b s.

Record date : Set := mkdate { year : Z; month : Z; day : Z }.

Definition is_leap (y : Z) : bool :=
  ((y mod 4 =? 0) && (negb (y mod 100 =? 0) || (y mod 400 =? 0)))%Z.

Definition days_in_month (y m : Z) : Z :=
  (if m =? 2 then (if is_leap y then 29 else 28)
   else if (m =? 4) || (m =? 6) || (m =? 9) || (m =? 11) then 30
   else 31)%Z.

(** What [datetime.date(y, m, d)] accepts. *)
Definition valid_date (y m d : Z) : bool :=
  ((1 <=? y) && (y <=? 9999) && (1 <=? m) && (m <=? 12)
   && (1 <=? d) && (d <=? days_in_month y m))%Z.

Definition pad2 (n : Z) : pystr :=
  if (n <? 10)%Z then 48%N :: str_of_Z n else str_of_Z n.

Section Dates.
Context {R : PyRuntime}.
Local Open Scope N_scope.

Definition digit : piece := one is_decimal.

(** [%m]: [1[0-2]|0[1-9]|[1-9]] *)
Definition pct_m : piece :=
  alt (then_ (lit 49) (one (in_range 48 50)))
      (alt (then_ (lit 48) (one (in_range 49 57))) (one (in_range 49 57))).

(** [%d]: [3[0-1]|[1-2]\d|0[1-9]|[1-9]| [1-9]] *)
Definition pct_d : piece :=
  alt (then_ (lit 51) (one (in_range 48 49)))
      (alt (then_ (one (in_range 49 50)) digit)
           (alt (then_ (lit 48) (one (in_range 49 57)))
                (alt (one (in_range 49 57))
                     (then_ (lit 32) (one (in_range 49 57)))))).

(** [\d{4}] *)
Definition digit4 : piece := then_ digit (then_ digit (then_ digit digit)).

(** [%Y]: [\d\d\d\d] *)
Definition pct_Y : piece := digit4.

(** [\d{1,2}], greedy. *)
Definition digit12 : piece := alt (then_ digit digit) digit.

(** The match of the format ['%m/%d/%Y'] at the head of [s]: the month,
    day and year matched, and the text left. *)
Definition match_format (s : pystr) : option (pystr * pystr * pystr * pystr) :=
  hd_error
    (flat_map (fun m =>
     flat_map (fun s1 =>
     flat_map (fun d =>
     flat_map (fun s2 =>
     map (fun y => (fst m, fst d, fst y, snd y)) (pct_Y (snd s2)))
     (lit 47 (snd d)))
     (pct_d (snd s1)))
     (lit 47 (snd m)))
     (pct_m s)).

(** [datetime.strptime(s, '%m/%d/%Y')]: the whole of [s] has to match, and
    the date has to exist. *)
Definition strptime (s : pystr) : result date :=
  match match_format s with
  | Some (m, d, y, []) =>
      (mo <- int_of_str m ;;
       dy <- int_of_str d ;;
       yr <- int_of_str y ;;
       if valid_date yr mo dy then Ok (mkdate yr mo dy) else Raise ValueError)%py
  | _ => Raise ValueError
  end.

(** [d.strftime(DATE_FORMAT)] with [DATE_FORMAT = '%Y-%m-%d']. *)
Definition strftime (d : date) : pystr :=
  strftime_Y (year d) ++ 45 :: pad2 (month d) ++ 45 :: pad2 (day d).

(** [DATE_RE = \((\d{1,2}/\d{1,2}/\d{4})\)] at the head of [s]: group 1. *)
Definition DATE_RE_match (s : pystr) : option pystr :=
  hd_error
    (flat_map (fun o =>
     flat_map (fun g =>
     map (fun _ => fst g) (lit 41 (snd g)))
     (then_ digit12 (then_ (lit 47) (then_ digit12 (then_ (lit 47) digit4))) (snd o)))
     (lit 40 s)).

(** [DATE_RE.search(s)]: the match at the first position that has one. *)
Fixpoint DATE_RE_search (s : pystr) : option pystr :=
  match DATE_RE_match s with
  | Some g => Some g
  | None =>
      match s with
      | [] => None
      | _ :: r => DATE_RE_search r
      end
  end.

(** [re.match('/ratings/by-issuer/([-\w]+)', href)]: group 1. *)
Definition by_issuer_match (href : pystr) : option pystr :=
  let prefix := py "/ratings/by-issuer/" in
  if starts_with prefix href then
    match takewhile (fun c => (c =? 45) || is_word c) (skipn (List.length prefix) href) with
    | [] => None
    | g => Some g
    end
  else None.

(** [re.match('/stocks/(\w+)', href)]: group 1. *)
Definition stocks_match (href : pystr) : option pystr :=
  let prefix := py "/stocks/" in
  if starts_with prefix href then
    match takewhile is_word (skipn (List.length prefix) href) with
    | [] => None
    | g => Some g
    end
  else None.

End Dates.

(* ================================================================== *)
(** ** The parsed document *)

(** A node of the tree BeautifulSoup builds: a string, a comment, or a tag
    with its attributes (as written in the page) and its children. *)
Inductive node : Type :=
| NavigableString (s : pystr)
| Comment (s : pystr)
| Tag (name : string) (attrs : list (string * pystr)) (contents : list node).

(** [t.descendants]: every node below [t], in document order. *)
Fixpoint descendants (t : node) : list node :=
  match t with
  | Tag _ _ cs => flat_map (fun c => c :: descendants c) cs
  | _ => []
  end.

(** [t.text]: the strings below [t] joined; comments are left out. *)
Fixpoint text (t : node) : pystr :=
  match t with
  | NavigableString s => s
  | Comment _ => []
  | Tag _ _ cs => flat_map text cs
  end.

(** [t.string]: the string of a tag that holds one string and nothing else,
    through any chain of only children. *)
Fixpoint string_of (t : node) : option pystr :=
  match t with
  | NavigableString s => Some s
  | Comment s => Some s
  | Tag _ _ [c] => string_of c
  | Tag _ _ _ => None
  end.

Fixpoint lookup {V} (k : string) (l : list (string * V)) : option V :=
  match l with
  | [] => None
  | (k', v) :: r => if String.eqb k k' then Some v else lookup k r
  end.

(** [t.get(key)] *)
Definition get (t : node) (key : string) : option pystr :=
  match t with
  | Tag _ a _ => lookup key a
  | _ => None
  end.

(** [t.get(key, default=d)] *)
Definition get_default (t : node) (key : string) (d : pystr) : pystr :=
  match get t key with
  | Some v => v
  | None => d
  end.

Definition is_tag (name : string) (t : node) : bool :=
  match t with
  | Tag n _ _ => String.eqb n name
  | _ => false
  end.

(** The filter [{"class": cls}]: one of the words of the class attribute is
    [cls], or the words joined by a blank are. *)
Definition has_class (cls : pystr) (t : node) : bool :=
  match get t "class" with
  | Some v =>
      let ws := tokens v in
      existsb (str_eqb cls) ws || str_eqb (join (py " ") ws) cls
  | None => false
  end.

(** The filter [{key: v}] on an attribute with one value. *)
Definition has_attr (key : string) (v : pystr) (t : node) : bool :=
  match get t key with
  | Some w => str_eqb w v
  | None => false
  end.

(** [t.find_all(...)] and [t.find(...)], the filter given as a test. *)
Definition find_all (p : node -> bool) (t : node) : list node :=
  filter p (descendants t).

Definition find (p : node -> bool) (t : node) : option node :=
  List.find p (descendants t).

(** The place of the first element that passes [p]. *)
Fixpoint position {A} (p : A -> bool) (l : list A) : option nat :=
  match l with
  | [] => None
  | x :: r => if p x then Some O else option_map S (position p r)
  end.

(** The tree after [x.decompose()] for every [x] below [t] that passes [p]. *)
Fixpoint decompose_all (p : node -> bool) (t : node) : node :=
  match t with
  | Tag n a cs =>
      Tag n a
        ((fix go (cs : list node) : list node :=
            match cs with
            | [] => []
            | c :: cs' => if p c then go cs' else decompose_all p c :: go cs'
            end) cs)
  | _ => t
  end.

(** The tree [t] with [f] applied to its descendant number [k]: what the
    document is after the tag at that place was changed in place. *)
Fixpoint update_desc (f : node -> node) (t : node) (k : nat) {struct t} : node :=
  match t with
  | Tag n a cs =>
      Tag n a
        ((fix go (cs : list node) (k : nat) {struct cs} : list node :=
            match cs with
            | [] => []
            | c :: cs' =>
                match k with
                | O => f c :: cs'
                | S k' =>
                    let sz := List.length (descendants c) in
                    if (k' <? sz)%nat then update_desc f c k' :: cs'
                    else c :: go cs' (k' - sz)%nat
                end
            end) cs k)
  | _ => t
  end.

(* ================================================================== *)
(** ** readTable *)

Definition BASE_URL : pystr := py "https://www.marketbeat.com".

(** Rows of this class are advertisements. *)
Definition is_junk (t : node) : bool :=
  is_tag "tr" t && has_class (py "bottom-sort") t.

Section Locate.
Context {R : PyRuntime}.

(** ['.*{}.*'.format(search_string)] *)
Definition heading_pattern (search_string : pystr) : pystr :=
  py ".*" ++ search_string ++ py ".*".

(** The filter of [soup.find("h2", string=re.compile(pat))]: an [h2] whose
    [.string] exists and has a match of the pattern. *)
Definition is_heading (pat : pystr) (t : node) : bool :=
  is_tag "h2" t &&
  match string_of t with
  | Some s => re_search pat s
  | None => false
  end.

(** Lines 34-37: the place of [root] among the descendants of [soup], [None]
    when [root] is [None]. *)
Definition locate_root (soup : node) (search_string : option pystr)
  : result (option nat) :=
  match search_string with
  | None => Ok (position (is_tag "table") (descendants soup))
  | Some h =>
      let pat := heading_pattern h in
      if re_compile_ok pat then
        match position (is_heading pat) (descendants soup) with
        | None => Raise AttributeError
        | Some i =>
            Ok (option_map (fun j => S i + j)%nat
                  (position (is_tag "table") (skipn (S i) (descendants soup))))
        end
      else Raise ReError
  end.

(** Lines 39-58, with [root] the descendant number [k] of [soup]: the
    advertisement rows are removed (from the document too, of which [root]
    is a part), then the header cells and the cells of each body row are
    collected. The message printed for a row whose length differs from the
    header's is no part of the result. *)
Definition table_parts (soup : node) (k : nat) (root0 : node)
  : result (list node * list (list node) * node) :=
  (let root := decompose_all is_junk root0 in
   let soup' := update_desc (decompose_all is_junk) soup k in
   let thead := find (is_tag "thead") root in
   let tbody := find (is_tag "tbody") root in
   th <- attr_of thead ;;
   let headers := find_all (is_tag "th") th in
   tb <- attr_of tbody ;;
   let data := map (find_all (is_tag "td")) (find_all (is_tag "tr") tb) in
   Ok (headers, data, soup'))%py.

(** [readTable(url, search_string)]: the header cells, the cells of each
    body row, and the document. *)
Definition readTable (getSoup : pystr -> node) (url : pystr)
    (search_string : option pystr)
  : result (list node * list (list node) * node) :=
  (let soup := getSoup url in
   r <- locate_root soup search_string ;;
   k <- attr_of r ;;
   root0 <- attr_of (nth_error (descendants soup) k) ;;
   table_parts soup k root0)%py.

End Locate.

(* ================================================================== *)
(** ** Records and the DataFrame *)

(** The values a record holds. *)
Inductive value : Set :=
| VStr (s : pystr)
| VInt (z : Z)
| VFloat (f : pyfloat)
| VNone.

(** A Python [dict] with string keys, in insertion order. *)
Definition dict := list (string * value).

(** A DataFrame: the column labels, and each row's cells in that order. *)
Record DataFrame : Set := mkframe {
  columns : list string;
  rows : list (list value)
}.

(** The keys of [b] that [a] does not hold yet, appended to [a]. *)
Fixpoint union_keys (a b : list string) : list string :=
  match b with
  | [] => a
  | k :: r =>
      if existsb (String.eqb k) a then union_keys a r else union_keys (a ++ [k]) r
  end.

(** The keys of the dicts of [data], in the order they first appear. *)
Definition all_keys (data : list dict) : list string :=
  fold_left (fun acc d => union_keys acc (map fst d)) data [].

(** The value of [d] under [c], NaN when [d] lacks the key. *)
Definition cell_of (d : dict) (c : string) : value :=
  match lookup c d with
  | Some v => v
  | None => VFloat NaN
  end.

(** [pd.DataFrame(data)] for a list of dicts: the columns are the keys in
    the order they first appear, and a key a dict lacks gives NaN. *)
Definition frame_of (data : list dict) : DataFrame :=
  let cols := all_keys data in
  mkframe cols (map (fun d => map (cell_of d) cols) data).

(** [df.drop([label], axis=1, errors='ignore')] *)
Definition drop_column (label : string) (df : DataFrame) : DataFrame :=
  let keep := map (fun c => negb (String.eqb c label)) (columns df) in
  let pick {A} (l : list A) := map snd (filter fst (combine keep l)) in
  mkframe (pick (columns df)) (map pick (rows df)).

(** The cell of [row] under the column [label]. *)
Definition cell (cols : list string) (row : list value) (label : string)
  : option value :=
  lookup label (combine cols row).

(** [df[labels]]: a label that is no column is a [KeyError]. *)
Definition select (labels : list string) (df : DataFrame) : result DataFrame :=
  if forallb (fun l => existsb (String.eqb l) (columns df)) labels then
    Ok (mkframe labels
          (map (fun row => map (fun l => match cell (columns df) row l with
                                         | Some v => v
                                         | None => VFloat NaN
                                         end) labels) (rows df)))
  else Raise KeyError.

(** [df.insert(0, label, col)]: a label that is a column already is a
    [ValueError]. *)
Definition insert_first (label : string) (col : list value) (df : DataFrame)
  : result DataFrame :=
  if existsb (String.eqb label) (columns df) then Raise ValueError
  else Ok (mkframe (label :: columns df)
             (map (fun cr => fst cr :: snd cr) (combine col (rows df)))).

(** [df.to_dict('records')]: the rows as dicts again. *)
Definition records_of (df : DataFrame) : list dict :=
  map (combine (columns df)) (rows df).

Section Parsers.
Context {R : PyRuntime}.

(** [x.astype(str)] on one cell. *)
Definition astype_str (v : value) : pystr :=
  match v with
  | VStr s => s
  | VInt z => str_of_Z z
  | VFloat f => float_repr f
  | VNone => py "None"
  end.

(** The series line 68 computes: one string per row. *)
Definition uid_column (df : DataFrame) : list value :=
  map (fun row => VStr (join (py "_") (map astype_str row))) (rows df).

Definition buildDataFrame (data : list dict) : result DataFrame :=
  (let df := frame_of data in
   let df := drop_column "brokerage_code" df in
   sub <- select ["date"; "symbol"; "brokerage"] df ;;
   let index := uid_column sub in
   insert_first "uid" index df)%py.

(* ================================================================== *)
(** ** Field parsers *)

Definition parseSymbolTag (tag : node) : result (pystr * pystr * pystr) :=
  (d <- attr_of (find (fun t => is_tag "div" t && has_class (py "ticker-area") t) tag) ;;
   let symbol := text d in
   a <- attr_of (find (is_tag "a") tag) ;;
   seg <- index (split 47 (get_default a "href" [])) 2 ;;
   let exchange := strip seg in
   d' <- attr_of (find (fun t => is_tag "div" t && has_class (py "title-area") t) tag) ;;
   let company := text d' in
   Ok (symbol, company, exchange))%py.

Definition parseBrokerageTag (tag : node) : result (pystr * pystr) :=
  (a <- attr_of (find (is_tag "a") tag) ;;
   href <- match get a "href" with
           | Some h => Ok h
           | None => Raise TypeError
           end ;;
   g <- attr_of (by_issuer_match href) ;;
   let brokerage_code := replace (py "-stock-recommendations") [] g in
   a' <- attr_of (find (is_tag "a") tag) ;;
   let brokerage := text a' in
   Ok (brokerage, brokerage_code))%py.

Definition parseAnalystTag (tag : node) : option pystr :=
  let analyst_attr := find (is_tag "a") tag in
  match analyst_attr with
  | Some a => Some (strip (text a))
  | None => None
  end.

Definition parsePriceTargetTag (tag : node) : result pyfloat :=
  let pt := last_of (split ARROW (text tag)) in
  float_of_str (strip (replace (py ",") [] (replace (py "$") [] pt))).

Definition parseRatingTag (tag : node) : result (pystr * Z) :=
  (let rating := strip (last_of (split ARROW (text tag))) in
   rating_code <- int_of_str (get_default tag "data-sort-value" (py "-1")) ;;
   Ok (rating, rating_code))%py.

Definition parseDateTag (tag : node) : result pystr :=
  (d <- strptime (text tag) ;;
   Ok (strftime d))%py.

(* ================================================================== *)
(** ** Workflows *)

Definition opt_str (o : option pystr) : value :=
  match o with
  | Some s => VStr s
  | None => VNone
  end.

(** The dict both [processRow] functions return. *)
Definition record (symbol date exchange action brokerage brokerage_code : pystr)
    (analyst : option pystr) (price_target : pyfloat) (rating : pystr)
    (rating_code : Z) : dict :=
  [ ("symbol", VStr symbol);
    ("date", VStr date);
    ("exchange", VStr exchange);
    ("action", VStr action);
    ("brokerage", VStr brokerage);
    ("brokerage_code", VStr brokerage_code);
    ("analyst", opt_str analyst);
    ("price_target", VFloat price_target);
    ("rating", VStr rating);
    ("rating_code", VInt rating_code) ].

(** Lines 190-195 and 253-258: each row is processed in turn; a record is
    appended, an exception passed over. *)
Definition process_rows (processRow : list node -> result dict)
    (data : list (list node)) : list dict :=
  fold_left (fun row_data row =>
               match processRow row with
               | Ok d => row_data ++ [d]
               | Raise _ => row_data
               end) data [].

(** [processRow] of [getDailyRatingsTable]; [date] is the enclosing
    function's variable. *)
Definition processRow_daily (date : pystr) (row : list node) : result dict :=
  (c0 <- index row 0 ;;
   sce <- parseSymbolTag c0 ;;
   let '(symbol, company, exchange) := sce in
   c1 <- index row 1 ;;
   let action := strip (text c1) in
   c2 <- index row 2 ;;
   bb <- parseBrokerageTag c2 ;;
   let '(brokerage, brokerage_code) := bb in
   c3 <- index row 3 ;;
   let analyst := parseAnalystTag c3 in
   c5 <- index row 5 ;;
   price_target <- parsePriceTargetTag c5 ;;
   c6 <- index row 6 ;;
   rr <- parseRatingTag c6 ;;
   let '(rating, rating_code) := rr in
   Ok (record symbol date exchange action brokerage brokerage_code analyst
         price_target rating rating_code))%py.

(** The filter of [soup.find("div", string=DATE_RE)]. *)
Definition is_date_div (t : node) : bool :=
  is_tag "div" t &&
  match string_of t with
  | Some s => match DATE_RE_search s with Some _ => true | None => false end
  | None => false
  end.

(** Lines 181-187: the date of the batch, read off the document [soup]. *)
Definition resolve_date (today : date) (soup : node) : result pystr :=
  (let date := strftime today in
   let tag := find is_date_div soup in
   match tag with
   | Some t =>
       g <- attr_of (DATE_RE_search (text t)) ;;
       d <- strptime g ;;
       Ok (strftime d)
   | None => Ok date
   end)%py.

Definition getDailyRatingsTable (getSoup : pystr -> node) (today : date)
  : result DataFrame :=
  (let url := BASE_URL ++ py "/ratings/us/" in
   hds <- readTable getSoup url None ;;
   let '(_, data, soup) := hds in
   date <- resolve_date today soup ;;
   let row_data := process_rows (processRow_daily date) data in
   buildDataFrame row_data)%py.

(** [processRow] of [getSymbolRatingsTable]; [symbol] and [exchange] are
    the enclosing function's variables. *)
Definition processRow_symbol (symbol exchange : pystr) (row : list node)
  : result dict :=
  (c0 <- index row 0 ;;
   date <- parseDateTag c0 ;;
   c1 <- index row 1 ;;
   bb <- parseBrokerageTag c1 ;;
   let '(brokerage, brokerage_code) := bb in
   c2 <- index row 2 ;;
   let analyst := parseAnalystTag c2 in
   c3 <- index row 3 ;;
   let action := strip (text c3) in
   c4 <- index row 4 ;;
   rr <- parseRatingTag c4 ;;
   let '(rating, rating_code) := rr in
   c5 <- index row 5 ;;
   price_target <- parsePriceTargetTag c5 ;;
   Ok (record symbol date exchange action brokerage brokerage_code analyst
         price_target rating rating_code))%py.

Definition getSymbolRatingsTable (getSoup : pystr -> node) (symbol : pystr)
  : result DataFrame :=
  (let main_url := BASE_URL ++ py "/stocks/NASDAQ/" ++ symbol in
   let soup := getSoup main_url in
   li <- attr_of (find (fun t => is_tag "li" t && has_attr "id" (py "liAnalystRatings") t) soup) ;;
   a <- attr_of (find (is_tag "a") li) ;;
   href <- match get a "href" with
           | Some h => Ok h
           | None => Raise TypeError
           end ;;
   exchange <- attr_of (stocks_match href) ;;
   let url := BASE_URL ++ href in
   hds <- readTable getSoup url (Some (py "Ratings History")) ;;
   let '(_, data, _) := hds in
   let row_data := process_rows (processRow_symbol symbol exchange) data in
   buildDataFrame row_data)%py.

End Parsers.

(* ================================================================== *)
(** ** A runtime to compute with *)

(** A pattern [.*w.*] gives its [w]. *)
Definition unwrap (p : pystr) : option pystr :=
  match p with
  | 46 :: 42 :: q =>
      match rev q with
      | 42 :: 46 :: w => Some (rev w)
      | _ => None
      end
  | _ => None
  end%N.

(** Decimal digits outside ASCII: the Arabic-Indic and the fullwidth ones. *)
Definition sample_decimal (c : char) : option N :=
  if in_range 1632 1641 c then Some (c - 1632)%N
  else if in_range 65296 65305 c then Some (c - 65296)%N
  else None.

Definition sample_float_repr (f : pyfloat) : pystr :=
  match f with
  | Finite neg m e =>
      (if neg then py "-" else []) ++ str_of_Z (Z.of_N m) ++ py "e" ++ str_of_Z e
  | Inf neg => if neg then py "-inf" else py "inf"
  | NaN => py "nan"
  end.

(** A runtime that knows two blocks of digits outside ASCII and no letter
    there, renders a float as digits and exponent, and compiles the
    patterns [.*w.*] with a plain [w] and no other. *)
Definition sample_runtime : PyRuntime.
Proof.
  refine {| unicode_decimal := sample_decimal;
            unicode_decimal_lt := _;
            unicode_alnum := fun c => match sample_decimal c with
                                      | Some _ => true
                                      | None => false
                                      end;
            float_repr := sample_float_repr;
            strftime_Y := str_of_Z;
            strftime_Y_four := fun y _ => eq_refl;
            re_compile_ok := fun p => match unwrap p with
                                      | Some v => forallb re_plain v
                                      | None => false
                                      end;
            re_search := fun p s => match unwrap p with
                                    | Some v => contains v s
                                    | None => false
                                    end;
            re_search_plain := _ |}.
  - intros c d. unfold sample_decimal, in_range.
    destruct ((1632 <=? c)%N && (c <=? 1641)%N) eqn:E1.
    + apply andb_true_iff in E1 as [H1 H2]. intros [= <-].
      apply N.leb_le in H1, H2. lia.
    + destruct ((65296 <=? c)%N && (c <=? 65305)%N) eqn:E2; [| discriminate].
      apply andb_true_iff in E2 as [H1 H2]. intros [= <-].
      apply N.leb_le in H1, H2. lia.
  - intros w H.
    assert (E : unwrap (py ".*" ++ w ++ py ".*") = Some w).
    { change (py ".*") with [46; 42]%N. cbn [app unwrap].
      rewrite rev_app_distr. cbn [rev app]. now rewrite rev_involutive. }
    rewrite E. now split.
Defined.

(* ================================================================== *)
(** ** Pages to compute with *)

Definition el (name : string) (attrs : list (string * string)) (cs : list node) : node :=
  Tag name (map (fun kv => (fst kv, py (snd kv))) attrs) cs.

Definition txt (s : string) : node := NavigableString (py s).

(** [old ➝ new] *)
Definition arrow_text (old new : string) : node :=
  NavigableString (py old ++ ARROW :: py new).

Definition symbol_cell (ticker company : string) : node :=
  el "td" []
    [el "a" [("href", "/stocks/NASDAQ/" ++ ticker ++ "/")%string]
       [el "div" [("class", "ticker-area")] [txt ticker];
        el "div" [("class", "title-area")] [txt company]]].

Definition brokerage_cell (name slug : string) : node :=
  el "td" [] [el "a" [("href", "/ratings/by-issuer/" ++ slug ++ "/")%string] [txt name]].

Definition analyst_cell (name : string) : node :=
  el "td" [] [el "a" [("href", "/analysts/")] [txt name]].

Definition price_cell : node := Tag "td" [] [arrow_text "$10.00 " " $12.50"].

Definition rating_cell (sort : string) : node :=
  Tag "td" [("data-sort-value", py sort)] [arrow_text "Hold " " Buy"].

(** A row of the daily table: seven cells. *)
Definition daily_row (ticker : string) (rating : node) : node :=
  el "tr" []
    [symbol_cell ticker "Company"; el "td" [] [txt " Upgraded by "];
     brokerage_cell "Morgan Stanley" "morgan-stanley-stock-recommendations";
     analyst_cell " J. Doe "; el "td" [] [txt "$11.00"]; price_cell; rating].

(** An advertisement row. *)
Definition ad_row : node :=
  el "tr" [("class", "bottom-sort")] [el "td" [] [txt "advertisement"]].

Definition header_row : node :=
  el "tr" [] (map (fun h => el "th" [] [txt h])
                ["Company"; "Action"; "Brokerage"; "Analyst"; "Price"; "Target"; "Rating"]).

Definition table_of (body : list node) : node :=
  el "table" [] [el "thead" [] [header_row]; el "tbody" [] body].

Definition page_of (nodes : list node) : node :=
  el "[document]" [] [el "html" [] [el "body" [] nodes]].

(** The daily page: a date marker, and a table of two rows with an
    advertisement between them. *)
Definition daily_page : node :=
  page_of [el "div" [] [txt "Ratings of today (11/3/2026)"];
           table_of [daily_row "AAPL" (rating_cell "3"); ad_row;
                     daily_row "MSFT" (rating_cell "4")]].

Definition clock : date := mkdate 2026 11 4.

(* ================================================================== *)
(** ** Notions the statements use *)

(** The name the specification gives to the failure of the table locator.
    The source defines no exception class of its own. *)
Definition TableNotFoundError : string := "TableNotFoundError".

(** The records of the rows [processRow] accepts, in the order of the rows. *)
Definition survivors (processRow : list node -> result dict)
    (data : list (list node)) : list dict :=
  flat_map (fun row => match processRow row with
                       | Ok d => [d]
                       | Raise _ => []
                       end) data.

(** The keys of the dict [processRow] returns, in its order. *)
Definition record_keys : list string :=
  ["symbol"; "date"; "exchange"; "action"; "brokerage"; "brokerage_code";
   "analyst"; "price_target"; "rating"; "rating_code"].

(** The columns of the Dataset built from such dicts. *)
Definition dataset_columns : list string :=
  ["uid"; "symbol"; "date"; "exchange"; "action"; "brokerage";
   "analyst"; "price_target"; "rating"; "rating_code"].

(** A dict without the key [k]. *)
Definition without (k : string) (d : dict) : dict :=
  filter (fun kv => negb (String.eqb (fst kv) k)) d.

(** [s] with a separator between the three parts of the key. *)
Definition uid_text (date symbol brokerage : pystr) : pystr :=
  date ++ py "_" ++ symbol ++ py "_" ++ brokerage.

(** What follows the first digit of a run: digits, each after at most one
    underscore. The second list holds the digits alone. *)
Inductive run_rest : pystr -> pystr -> Prop :=
| rest_nil : run_rest [] []
| rest_digit d s ds :
    is_ascii_digit d = true -> run_rest s ds -> run_rest (d :: s) (d :: ds)
| rest_under d s ds :
    is_ascii_digit d = true -> run_rest s ds -> run_rest (95%N :: d :: s) (d :: ds).

(** A run of decimal digits, grouped by single underscores if at all. *)
Inductive digit_run : pystr -> pystr -> Prop :=
| digit_run_intro d s ds :
    is_ascii_digit d = true -> run_rest s ds -> digit_run (d :: s) (d :: ds).

(** An optional sign. *)
Inductive sign_text : pystr -> bool -> Prop :=
| sign_none : sign_text [] false
| sign_plus : sign_text [43%N] false
| sign_minus : sign_text [45%N] true.

Definition blanks (ws : pystr) : Prop := Forall (fun c => c_isspace c = true) ws.

(** No blank in [s]. *)
Definition solid (s : pystr) : Prop := Forall (fun c => c_isspace c = false) s.

(** What may follow a run of digits: nothing, or a character that is no
    digit and no underscore. *)
Definition ends_run (rest : pystr) : Prop :=
  match rest with
  | [] => True
  | c :: _ => is_ascii_digit c = false /\ c <> 95%N
  end.

Definition digits_only (ds : pystr) : Prop :=
  Forall (fun c => is_ascii_digit c = true) ds.

Definition spaces (ws : pystr) : Prop := Forall (fun c => py_isspace c = true) ws.

(** [b] is [s] without the blanks at its two ends. *)
Definition trimmed (s b : pystr) : Prop :=
  exists l r,
    s = l ++ b ++ r /\ spaces l /\ spaces r /\
    (forall x t, b = x :: t -> py_isspace x = false) /\
    (forall x t, b = t ++ [x] -> py_isspace x = false).

(** [seg] is what follows the last arrow of [t], the whole of [t] when it
    has no arrow. *)
Definition final_segment (t seg : pystr) : Prop :=
  ~ In ARROW seg /\ (t = seg \/ exists old, t = old ++ ARROW :: seg).

(** [s] without the dollar signs and the commas. *)
Definition unpriced (s : pystr) : pystr :=
  filter (fun c => negb ((c =? 36)%N || (c =? 44)%N)) s.

(** A plain decimal numeral and the float it denotes: digits, or digits, a
    point and digits. *)
Inductive decimal_text : pystr -> pyfloat -> Prop :=
| decimal_whole ip :
    ip <> [] -> digits_only ip ->
    decimal_text ip (Finite false (N_of_digits ip) 0)
| decimal_point ip fp :
    ip <> [] -> digits_only ip -> digits_only fp ->
    decimal_text (ip ++ 46%N :: fp)
      (Finite false (N_of_digits (ip ++ fp)) (- Z.of_nat (List.length fp))).

Section Literals.
Context {R : PyRuntime}.

(** The dict [d] as the builder emits it: the key in front, the brokerage
    code gone. *)
Definition emitted (d : dict) : dict :=
  match lookup "date" d, lookup "symbol" d, lookup "brokerage" d with
  | Some a, Some b, Some c =>
      ("uid", VStr (join (py "_") [astype_str a; astype_str b; astype_str c]))
        :: without "brokerage_code" d
  | _, _, _ => without "brokerage_code" d
  end.

(** [v] is a decimal integer string with the value [z]: once digits and
    spaces outside ASCII are read as their ASCII counterparts, it is blanks,
    an optional sign, a run of digits, blanks. *)
Definition int_literal (v : pystr) (z : Z) : Prop :=
  exists ws1 sg body ds ws2 neg,
    to_ascii v = ws1 ++ sg ++ body ++ ws2 /\
    blanks ws1 /\ blanks ws2 /\ sign_text sg neg /\ digit_run body ds /\
    z = signed neg (N_of_digits ds).

Definition decimal_integer_string (v : pystr) : Prop := exists z, int_literal v z.

(** The digits and the point of a decimal numeral. *)
Definition mantissa_text (m : pystr) : Prop :=
  (exists ip ds, digit_run ip ds /\
     (m = ip \/ m = ip ++ [46%N] \/
      exists fp fs, digit_run fp fs /\ m = ip ++ 46%N :: fp)) \/
  (exists fp fs, digit_run fp fs /\ m = 46%N :: fp).

(** The exponent of a decimal numeral, if it has one. *)
Definition exponent_text (x : pystr) : Prop :=
  x = [] \/
  exists c sg neg body ds,
    (c = 101%N \/ c = 69%N) /\ sign_text sg neg /\ digit_run body ds /\
    x = c :: sg ++ body.

(** The words [float] reads besides numerals. *)
Definition special_text (u : pystr) : Prop :=
  In (map lower u) [py "inf"; py "infinity"; py "nan"].

(** [t] is numeric: blanks, an optional sign, then a decimal numeral (digits
    with an optional point and an optional exponent) or one of the words
    for infinity and not-a-number, blanks. *)
Definition numeric (t : pystr) : Prop :=
  exists ws1 sg neg u ws2,
    to_ascii t = ws1 ++ sg ++ u ++ ws2 /\
    blanks ws1 /\ blanks ws2 /\ sign_text sg neg /\
    (special_text u \/ exists m x, u = m ++ x /\ mantissa_text m /\ exponent_text x).

(** The date the daily workflow takes from the document [soup]: the first
    match of the date pattern in the text of the first [div] whose string
    has one, as a calendar date, and [today] when no [div] has one. *)
Definition page_date (today : date) (soup : node) (iso : pystr) : Prop :=
  (exists before t after g d,
      descendants soup = before ++ t :: after /\
      Forall (fun n => is_date_div n = false) before /\
      is_date_div t = true /\
      DATE_RE_search (text t) = Some g /\
      strptime g = Ok d /\ iso = strftime d) \/
  (Forall (fun n => is_date_div n = false) (descendants soup) /\
   iso = strftime today).

End Literals.

Unset Implicit Arguments.

(** The columns the builder keeps. *)
Definition kept (cols : list string) : list string :=
  filter (fun c => negb (String.eqb c "brokerage_code")) cols.

(** The key line 68 computes for the dict [d]. *)
Definition uid_value {R : PyRuntime} (d : dict) : value :=
  VStr (join (py "_") (map astype_str (map (cell_of d) ["date"; "symbol"; "brokerage"]))).

(** An instance of the dict [processRow] returns, with the date [date]. *)
Definition record_of_date (date : pystr) (d : dict) : Prop :=
  exists symbol exchange action brokerage code analyst price rating rating_code,
    d = record symbol date exchange action brokerage code analyst price rating rating_code.

(** The page of the daily workflow (line 178). *)
Definition ratings_url : pystr := BASE_URL ++ py "/ratings/us/".

(** An [h2] whose string holds [hint]. *)
Definition heading_with (hint : pystr) (t : node) : bool :=
  is_tag "h2" t &&
  match string_of t with
  | Some s => contains hint s
  | None => false
  end.

(** The overview page [page] links to the ratings page [href] of the
    exchange [exchange] (lines 243-246). *)
Definition ratings_link {R : PyRuntime} (page : node) (href exchange : pystr) : Prop :=
  exists li a,
    find (fun t => is_tag "li" t && has_attr "id" (py "liAnalystRatings") t) page = Some li /\
    find (is_tag "a") li = Some a /\
    get a "href" = Some href /\
    stocks_match href = Some exchange.

(** The overview page of a symbol (line 241). *)
Definition overview_url (symbol : pystr) : pystr :=
  BASE_URL ++ py "/stocks/NASDAQ/" ++ symbol.

(* ================================================================== *)
(** ** More pages *)

(** A record as [processRow] builds it. *)
Definition sample_record (symbol brokerage : string) : dict :=
  record (py symbol) (py "2020-01-02") (py "NASDAQ") (py "Upgraded by")
    (py brokerage) (py "smith-barney") None (Finite false 125 (-1)) (py "Buy") 3.

(** A row whose brokerage cell has no link. *)
Definition bad_row (ticker : string) : node :=
  el "tr" []
    [symbol_cell ticker "Company"; el "td" [] [txt "Downgraded by"];
     el "td" [] [txt "Morgan Stanley"];
     analyst_cell "J. Doe"; el "td" [] [txt "$11.00"]; price_cell; rating_cell "2"].

(** The date marker of the daily page. *)
Definition marker : node := el "div" [] [txt "Ratings of today (11/3/2026)"].

(** A daily page with a row that does not parse between two that do. *)
Definition mixed_page : node :=
  page_of [marker;
           table_of [daily_row "AAPL" (rating_cell "3"); bad_row "IBM"; ad_row;
                     daily_row "MSFT" (rating_cell "4")]].

(** A daily page whose only row does not parse. *)
Definition single_bad_page : node := page_of [marker; table_of [bad_row "IBM"]].

(** A daily page whose table has no thead. *)
Definition no_thead_page : node :=
  page_of [marker;
           el "table" [] [el "tbody" [] [daily_row "AAPL" (rating_cell "3")]]].

(** A daily page whose date marker is no date. *)
Definition bad_date_page : node :=
  page_of [el "div" [] [txt "Ratings of today (13/45/2026)"];
           table_of [daily_row "AAPL" (rating_cell "3")]].

(** A daily page whose date marker stands in a paragraph. *)
Definition paragraph_page : node :=
  page_of [el "p" [] [txt "Ratings of today (11/3/2026)"];
           table_of [daily_row "AAPL" (rating_cell "3");
                     daily_row "MSFT" (rating_cell "4")]].

(** A page with two headings, each followed by a table. *)
Definition history_page : node :=
  page_of [el "h2" [] [txt "Insider Trades"];
           table_of [daily_row "AAPL" (rating_cell "1")];
           el "h2" [] [txt "AAPL Ratings History"];
           el "p" [] [txt "The ratings of the last year."];
           table_of [daily_row "AAPL" (rating_cell "3")]].

(** A page whose heading is in capitals. *)
Definition upper_page : node :=
  page_of [el "h2" [] [txt "RATINGS HISTORY"];
           table_of [daily_row "AAPL" (rating_cell "3")]].

(** A page without the heading looked for. *)
Definition other_page : node :=
  page_of [el "h2" [] [txt "Insider Trades"];
           table_of [daily_row "AAPL" (rating_cell "1")]].

(** What [readTable] returned. *)
Definition parts_of (r : result (list node * list (list node) * node))
  : list node * list (list node) * node :=
  match r with
  | Ok p => p
  | Raise _ => ([], [], NavigableString [])
  end.

(** A page whose heading no table follows. *)
Definition lonely_page : node :=
  page_of [table_of [daily_row "AAPL" (rating_cell "1")];
           el "h2" [] [txt "Ratings History"];
           el "p" [] [txt "No rating yet."]].

(** A URL and the hint of the symbol workflow. *)
Definition nowhere : pystr := py "https://www.marketbeat.com/stocks/NASDAQ/AAPL/price-target/".

Definition history_hint : pystr := py "Ratings History".

(** The cells of a table row, as [readTable] collects them. *)
Definition cells (tr : node) : list node := find_all (is_tag "td") tr.

(** A row of the ratings history of a symbol: six cells. *)
Definition history_row (day : string) (rating : node) : node :=
  el "tr" []
    [el "td" [] [txt day];
     brokerage_cell "Morgan Stanley" "34";
     analyst_cell "J. Doe"; el "td" [] [txt "Boost Price Target"]; rating; price_cell].

(** The overview page of a symbol, with the link to its ratings. *)
Definition overview_page : node :=
  page_of [el "ul" []
             [el "li" [("id", "liProfile")] [el "a" [("href", "/stocks/NYSE/IBM/")] [txt "Profile"]];
              el "li" [("id", "liAnalystRatings")]
                [el "a" [("href", "/stocks/NYSE/IBM/price-target/")] [txt "Analyst Ratings"]]]].

(** The ratings page of a symbol; the date of its second row does not
    exist. *)
Definition symbol_page : node :=
  page_of [el "h2" [] [txt "IBM Ratings History"];
           table_of [history_row "11/3/2026" (rating_cell "3");
                     history_row "2/30/2026" (rating_cell "3");
                     history_row "9/1/2025" (rating_cell "2")]].

(** The two pages of the symbol workflow, by URL. *)
Definition web (url : pystr) : node :=
  if str_eqb url (overview_url (py "IBM")) then overview_page else symbol_page.

(* ================================================================== *)
(** ** Further notions *)

(** *** The builder *)

(** Some dict of [data] has the key [k]. *)
Definition has_key (k : string) (data : list dict) : bool :=
  existsb (fun d => existsb (String.eqb k) (map fst d)) data.

(** The dicts hold, between them, the three keys line 68 reads. *)
Definition keyed (data : list dict) : bool :=
  has_key "date" data && has_key "symbol" data && has_key "brokerage" data.

(** The uid of row [i] of a Dataset. *)
Definition uid_at (df : DataFrame) (i : nat) : option value :=
  option_map (hd VNone) (nth_error (rows df) i).

(** The dict [r] has the strings [d], [s] and [b] under the three keys. *)
Definition keyed_by (r : dict) (d s b : pystr) : Prop :=
  lookup "date" r = Some (VStr d) /\
  lookup "symbol" r = Some (VStr s) /\
  lookup "brokerage" r = Some (VStr b).

Definition UNDERSCORE : char := 95%N.

(** *** The cells *)

Definition SLASH : char := 47%N.

(** The filters of lines 78 and 80. *)
Definition is_ticker_area (t : node) : bool :=
  is_tag "div" t && has_class (py "ticker-area") t.

Definition is_title_area (t : node) : bool :=
  is_tag "div" t && has_class (py "title-area") t.

(** The number of slashes of [s]. *)
Definition slashes (s : pystr) : nat := count_occ N.eq_dec s SLASH.

(** [seg] is the third of the fields the slashes of [href] separate. *)
Definition third_field (href seg : pystr) : Prop :=
  exists p0 p1 tail,
    href = p0 ++ SLASH :: p1 ++ SLASH :: seg ++ tail /\
    ~ In SLASH p0 /\ ~ In SLASH p1 /\ ~ In SLASH seg /\
    (tail = [] \/ exists t, tail = SLASH :: t).

(** The text line 93 removes from the group. *)
Definition SUFFIX : pystr := py "-stock-recommendations".

Definition ISSUER_PREFIX : pystr := py "/ratings/by-issuer/".

(** [[-\w]] *)
Definition is_slug_char {R : PyRuntime} (c : char) : bool := (c =? 45)%N || is_word c.

(** [href] starts with the prefix [prefix]; [g] is the longest run of
    characters passing [p] that follows, and it is not empty. *)
Definition group_after (prefix : pystr) (p : char -> bool) (href g : pystr) : Prop :=
  exists rest,
    href = prefix ++ g ++ rest /\ g <> [] /\ forallb p g = true /\
    match rest with [] => True | c :: _ => p c = false end.

Definition DASH : char := 45%N.

(** [s] spells [n], with a zero in front of a single digit or without. *)
Definition numeral (n : Z) (s : pystr) : Prop := s = str_of_Z n \/ s = pad2 n.

(** [m/d/y] *)
Definition date_text (ms ds ys : pystr) : pystr := ms ++ SLASH :: ds ++ SLASH :: ys.

(** [yyyy-mm-dd] *)
Definition iso_text (y m d : Z) : pystr :=
  str_of_Z y ++ DASH :: pad2 m ++ DASH :: pad2 d.

(** The [n] integers from [z] on. *)
Fixpoint upto (n : nat) (z : Z) : list Z :=
  match n with
  | O => []
  | S n' => z :: upto n' (z + 1)%Z
  end.

(** *** The document *)

(** The children of a tag after [update_desc]. *)
Fixpoint update_children (f : node -> node) (cs : list node) (k : nat) : list node :=
  match cs with
  | [] => []
  | c :: cs' =>
      match k with
      | O => f c :: cs'
      | S k' =>
          let sz := List.length (descendants c) in
          if (k' <? sz)%nat then update_desc f c k' :: cs'
          else c :: update_children f cs' (k' - sz)%nat
      end
  end.

(** *** The workflows *)

(** The first div with a date marker spells a date that does not exist. *)
Definition bad_marker {R : PyRuntime} (soup : node) : Prop :=
  exists t g,
    find is_date_div soup = Some t /\ DATE_RE_search (text t) = Some g /\
    strptime g = Raise ValueError.

(** The first div with a date marker holds it where [.text] does not show
    it: in a comment. *)
Definition hidden_marker {R : PyRuntime} (soup : node) : Prop :=
  exists t, find is_date_div soup = Some t /\ DATE_RE_search (text t) = None.

(** The filter of line 243. *)
Definition is_ratings_item (t : node) : bool :=
  is_tag "li" t && has_attr "id" (py "liAnalystRatings") t.

(** What line 243 finds on the overview page: nothing, an item without an
    anchor, an anchor without [href], or the [href]. *)
Inductive link_state (page : node) : option pystr -> Prop :=
| link_href li a href :
    find is_ratings_item page = Some li -> find (is_tag "a") li = Some a ->
    get a "href" = Some href -> link_state page (Some href)
| link_bare li a :
    find is_ratings_item page = Some li -> find (is_tag "a") li = Some a ->
    get a "href" = None -> link_state page None.

(** The overview page has no item of the ratings, or the item no anchor. *)
Definition no_link (page : node) : Prop :=
  find is_ratings_item page = None \/
  exists li, find is_ratings_item page = Some li /\ find (is_tag "a") li = None.


Definition LPAREN : char := 40%N.
Definition RPAREN : char := 41%N.

(** One or two decimal digits. *)
Definition short_run {R : PyRuntime} (s : pystr) : Prop :=
  (1 <= List.length s <= 2)%nat /\ forallb is_decimal s = true.

(** [\d{1,2}/\d{1,2}/\d{4}] *)
Definition date_shaped {R : PyRuntime} (g : pystr) : Prop :=
  exists a b c,
    g = date_text a b c /\ short_run a /\ short_run b /\
    List.length c = 4%nat /\ forallb is_decimal c = true.

(** [s] holds the marker [(g)] after [pre]. *)
Definition marked (s pre g post : pystr) : Prop :=
  s = pre ++ LPAREN :: g ++ RPAREN :: post.

(** A daily page whose date marker names a day the year does not have. *)
Definition leap_page : node :=
  page_of [el "div" [] [txt "Ratings of today (2/29/2026)"];
           table_of [daily_row "AAPL" (rating_cell "3")]].

(** The exceptions a row can end with. *)
Definition row_errors : list exn := [AttributeError; IndexError; TypeError; ValueError].

(* ================================================================== *)
(** ** Tactics *)

(** One step through a chain of binds that ended in [Ok]. *)
Ltac bind_step H :=
  match type of H with
  | match ?x with _ => _ end = Ok _ => destruct x eqn:?; try discriminate H
  end.

(** A chain of binds one of whose steps raises, by [He]. *)
Ltac raise_through He :=
  cbn beta iota; rewrite He;
  repeat match goal with
         | |- exists _, match ?x with _ => _ end = Raise _ =>
             destruct x; cbn beta iota
         end;
  eexists; reflexivity.

(** Every case of an integer between two bounds. *)
Ltac each_of H :=
  vm_compute in H;
  repeat match type of H with
         | _ \/ _ => destruct H as [H | H]
         end;
  [subst .. | destruct H].

(** One step through a chain of binds that ended in [Raise]. *)
Ltac raise_step H :=
  match type of H with
  | match ?x with _ => _ end = Raise _ =>
      destruct x eqn:?; cbn beta iota in H
  | Raise _ = Raise _ => injection H as <-
  | Ok _ = Raise _ => discriminate H
  end.

(* ================================================================== *)
(** * Properties *)

(** ** The embedding at work *)

Example int_of_str_examples :
  map (int_of_str (R := sample_runtime))
    [py "3"; py " +1_000 "; py "-1"; [1635%N]; py ""; py "3.0"; py "1__0"; py "n/a"]
  = [Ok 3%Z; Ok 1000%Z; Ok (-1)%Z; Ok 3%Z;
     Raise ValueError; Raise ValueError; Raise ValueError; Raise ValueError].
Proof. vm_compute. reflexivity. Qed.

Example float_of_str_examples :
  map (float_of_str (R := sample_runtime))
    [py "12.50"; py " 1_250.5e-1 "; py "-.5"; py "7."; py "Infinity"; py "nan";
     py ""; py "."; py "1e"; py "12.5.0"; py "$12"]
  = [Ok (Finite false 1250 (-2)); Ok (Finite false 12505 (-2));
     Ok (Finite true 5 (-1)); Ok (Finite false 7 0); Ok (Inf false); Ok NaN;
     Raise ValueError; Raise ValueError; Raise ValueError; Raise ValueError;
     Raise ValueError].
Proof. vm_compute. reflexivity. Qed.

Example strptime_examples :
  map (strptime (R := sample_runtime))
    [py "11/3/2026"; py "02/29/2024"; py "2/29/2023"; py "13/1/2026";
     py "1/1/0000"; py "1/1/2026 "]
  = [Ok (mkdate 2026 11 3); Ok (mkdate 2024 2 29); Raise ValueError;
     Raise ValueError; Raise ValueError; Raise ValueError].
Proof. vm_compute. reflexivity. Qed.

Example DATE_RE_examples :
  map (DATE_RE_search (R := sample_runtime))
    [py "as of (11/3/2026), then (1/2/2027)"; py "(11/3/26)"; py "11/3/2026"]
  = [Some (py "11/3/2026"); None; None].
Proof. vm_compute. reflexivity. Qed.

Example parseBrokerageTag_examples :
  map (parseBrokerageTag (R := sample_runtime))
    [brokerage_cell "Morgan Stanley" "morgan-stanley-stock-recommendations";
     brokerage_cell "Morgan Stanley" "34";
     el "td" [] [txt "Morgan Stanley"];
     el "td" [] [el "a" [] [txt "Morgan Stanley"]];
     el "td" [] [el "a" [("href", "/ratings/")] [txt "Morgan Stanley"]]]
  = [Ok (py "Morgan Stanley", py "morgan-stanley"); Ok (py "Morgan Stanley", py "34");
     Raise AttributeError; Raise TypeError; Raise AttributeError].
Proof. vm_compute. reflexivity. Qed.

Example parseSymbolTag_example :
  parseSymbolTag (symbol_cell "AAPL" "Apple") = Ok (py "AAPL", py "Apple", py "NASDAQ").
Proof. vm_compute. reflexivity. Qed.

Example daily_page_example :
  match getDailyRatingsTable (R := sample_runtime) (fun _ => daily_page) clock with
  | Ok df =>
      columns df = dataset_columns /\
      map (fun r => (lookup "uid" r, lookup "rating" r, lookup "rating_code" r,
                     lookup "price_target" r, lookup "analyst" r))
        (records_of df)
      = [(Some (VStr (py "2026-11-03_AAPL_Morgan Stanley")), Some (VStr (py "Buy")),
          Some (VInt 3), Some (VFloat (Finite false 1250 (-2))), Some (VStr (py "J. Doe")));
         (Some (VStr (py "2026-11-03_MSFT_Morgan Stanley")), Some (VStr (py "Buy")),
          Some (VInt 4), Some (VFloat (Finite false 1250 (-2))), Some (VStr (py "J. Doe")))]
  | Raise _ => False
  end.
Proof. vm_compute. split; reflexivity. Qed.

(** ** Strings *)

Lemma str_eqb_eq a b : str_eqb a b = true <-> a = b.
Proof.
  revert b. induction a as [| x a IH]; intros [| y b]; cbn; try easy.
  rewrite andb_true_iff, N.eqb_eq, IH. split.
  - now intros [-> ->].
  - now intros [= -> ->].
Qed.

Lemma str_eqb_refl a : str_eqb a a = true.
Proof. now apply str_eqb_eq. Qed.

Lemma split_nonempty sep s : split sep s <> [].
Proof.
  destruct s as [| c r]; cbn; [easy |].
  destruct (c =? sep)%N; [easy |]. now destruct (split sep r).
Qed.

Lemma split_app sep a b : split sep (a ++ sep :: b) = split sep a ++ split sep b.
Proof.
  induction a as [| c a IH]; cbn.
  - now rewrite N.eqb_refl.
  - destruct (c =? sep)%N; [now rewrite IH |].
    rewrite IH. pose proof (split_nonempty sep a) as Hne.
    now destruct (split sep a).
Qed.

Lemma split_none sep s : ~ In sep s -> split sep s = [s].
Proof.
  induction s as [| c s IH]; cbn; [easy |]. intros H.
  destruct (N.eqb_spec c sep) as [-> | _]; [tauto |].
  rewrite IH by tauto. reflexivity.
Qed.

(** The last piece of a split is the text after the last separator. *)
Lemma last_of_split_after sep old seg :
  ~ In sep seg -> last_of (split sep (old ++ sep :: seg)) = seg.
Proof.
  intros H. rewrite split_app, (split_none _ _ H). unfold last_of.
  now rewrite last_last.
Qed.

Lemma last_of_split_whole sep seg :
  ~ In sep seg -> last_of (split sep seg) = seg.
Proof. intros H. now rewrite (split_none _ _ H). Qed.

(** Replacing one character by nothing removes it everywhere. *)
Lemma replace_char c s :
  replace [c] [] s = filter (fun x => negb (x =? c)%N) s.
Proof.
  unfold replace. induction s as [| x s IH]; cbn; [reflexivity |].
  rewrite andb_true_r, N.eqb_sym. destruct (x =? c)%N; cbn; now rewrite IH.
Qed.

Lemma dropwhile_all {A} (p : A -> bool) l r :
  Forall (fun x => p x = true) l -> dropwhile p (l ++ r) = dropwhile p r.
Proof. induction 1 as [| x l Hx _ IH]; cbn; [reflexivity |]. now rewrite Hx. Qed.

Lemma dropwhile_stop {A} (p : A -> bool) x r :
  p x = false -> dropwhile p (x :: r) = x :: r.
Proof. intros H. cbn. now rewrite H. Qed.

Lemma dropwhile_split {A} (p : A -> bool) l :
  exists a, l = a ++ dropwhile p l /\ Forall (fun x => p x = true) a.
Proof.
  induction l as [| x l (a & E & Ha)]; cbn.
  - now exists [].
  - destruct (p x) eqn:Hx.
    + exists (x :: a). split; [cbn; now f_equal | now constructor].
    + now exists [].
Qed.

Lemma dropwhile_head {A} (p : A -> bool) l x r :
  dropwhile p l = x :: r -> p x = false.
Proof.
  induction l as [| y l IH]; cbn; [easy |].
  destruct (p y) eqn:Hy; [exact IH |]. now intros [= <- <-].
Qed.

(** [strip] returns the text between the blanks at both ends. *)
Lemma strip_between l body r x y mid :
  Forall (fun c => py_isspace c = true) l ->
  Forall (fun c => py_isspace c = true) r ->
  body = x :: mid -> last body x = y ->
  py_isspace x = false -> py_isspace y = false ->
  strip (l ++ body ++ r) = body.
Proof.
  intros Hl Hr -> Hy Hx Hy'. unfold strip, lstrip, rstrip.
  rewrite dropwhile_all by exact Hl.
  change ((x :: mid) ++ r) with (x :: (mid ++ r)).
  rewrite dropwhile_stop by exact Hx.
  change (x :: mid ++ r) with ((x :: mid) ++ r).
  rewrite rev_app_distr, dropwhile_all.
  2:{ apply Forall_forall. intros c Hc. apply in_rev in Hc.
      revert c Hc. now apply Forall_forall. }
  destruct (rev (x :: mid)) as [| z w] eqn:E.
  - apply (f_equal (@rev _)) in E. now rewrite rev_involutive in E.
  - assert (z = y) as ->.
    { apply (f_equal (@rev _)) in E. rewrite rev_involutive in E. cbn in E.
      rewrite E, last_last in Hy. now symmetry. }
    rewrite dropwhile_stop by exact Hy'. rewrite <- E. apply rev_involutive.
Qed.

Lemma strip_trimmed s :
  exists l r,
    s = l ++ strip s ++ r /\
    Forall (fun c => py_isspace c = true) l /\
    Forall (fun c => py_isspace c = true) r /\
    (forall x t, strip s = x :: t -> py_isspace x = false) /\
    (forall x t, strip s = t ++ [x] -> py_isspace x = false).
Proof.
  unfold strip, lstrip, rstrip.
  destruct (dropwhile_split py_isspace s) as (l & El & Hl).
  destruct (dropwhile_split py_isspace (rev (dropwhile py_isspace s))) as (r & Er & Hr).
  set (u := dropwhile py_isspace s) in *.
  set (v := dropwhile py_isspace (rev u)) in *.
  assert (Eu : u = rev v ++ rev r).
  { rewrite <- rev_app_distr, <- Er. symmetry. apply rev_involutive. }
  exists l, (rev r). repeat split.
  - now rewrite <- Eu.
  - exact Hl.
  - apply Forall_forall. intros c Hc. apply in_rev in Hc.
    revert c Hc. now apply Forall_forall.
  - intros x t E. apply (dropwhile_head py_isspace s x (t ++ rev r)).
    fold u. now rewrite Eu, E.
  - intros x t E. apply (dropwhile_head py_isspace (rev u) x (rev t)).
    fold v. rewrite <- (rev_involutive v), E, rev_app_distr. reflexivity.
Qed.

(** ** Integers *)

Section NumberFacts.
Context {R : PyRuntime}.

Lemma digit_bounds c : is_ascii_digit c = true -> (48 <= c <= 57)%N.
Proof.
  unfold is_ascii_digit, in_range. rewrite andb_true_iff, !N.leb_le. tauto.
Qed.

Lemma digit_not_space c : is_ascii_digit c = true -> c_isspace c = false.
Proof.
  intros H%digit_bounds. unfold c_isspace, in_range.
  destruct (N.leb_spec 9 c), (N.leb_spec c 13), (N.eqb_spec c 32); cbn; trivial; lia.
Qed.

Lemma space_not_digit c : c_isspace c = true -> is_ascii_digit c = false /\ c <> 95%N /\ c <> 43%N /\ c <> 45%N.
Proof.
  unfold c_isspace, is_ascii_digit, in_range. intros H.
  destruct (N.leb_spec 9 c), (N.leb_spec c 13), (N.eqb_spec c 32),
    (N.leb_spec 48 c), (N.leb_spec c 57); cbn in *; try discriminate;
    repeat split; trivial; lia.
Qed.

Lemma sign_sound t neg u :
  sign t = (neg, u) -> exists sg, t = sg ++ u /\ sign_text sg neg.
Proof.
  unfold sign. destruct t as [| c r].
  - intros [= <- <-]. exists []. split; [reflexivity | constructor].
  - destruct (N.eqb_spec c 43) as [-> | _].
    + intros [= <- <-]. exists [43%N]. split; [reflexivity | constructor].
    + destruct (N.eqb_spec c 45) as [-> | _]; intros [= <- <-].
      * exists [45%N]. split; [reflexivity | constructor].
      * exists []. split; [reflexivity | constructor].
Qed.

Lemma sign_of_text sg neg u :
  sign_text sg neg ->
  match u with [] => True | c :: _ => c <> 43%N /\ c <> 45%N end ->
  sign (sg ++ u) = (neg, u).
Proof.
  intros [| |] Hu; cbn; trivial.
  destruct u as [| c r]; [reflexivity |]. destruct Hu as [H1 H2].
  unfold sign. now rewrite (proj2 (N.eqb_neq _ _) H1), (proj2 (N.eqb_neq _ _) H2).
Qed.

Lemma to_ascii_id s : Forall (fun c => (c < 127)%N) s -> to_ascii s = s.
Proof.
  induction 1 as [| c s Hc _ IH]; cbn; [reflexivity |].
  now rewrite (proj2 (N.ltb_lt _ _) Hc), IH.
Qed.

Lemma run_tail_sound s : forall ds rest,
  run_tail s = Some (ds, rest) -> exists body, s = body ++ rest /\ run_rest body ds.
Proof.
  induction s as [s IH] using (well_founded_induction
    (Wf_nat.well_founded_ltof _ (@List.length char))).
  intros ds rest. destruct s as [| c r]; cbn.
  - intros [= <- <-]. exists []. split; [reflexivity | constructor].
  - destruct (is_ascii_digit c) eqn:Hc.
    + destruct (run_tail r) as [[ds' rest'] |] eqn:E; cbn; [| discriminate].
      intros [= <- <-]. destruct (IH r (Nat.lt_succ_diag_r _) _ _ E) as (body & -> & Hb).
      exists (c :: body). split; [reflexivity | now constructor].
    + destruct (c =? 95)%N eqn:H95.
      * apply N.eqb_eq in H95 as ->. destruct r as [| d r']; [discriminate |].
        destruct (is_ascii_digit d) eqn:Hd; [| discriminate].
        destruct (run_tail r') as [[ds' rest'] |] eqn:E; cbn; [| discriminate].
        intros [= <- <-].
        destruct (IH r' (Nat.lt_lt_succ_r _ _ (Nat.lt_succ_diag_r _)) _ _ E) as (body & -> & Hb).
        exists (95%N :: d :: body). split; [reflexivity | now constructor].
      * intros [= <- <-]. exists []. split; [reflexivity | constructor].
Qed.

Lemma run_sound s ds rest :
  run s = Some (ds, rest) -> exists body, s = body ++ rest /\ digit_run body ds.
Proof.
  destruct s as [| c r]; cbn; [discriminate |].
  destruct (is_ascii_digit c) eqn:Hc; [| discriminate].
  destruct (run_tail r) as [[ds' rest'] |] eqn:E; cbn; [| discriminate].
  intros [= <- <-]. destruct (run_tail_sound _ _ _ E) as (body & -> & Hb).
  exists (c :: body). split; [reflexivity | now constructor].
Qed.

Lemma run_tail_complete body ds rest :
  run_rest body ds -> ends_run rest -> run_tail (body ++ rest) = Some (ds, rest).
Proof.
  intros Hb Hr. induction Hb as [| d s ds Hd _ IH | d s ds Hd _ IH]; cbn.
  - destruct rest as [| c r]; [reflexivity |]. destruct Hr as [Hc H95]. cbn.
    now rewrite Hc, (proj2 (N.eqb_neq _ _) H95).
  - now rewrite Hd, IH.
  - now rewrite Hd, IH.
Qed.

Lemma run_complete body ds rest :
  digit_run body ds -> ends_run rest -> run (body ++ rest) = Some (ds, rest).
Proof.
  intros [d s ds' Hd Hs] Hr. cbn. now rewrite Hd, (run_tail_complete _ _ _ Hs Hr).
Qed.

Lemma blanks_end_run ws : blanks ws -> ends_run ws.
Proof.
  intros [| c r Hc _]; cbn; [trivial |].
  destruct (space_not_digit _ Hc) as (H1 & H2 & _). now split.
Qed.

Lemma digit_run_head body ds :
  digit_run body ds -> exists d s, body = d :: s /\ is_ascii_digit d = true.
Proof. intros [d s ds' Hd _]. now exists d, s. Qed.

Lemma int_of_str_outcome v :
  (exists z, int_of_str v = Ok z) \/ int_of_str v = Raise ValueError.
Proof.
  unfold int_of_str. destruct (sign _) as [neg u].
  destruct (run u) as [[ds rest] |]; [| now right].
  destruct (dropwhile c_isspace rest); [left; eauto | now right].
Qed.

(** [int] accepts the decimal integer strings, with their value, and
    nothing else. *)
Lemma int_of_str_sound v z : int_of_str v = Ok z -> int_literal v z.
Proof.
  unfold int_of_str.
  destruct (dropwhile_split c_isspace (to_ascii v)) as (ws1 & E1 & H1).
  destruct (sign (dropwhile c_isspace (to_ascii v))) as [neg u] eqn:Es.
  destruct (sign_sound _ _ _ Es) as (sg & E2 & Hsg).
  destruct (run u) as [[ds rest] |] eqn:Er; [| discriminate].
  destruct (run_sound _ _ _ Er) as (body & -> & Hb).
  destruct (dropwhile_split c_isspace rest) as (ws2 & E3 & H3).
  destruct (dropwhile c_isspace rest); [| discriminate].
  intros [= <-]. rewrite app_nil_r in E3. subst rest.
  exists ws1, sg, body, ds, ws2, neg. repeat split; trivial.
  now rewrite E1 at 1; rewrite E2.
Qed.

Lemma int_of_str_complete v z : int_literal v z -> int_of_str v = Ok z.
Proof.
  intros (ws1 & sg & body & ds & ws2 & neg & E & H1 & H2 & Hsg & Hb & ->).
  unfold int_of_str. rewrite E, (dropwhile_all _ _ _ H1).
  destruct (digit_run_head _ _ Hb) as (d & s & -> & Hd).
  assert (Hstop : dropwhile c_isspace (sg ++ (d :: s) ++ ws2) = sg ++ (d :: s) ++ ws2).
  { destruct Hsg; cbn; trivial. now rewrite (digit_not_space _ Hd). }
  rewrite Hstop, (sign_of_text sg neg _ Hsg).
  2:{ cbn. apply digit_bounds in Hd. lia. }
  rewrite (run_complete _ _ _ Hb (blanks_end_run _ H2)).
  rewrite <- (app_nil_r ws2), (dropwhile_all _ _ _ H2). reflexivity.
Qed.

(** ** Floats *)

Lemma float_of_str_outcome t :
  (exists f, float_of_str t = Ok f) \/ float_of_str t = Raise ValueError.
Proof.
  unfold float_of_str. destruct (sign _) as [neg u].
  destruct (special neg u); [left; eauto |].
  destruct (number u) as [[[m e] [| c r]] |]; [left; eauto | now right | now right].
Qed.

Lemma special_sound neg u f : special neg u = Some f -> special_text u.
Proof.
  unfold special, special_text.
  destruct (str_eqb (map lower u) (py "inf")) eqn:E1.
  { apply str_eqb_eq in E1. rewrite E1. intros _. now left. }
  destruct (str_eqb (map lower u) (py "infinity")) eqn:E2.
  { apply str_eqb_eq in E2. rewrite E2. intros _. right. now left. }
  destruct (str_eqb (map lower u) (py "nan")) eqn:E3; [| discriminate].
  apply str_eqb_eq in E3. rewrite E3. intros _. right. right. now left.
Qed.

Lemma exponent_sound ds n s m e rest :
  exponent ds n s = (m, e, rest) -> exists x, s = x ++ rest /\ exponent_text x.
Proof.
  unfold exponent. destruct s as [| c r].
  { intros [= _ _ <-]. exists []. split; [reflexivity | now left]. }
  destruct ((c =? 101)%N || (c =? 69)%N) eqn:Hc.
  2:{ intros [= _ _ <-]. exists []. split; [reflexivity | now left]. }
  destruct (sign r) as [eneg r'] eqn:Es.
  destruct (run r') as [[es rest'] |] eqn:Er.
  2:{ intros [= _ _ <-]. exists []. split; [reflexivity | now left]. }
  intros [= _ _ <-].
  destruct (sign_sound _ _ _ Es) as (sg & -> & Hsg).
  destruct (run_sound _ _ _ Er) as (body & -> & Hb).
  exists (c :: sg ++ body). split; [cbn; now rewrite <- app_assoc |].
  right. exists c, sg, eneg, body, es. repeat split; trivial.
  apply orb_true_iff in Hc as [H | H]; apply N.eqb_eq in H; tauto.
Qed.

Lemma point_sound s r : point s = Some r -> s = 46%N :: r.
Proof.
  destruct s as [| c t]; cbn; [discriminate |].
  destruct (N.eqb_spec c 46) as [-> | _]; [now intros [= ->] | discriminate].
Qed.

Lemma number_sound u m e rest :
  number u = Some (m, e, rest) ->
  exists mant x, u = mant ++ x ++ rest /\ mantissa_text mant /\ exponent_text x.
Proof.
  unfold number.
  destruct (run u) as [[ip r1] |] eqn:Ei.
  - destruct (run_sound _ _ _ Ei) as (bi & -> & Hi).
    destruct (point r1) as [r2 |] eqn:Ep.
    + apply point_sound in Ep as ->.
      destruct (run r2) as [[fp r3] |] eqn:Ef.
      * destruct (run_sound _ _ _ Ef) as (bf & -> & Hf).
        intros [= H]. destruct (exponent_sound _ _ _ _ _ _ H) as (x & -> & Hx).
        exists (bi ++ 46%N :: bf), x. split; [| split; trivial].
        { now rewrite <- app_assoc. }
        left. exists bi, ip. split; trivial. right. right. now exists bf, fp.
      * intros [= H]. destruct (exponent_sound _ _ _ _ _ _ H) as (x & -> & Hx).
        exists (bi ++ [46%N]), x. split; [| split; trivial].
        { now rewrite <- app_assoc. }
        left. exists bi, ip. split; trivial. right. now left.
    + intros [= H]. destruct (exponent_sound _ _ _ _ _ _ H) as (x & -> & Hx).
      exists bi, x. split; [| split; trivial]; trivial.
      left. exists bi, ip. split; trivial. now left.
  - destruct (point u) as [r2 |] eqn:Ep; [| discriminate].
    apply point_sound in Ep as ->.
    destruct (run r2) as [[fp r3] |] eqn:Ef; [| discriminate].
    destruct (run_sound _ _ _ Ef) as (bf & -> & Hf).
    intros [= H]. destruct (exponent_sound _ _ _ _ _ _ H) as (x & -> & Hx).
    exists (46%N :: bf), x. split; [| split; trivial]; trivial.
    right. now exists bf, fp.
Qed.

Lemma blanks_rev ws : blanks ws -> blanks (rev ws).
Proof.
  unfold blanks. rewrite !Forall_forall. intros H c Hc. apply H. now apply in_rev.
Qed.

(** What [float] accepts is numeric. *)
Lemma float_of_str_sound t f : float_of_str t = Ok f -> numeric t.
Proof.
  unfold float_of_str.
  destruct (dropwhile_split c_isspace (to_ascii t)) as (ws1 & E1 & H1).
  set (a := dropwhile c_isspace (to_ascii t)) in *.
  destruct (dropwhile_split c_isspace (rev a)) as (ws2 & E2 & H2).
  set (b := dropwhile c_isspace (rev a)) in *.
  assert (Ea : a = rev b ++ rev ws2).
  { rewrite <- rev_app_distr, <- E2. symmetry. apply rev_involutive. }
  destruct (sign (rev b)) as [neg u] eqn:Es.
  destruct (sign_sound _ _ _ Es) as (sg & Eb & Hsg).
  intros H. exists ws1, sg, neg, u, (rev ws2).
  split; [| split; [exact H1 | split; [now apply blanks_rev | split; [exact Hsg |]]]].
  { rewrite E1 at 1. now rewrite Ea, Eb, <- !app_assoc. }
  destruct (special neg u) as [g |] eqn:Esp.
  { left. exact (special_sound _ _ _ Esp). }
  right. destruct (number u) as [[[m e] [| c r]] |] eqn:En; try discriminate.
  destruct (number_sound _ _ _ _ En) as (mant & x & E & Hm & Hx).
  exists mant, x. now rewrite app_nil_r in E.
Qed.

(** What is not numeric makes [float] raise a [ValueError]. *)
Lemma float_of_str_rejects t : ~ numeric t -> float_of_str t = Raise ValueError.
Proof.
  intros H. destruct (float_of_str_outcome t) as [[f Hf] | Hf]; [| exact Hf].
  elim H. exact (float_of_str_sound _ _ Hf).
Qed.

Lemma solid_app a b : solid a -> solid b -> solid (a ++ b).
Proof. intros Ha Hb. apply Forall_app. now split. Qed.

Lemma run_rest_solid s ds : run_rest s ds -> solid s.
Proof.
  induction 1 as [| d s ds Hd _ IH | d s ds Hd _ IH].
  - constructor.
  - constructor; [now apply digit_not_space | exact IH].
  - constructor; [reflexivity |]. constructor; [now apply digit_not_space | exact IH].
Qed.

Lemma digit_run_solid s ds : digit_run s ds -> solid s.
Proof.
  intros [d s' ds' Hd Hs]. constructor; [now apply digit_not_space |].
  exact (run_rest_solid _ _ Hs).
Qed.

Lemma sign_text_solid sg neg : sign_text sg neg -> solid sg.
Proof. intros [| |]; repeat constructor. Qed.

Lemma mantissa_solid m : mantissa_text m -> solid m.
Proof.
  intros [(ip & ds & Hi & [-> | [-> | (fp & fs & Hf & ->)]]) | (fp & fs & Hf & ->)].
  - exact (digit_run_solid _ _ Hi).
  - apply solid_app; [exact (digit_run_solid _ _ Hi) | repeat constructor].
  - apply solid_app; [exact (digit_run_solid _ _ Hi) |].
    constructor; [reflexivity | exact (digit_run_solid _ _ Hf)].
  - constructor; [reflexivity | exact (digit_run_solid _ _ Hf)].
Qed.

Lemma exponent_solid x : exponent_text x -> solid x.
Proof.
  intros [-> | (c & sg & neg & body & ds & Hc & Hsg & Hb & ->)]; [constructor |].
  constructor; [destruct Hc as [-> | ->]; reflexivity |].
  apply solid_app; [exact (sign_text_solid _ _ Hsg) | exact (digit_run_solid _ _ Hb)].
Qed.

Lemma lower_space c : c_isspace c = true -> lower c = c.
Proof.
  intros H. unfold lower, in_range. unfold c_isspace, in_range in H.
  destruct (N.leb_spec 65 c); [| reflexivity].
  destruct (N.leb_spec 9 c), (N.leb_spec c 13), (N.eqb_spec c 32); cbn in H;
    try discriminate; lia.
Qed.

Lemma special_solid u : special_text u -> solid u.
Proof.
  intros H. apply Forall_forall. intros c Hc.
  destruct (c_isspace c) eqn:E; [| reflexivity].
  assert (Hin : In c (map lower u)).
  { rewrite <- (lower_space _ E). now apply in_map. }
  unfold special_text in H. cbn in H.
  destruct H as [H | [H | [H | []]]]; rewrite <- H in Hin; cbn in Hin;
    repeat (destruct Hin as [<- | Hin]; [discriminate E |]); destruct Hin.
Qed.

Lemma strip_c_solid ws1 core ws2 :
  blanks ws1 -> blanks ws2 -> solid core ->
  rev (dropwhile c_isspace (rev (dropwhile c_isspace (ws1 ++ core ++ ws2)))) = core.
Proof.
  intros H1 H2 Hc. rewrite (dropwhile_all _ _ _ H1).
  destruct core as [| x core'].
  - cbn [app]. rewrite <- (app_nil_r ws2), (dropwhile_all _ _ _ H2). reflexivity.
  - assert (Hx : c_isspace x = false) by now inversion Hc.
    cbn [app]. rewrite (dropwhile_stop _ _ _ Hx).
    change (x :: core' ++ ws2) with ((x :: core') ++ ws2).
    rewrite rev_app_distr, (dropwhile_all _ _ _ (blanks_rev _ H2)).
    destruct (@exists_last _ (x :: core')) as (q & y & E); [easy |].
    rewrite E, rev_app_distr. cbn [rev app].
    assert (Hy : c_isspace y = false).
    { unfold solid in Hc. rewrite Forall_forall in Hc. apply Hc. rewrite E.
      apply in_or_app. right. now left. }
    rewrite (dropwhile_stop _ _ _ Hy).
    change (y :: rev q) with ([y] ++ rev q). rewrite rev_app_distr.
    now rewrite rev_involutive.
Qed.

Lemma special_complete neg u : special_text u -> exists f, special neg u = Some f.
Proof.
  unfold special_text, special. cbn [In].
  intros [H | [H | [H | []]]]; rewrite <- H; cbn; eauto.
Qed.

(** What may precede an exponent or the end. *)
Lemma exponent_ends_run x : exponent_text x -> ends_run x /\ point x = None /\ run x = None.
Proof.
  intros [-> | (c & sg & neg & body & ds & Hc & _ & _ & ->)].
  - now repeat split.
  - destruct Hc as [-> | ->]; repeat split; cbn; trivial; lia.
Qed.

Lemma exponent_complete x ds n :
  exponent_text x -> exists e, exponent ds n x = (N_of_digits ds, e, []).
Proof.
  intros [-> | (c & sg & neg & body & es & Hc & Hsg & Hb & ->)]; [now eexists |].
  unfold exponent.
  assert (Hce : ((c =? 101)%N || (c =? 69)%N) = true).
  { destruct Hc as [-> | ->]; reflexivity. }
  rewrite Hce.
  destruct (digit_run_head _ _ Hb) as (d & s & -> & Hd).
  rewrite (sign_of_text sg neg _ Hsg).
  2:{ cbn. apply digit_bounds in Hd. lia. }
  rewrite <- (app_nil_r (d :: s)).
  rewrite (run_complete _ _ [] Hb I). now eexists.
Qed.

Lemma number_complete m x :
  mantissa_text m -> exponent_text x ->
  exists mm e, number (m ++ x) = Some (mm, e, []).
Proof.
  intros Hm Hx. destruct (exponent_ends_run _ Hx) as (Hend & Hpt & Hrun).
  unfold number.
  destruct Hm as [(ip & ds & Hi & [-> | [-> | (fp & fs & Hf & ->)]]) | (fp & fs & Hf & ->)].
  - rewrite (run_complete _ _ _ Hi Hend), Hpt.
    destruct (exponent_complete x ds 0 Hx) as [e He]. rewrite He. eauto.
  - rewrite <- app_assoc. cbn [app].
    rewrite (run_complete ip ds ((46%N : char) :: x) Hi); [| cbn; split; [reflexivity | lia]].
    cbn [point N.eqb Pos.eqb]. rewrite Hrun.
    destruct (exponent_complete x ds 0 Hx) as [e He]. rewrite He. eauto.
  - rewrite <- app_assoc. cbn [app].
    rewrite (run_complete ip ds ((46%N : char) :: fp ++ x) Hi); [| cbn; split; [reflexivity | lia]].
    cbn [point N.eqb Pos.eqb]. rewrite (run_complete _ _ _ Hf Hend).
    destruct (exponent_complete x (ds ++ fs) (List.length fs) Hx) as [e He].
    rewrite He. eauto.
  - cbn [app run is_ascii_digit in_range N.leb N.compare Pos.compare Pos.compare_cont andb].
    cbn [point N.eqb Pos.eqb]. rewrite (run_complete _ _ _ Hf Hend).
    destruct (exponent_complete x fs (List.length fs) Hx) as [e He].
    rewrite He. eauto.
Qed.

(** What is numeric, [float] accepts. *)
Lemma float_of_str_complete t : numeric t -> exists f, float_of_str t = Ok f.
Proof.
  intros (ws1 & sg & neg & u & ws2 & E & H1 & H2 & Hsg & Hu).
  assert (Hsolid : solid u).
  { destruct Hu as [Hs | (m & x & -> & Hm & Hx)]; [now apply special_solid |].
    apply solid_app; [now apply mantissa_solid | now apply exponent_solid]. }
  assert (Hhead : match u with [] => True | c :: _ => c <> 43%N /\ c <> 45%N end).
  { destruct Hu as [Hs | (m & x & -> & Hm & Hx)].
    - destruct u as [| c r]; [exact I |]. unfold special_text in Hs. cbn in Hs.
      unfold lower, in_range in Hs.
      destruct (N.eqb_spec c 43) as [-> | ?]; [cbn in Hs; intuition discriminate |].
      destruct (N.eqb_spec c 45) as [-> | ?]; [cbn in Hs; intuition discriminate |].
      now split.
    - destruct Hm as [(ip & ds & Hi & Hm) | (fp & fs & Hf & ->)].
      + destruct (digit_run_head _ _ Hi) as (d & s & -> & Hd%digit_bounds).
        destruct Hm as [-> | [-> | (fp & fs & Hf & ->)]]; cbn; lia.
      + cbn. lia. }
  unfold float_of_str. rewrite E.
  replace (ws1 ++ sg ++ u ++ ws2) with (ws1 ++ (sg ++ u) ++ ws2)
    by now rewrite <- app_assoc.
  rewrite (strip_c_solid ws1 (sg ++ u) ws2 H1 H2).
  2:{ apply solid_app; [exact (sign_text_solid _ _ Hsg) | exact Hsolid]. }
  rewrite (sign_of_text sg neg u Hsg Hhead).
  destruct (special neg u) as [f |] eqn:Hsp; [now exists f |].
  destruct Hu as [Hs | (m & x & -> & Hm & Hx)].
  - destruct (special_complete neg u Hs) as [f Hf]. congruence.
  - destruct (number_complete m x Hm Hx) as (mm & e & Hn). rewrite Hn. eauto.
Qed.

Lemma digits_rest ds : digits_only ds -> run_rest ds ds.
Proof. induction 1; now constructor. Qed.

Lemma digits_run ds : ds <> [] -> digits_only ds -> digit_run ds ds.
Proof.
  intros Hne H. destruct H as [| d ds Hd H]; [easy |].
  constructor; [exact Hd | now apply digits_rest].
Qed.

Lemma digits_ascii ds : digits_only ds -> Forall (fun c => (c < 127)%N) ds.
Proof.
  apply Forall_impl. intros c H%digit_bounds. lia.
Qed.

Lemma rstrip_c_stop s :
  s <> [] -> c_isspace (last s 0%N) = false ->
  rev (dropwhile c_isspace (rev s)) = s.
Proof.
  intros Hne Hl. destruct (exists_last Hne) as (q & y & ->).
  rewrite last_last in Hl. rewrite rev_app_distr. cbn [rev app].
  rewrite dropwhile_stop by exact Hl.
  change (y :: rev q) with ([y] ++ rev q). rewrite rev_app_distr.
  now rewrite rev_involutive.
Qed.

Lemma last_app_r {A} (a b : list A) x : b <> [] -> last (a ++ b) x = last b x.
Proof.
  intros Hb. induction a as [| y a IH]; [reflexivity |].
  cbn [app]. rewrite <- IH. cbn. destruct (a ++ b) eqn:E; [| reflexivity].
  now apply app_eq_nil in E as [_ ->].
Qed.

Lemma lower_digit d : is_ascii_digit d = true -> lower d = d.
Proof.
  intros H%digit_bounds. unfold lower, in_range.
  destruct (N.leb_spec 65 d); [lia | reflexivity].
Qed.

Lemma special_digit neg d r : is_ascii_digit d = true -> special neg (d :: r) = None.
Proof.
  intros H. unfold special. cbn [map]. rewrite (lower_digit _ H).
  apply digit_bounds in H.
  assert (H1 : (d =? 105)%N = false) by (apply N.eqb_neq; lia).
  assert (H2 : (d =? 110)%N = false) by (apply N.eqb_neq; lia).
  cbn. now rewrite H1, H2.
Qed.

Lemma sign_digit d r : is_ascii_digit d = true -> sign (d :: r) = (false, d :: r).
Proof.
  intros H%digit_bounds. unfold sign.
  destruct (N.eqb_spec d 43); [lia |]. destruct (N.eqb_spec d 45); [lia | reflexivity].
Qed.

Lemma last_digits ds x :
  digits_only ds -> c_isspace x = false -> c_isspace (last ds x) = false.
Proof.
  intros H Hx. induction H as [| d ds Hd H IH]; [exact Hx |].
  destruct ds as [| e ds']; [now apply digit_not_space |]. exact IH.
Qed.

(** [float] on digits, a point and digits: the numeral read. *)
Lemma float_of_decimal ip fp :
  ip <> [] -> digits_only ip -> digits_only fp ->
  float_of_str (ip ++ 46%N :: fp)
  = Ok (Finite false (N_of_digits (ip ++ fp)) (- Z.of_nat (List.length fp))).
Proof.
  intros Hne Hi Hf. unfold float_of_str.
  rewrite to_ascii_id.
  2:{ apply Forall_app. split; [now apply digits_ascii |].
      constructor; [lia | now apply digits_ascii]. }
  destruct ip as [| d ip']; [easy |]. clear Hne.
  assert (Hd : is_ascii_digit d = true) by now inversion Hi.
  cbn [app]. rewrite dropwhile_stop by now apply digit_not_space.
  rewrite rstrip_c_stop; [| easy |].
  2:{ change (d :: ip' ++ 46%N :: fp) with ((d :: ip') ++ 46%N :: fp).
      rewrite last_app_r by easy. cbn [last].
      destruct fp as [| f fp']; [reflexivity |].
      now apply (last_digits (f :: fp')). }
  rewrite (sign_digit _ _ Hd), (special_digit _ _ _ Hd). unfold number.
  change (d :: ip' ++ 46%N :: fp) with ((d :: ip') ++ 46%N :: fp).
  rewrite (run_complete (d :: ip') (d :: ip') (46%N :: fp)).
  2:{ now apply digits_run. }
  2:{ cbn. split; [reflexivity | lia]. }
  cbn [point N.eqb Pos.eqb].
  destruct fp as [| f fp'].
  - cbn. now rewrite app_nil_r.
  - rewrite <- (app_nil_r (f :: fp')) at 1.
    rewrite (run_complete (f :: fp') (f :: fp') []); [| now apply digits_run | exact I].
    reflexivity.
Qed.

(** [float] on digits alone. *)
Lemma float_of_digits ip :
  ip <> [] -> digits_only ip ->
  float_of_str ip = Ok (Finite false (N_of_digits ip) 0).
Proof.
  intros Hne Hi. unfold float_of_str.
  rewrite to_ascii_id by now apply digits_ascii.
  destruct ip as [| d ip']; [easy |]. clear Hne.
  assert (Hd : is_ascii_digit d = true) by now inversion Hi.
  rewrite dropwhile_stop by now apply digit_not_space.
  rewrite rstrip_c_stop; [| easy |].
  2:{ apply last_digits; [exact Hi | reflexivity]. }
  rewrite (sign_digit _ _ Hd), (special_digit _ _ _ Hd). unfold number.
  rewrite <- (app_nil_r (d :: ip')) at 1.
  rewrite (run_complete (d :: ip') (d :: ip') []); [| now apply digits_run | exact I].
  reflexivity.
Qed.

End NumberFacts.

(** ** Field parsers *)

Section ParserFacts.
Context {R : PyRuntime}.

Lemma strip_spaces s : spaces s -> strip s = [].
Proof.
  intros H. unfold strip, lstrip, rstrip.
  rewrite <- (app_nil_r s), (dropwhile_all _ _ _ H). reflexivity.
Qed.

(** [strip] computes the trimmed text. *)
Lemma strip_of_trimmed s b : trimmed s b -> strip s = b.
Proof.
  intros (l & r & -> & Hl & Hr & Hfirst & Hlast).
  destruct b as [| x t].
  - apply strip_spaces. apply Forall_app. now split.
  - destruct (@exists_last _ (x :: t)) as (q & y & E); [easy |].
    apply (strip_between l (x :: t) r x y t Hl Hr eq_refl).
    + rewrite E. apply last_last.
    + exact (Hfirst x t eq_refl).
    + exact (Hlast y q E).
Qed.

Lemma final_segment_last t seg :
  final_segment t seg -> last_of (split ARROW t) = seg.
Proof.
  intros [Hno [-> | [old ->]]].
  - now apply last_of_split_whole.
  - now apply last_of_split_after.
Qed.

Lemma replace_price s : replace (py ",") [] (replace (py "$") [] s) = unpriced s.
Proof.
  change (py ",") with [44%N]. change (py "$") with [36%N].
  rewrite !replace_char. unfold unpriced.
  induction s as [| c s IH]; cbn; [reflexivity |].
  destruct (c =? 36)%N; cbn; [exact IH |].
  destruct (c =? 44)%N; cbn; now rewrite IH.
Qed.

Lemma digit_not_pyspace c : is_ascii_digit c = true -> py_isspace c = false.
Proof.
  intros H%digit_bounds. unfold py_isspace, in_range.
  repeat match goal with
         | |- context [(?a <=? ?b)%N] => destruct (N.leb_spec a b); try lia
         | |- context [(?a =? ?b)%N] => destruct (N.eqb_spec a b); try lia
         end; reflexivity.
Qed.

Lemma decimal_text_float b f : decimal_text b f -> float_of_str b = Ok f.
Proof.
  intros [ip Hne Hi | ip fp Hne Hi Hf].
  - now apply float_of_digits.
  - now apply float_of_decimal.
Qed.

Lemma decimal_text_trimmed l b r f :
  decimal_text b f -> spaces l -> spaces r -> trimmed (l ++ b ++ r) b.
Proof.
  intros Hb Hl Hr. exists l, r. repeat split; trivial.
  - intros x t E. destruct Hb as [ip Hne Hi | ip fp Hne Hi Hf];
      (destruct ip as [| d ip']; [easy |]); injection E as <- _;
      apply digit_not_pyspace; now inversion Hi.
  - intros x t E.
    assert (Hx : is_ascii_digit x = true \/ x = 46%N).
    { destruct Hb as [ip Hne Hi | ip fp Hne Hi Hf].
      - left. unfold digits_only in Hi. rewrite Forall_forall in Hi. apply Hi.
        rewrite E. apply in_or_app. right. now left.
      - destruct fp as [| e fp'] using rev_ind.
        + apply app_inj_tail in E as [_ <-]. now right.
        + left. rewrite app_comm_cons, app_assoc in E.
          apply app_inj_tail in E as [_ <-].
          unfold digits_only in Hf. rewrite Forall_forall in Hf. apply Hf.
          apply in_or_app. right. now left. }
    destruct Hx as [Hx | ->]; [now apply digit_not_pyspace | reflexivity].
Qed.

End ParserFacts.

(** C6: price-target parsing. The parser works on the text after the final
    arrow of the cell (the whole text when it has no arrow), without its
    dollar signs and commas: when that is a plain decimal numeral between
    blanks, the numeral's value is returned; a ValueError is raised when
    it, trimmed, is not numeric, and then only. *)
Theorem price_target_parsing {R : PyRuntime} :
  forall (tag : node) (seg : pystr),
    final_segment (text tag) seg ->
    (forall l b r f,
        unpriced seg = l ++ b ++ r -> spaces l -> spaces r -> decimal_text b f ->
        parsePriceTargetTag tag = Ok f) /\
    (~ numeric (strip (unpriced seg)) <->
     parsePriceTargetTag tag = Raise ValueError).
Proof.
  intros tag seg Hseg. unfold parsePriceTargetTag.
  rewrite (final_segment_last _ _ Hseg), replace_price. split.
  - intros l b r f E Hl Hr Hb. rewrite E.
    rewrite (strip_of_trimmed _ _ (decimal_text_trimmed l b r f Hb Hl Hr)).
    now apply decimal_text_float.
  - split; [apply float_of_str_rejects |].
    intros He Hn. destruct (float_of_str_complete _ Hn) as [f Hf]. congruence.
Qed.

Lemma price_target_parsing_witness :
  parsePriceTargetTag (R := sample_runtime) price_cell = Ok (Finite false 1250 (-2)) /\
  float_value (Finite false 1250 (-2)) = Some (Qmake 1250 100) /\
  parsePriceTargetTag (R := sample_runtime) (Tag "td" [] [txt "$12.50"])
  = Ok (Finite false 1250 (-2)) /\
  parsePriceTargetTag (R := sample_runtime) (Tag "td" [] [txt "$10.00 -> n/a"])
  = Raise ValueError /\
  ~ numeric (R := sample_runtime) (py "10.00 -> n/a").
Proof.
  assert (Hd : decimal_text (py "12.50") (Finite false 1250 (-2))).
  { apply (@decimal_point (py "12") (py "50")); [easy | |]; repeat constructor. }
  split; [| split; [reflexivity | split; [| split; [reflexivity |]]]].
  3:{ refine (proj2 (proj2 (price_target_parsing (R := sample_runtime)
                              (Tag "td" [] [txt "$10.00 -> n/a"])
                              (py "$10.00 -> n/a") _)) eq_refl).
      split; [| now left]. cbn. intuition discriminate. }
  - refine (proj1 (price_target_parsing (R := sample_runtime) price_cell (py " $12.50") _)
              [32%N] (py "12.50") [] _ eq_refl _ _ Hd).
    + split; [| right; now exists (py "$10.00 ")].
      cbn. intuition discriminate.
    + repeat constructor.
    + constructor.
  - refine (proj1 (price_target_parsing (R := sample_runtime) (Tag "td" [] [txt "$12.50"])
                     (py "$12.50") _)
              [] (py "12.50") [] _ eq_refl _ _ Hd).
    + split; [| now left]. cbn. intuition discriminate.
    + constructor.
    + constructor.
Defined.

(** C7: rating parsing. The label is the trimmed text after the final arrow
    of the cell; the code is -1 when the cell has no data-sort-value
    attribute, and the integer the attribute spells when it has one (3 for
    the attribute 3). *)
Theorem rating_parsing {R : PyRuntime} :
  forall (name : string) (attrs : list (string * pystr)) (contents : list node)
         (seg label : pystr),
    final_segment (text (Tag name attrs contents)) seg ->
    trimmed seg label ->
    (lookup "data-sort-value" attrs = None ->
     parseRatingTag (Tag name attrs contents) = Ok (label, (-1)%Z)) /\
    (forall v z,
        lookup "data-sort-value" attrs = Some v -> int_literal v z ->
        parseRatingTag (Tag name attrs contents) = Ok (label, z)) /\
    (lookup "data-sort-value" attrs = Some (py "3") ->
     parseRatingTag (Tag name attrs contents) = Ok (label, 3%Z)).
Proof.
  intros name attrs contents seg label Hseg Htrim. unfold parseRatingTag.
  rewrite (final_segment_last _ _ Hseg), (strip_of_trimmed _ _ Htrim).
  unfold get_default, get. repeat split.
  - intros ->. reflexivity.
  - intros v z -> Hv. now rewrite (int_of_str_complete _ _ Hv).
  - intros ->. reflexivity.
Qed.

Lemma rating_parsing_witness :
  parseRatingTag (R := sample_runtime) (rating_cell "3") = Ok (py "Buy", 3%Z) /\
  parseRatingTag (R := sample_runtime) (Tag "td" [] [arrow_text "Hold " " Buy"])
  = Ok (py "Buy", (-1)%Z).
Proof.
  assert (Hseg : forall a, final_segment (text (Tag "td" a [arrow_text "Hold " " Buy"])) (py " Buy")).
  { intros a. split; [cbn; intuition discriminate | right; now exists (py "Hold ")]. }
  assert (Htrim : trimmed (py " Buy") (py "Buy")).
  { exists [32%N], []. repeat split; try (repeat constructor).
    - now intros x t [= <- _].
    - intros x t E. change (py "Buy") with ([66; 117]%N ++ [121%N]) in E.
      now apply app_inj_tail in E as [_ <-]. }
  split.
  - exact (proj2 (proj2 (rating_parsing (R := sample_runtime) "td"
                           [("data-sort-value", py "3")] _ _ _ (Hseg _) Htrim)) eq_refl).
  - exact (proj1 (rating_parsing (R := sample_runtime) "td" [] _ _ _ (Hseg _) Htrim) eq_refl).
Defined.

(** ** The DataFrame *)

Lemma existsb_eqb_In l cols : existsb (String.eqb l) cols = true <-> In l cols.
Proof.
  rewrite existsb_exists. split.
  - intros (x & Hx & E). apply String.eqb_eq in E. now subst.
  - intros H. exists l. split; [exact H | apply String.eqb_refl].
Qed.

Lemma lookup_combine_map {V} (f : string -> V) cols l :
  In l cols -> lookup l (combine cols (map f cols)) = Some (f l).
Proof.
  induction cols as [| c cols IH]; cbn; [easy |].
  destruct (String.eqb_spec l c) as [-> | Hne]; [reflexivity |].
  intros [-> | H]; [easy | now apply IH].
Qed.

Lemma lookup_combine_None {V} (f : string -> V) cols l :
  ~ In l cols -> lookup l (combine cols (map f cols)) = None.
Proof.
  induction cols as [| c cols IH]; cbn; [easy |].
  destruct (String.eqb_spec l c) as [-> | Hne]; [tauto |]. intros H. apply IH. tauto.
Qed.

Lemma pick_map {A B} (p : A -> bool) (f : A -> B) l :
  map snd (filter fst (combine (map p l) (map f l))) = map f (filter p l).
Proof.
  induction l as [| x l IH]; cbn; [reflexivity |].
  destruct (p x); cbn; now rewrite IH.
Qed.

Lemma pick_self {A} (p : A -> bool) l :
  map snd (filter fst (combine (map p l) l)) = filter p l.
Proof.
  rewrite <- (map_id l) at 2. rewrite pick_map. apply map_id.
Qed.

Lemma combine_map {A B C} (f : A -> B) (g : A -> C) l :
  combine (map f l) (map g l) = map (fun x => (f x, g x)) l.
Proof. induction l as [| x l IH]; cbn; [reflexivity | now rewrite IH]. Qed.

Lemma drop_column_frame {A} (g : A -> string -> value) cols (data : list A) :
  drop_column "brokerage_code" (mkframe cols (map (fun d => map (g d) cols) data))
  = mkframe (kept cols) (map (fun d => map (g d) (kept cols)) data).
Proof.
  unfold drop_column, kept. cbn [columns rows]. f_equal.
  - apply pick_self.
  - rewrite map_map. apply map_ext. intros d. apply pick_map.
Qed.

Lemma select_frame {A} (g : A -> string -> value) cols labels (data : list A) :
  select labels (mkframe cols (map (fun d => map (g d) cols) data))
  = if forallb (fun l => existsb (String.eqb l) cols) labels
    then Ok (mkframe labels (map (fun d => map (g d) labels) data))
    else Raise KeyError.
Proof.
  unfold select. cbn [columns rows].
  destruct (forallb _ labels) eqn:E; [| reflexivity].
  f_equal. f_equal. rewrite map_map. apply map_ext. intros d.
  apply map_ext_in. intros l Hl. unfold cell.
  rewrite forallb_forall in E. specialize (E l Hl). apply existsb_eqb_In in E.
  now rewrite lookup_combine_map.
Qed.

Section FrameFacts.
Context {R : PyRuntime}.

(** What [buildDataFrame] returns, by the keys the dicts hold. *)
Lemma buildDataFrame_eq data :
  buildDataFrame data
  = if forallb (fun l => existsb (String.eqb l) (kept (all_keys data)))
         ["date"; "symbol"; "brokerage"]
    then if existsb (String.eqb "uid") (kept (all_keys data))
         then Raise ValueError
         else Ok (mkframe ("uid" :: kept (all_keys data))
                    (map (fun d => uid_value d :: map (cell_of d) (kept (all_keys data))) data))
    else Raise KeyError.
Proof.
  unfold buildDataFrame, frame_of.
  rewrite (drop_column_frame cell_of), (select_frame cell_of).
  destruct (forallb _ _); [| reflexivity]. cbn [bind].
  unfold insert_first, uid_column. cbn [columns rows].
  destruct (existsb _ _); [reflexivity |]. f_equal. f_equal.
  rewrite map_map, combine_map. rewrite map_map. reflexivity.
Qed.

End FrameFacts.

(** C2: the key of a record. When the builder returns a Dataset, uid is its
    first column and no other, and the row of every record starts with the
    record's date, symbol and brokerage, as [str] gives them (a string is
    its own), joined by underscores in this order, nothing escaped. *)
Theorem uid_is_leading_key {R : PyRuntime} :
  forall (data : list dict) (df : DataFrame),
    buildDataFrame data = Ok df ->
    (exists cols, columns df = "uid" :: cols /\ ~ In "uid" cols) /\
    forall i r d s b,
      nth_error data i = Some r ->
      lookup "date" r = Some d ->
      lookup "symbol" r = Some s ->
      lookup "brokerage" r = Some b ->
      exists rest,
        nth_error (rows df) i
        = Some (VStr (uid_text (astype_str d) (astype_str s) (astype_str b)) :: rest).
Proof.
  intros data df H. rewrite buildDataFrame_eq in H.
  destruct (forallb _ _); [| discriminate].
  destruct (existsb _ _) eqn:Hu; [discriminate |].
  injection H as <-. cbn [columns rows]. split.
  - exists (kept (all_keys data)). split; [reflexivity |].
    intros Hin. apply existsb_eqb_In in Hin. congruence.
  - intros i r d s b Hi Hd Hs Hb.
    exists (map (cell_of r) (kept (all_keys data))).
    rewrite (map_nth_error _ _ _ Hi). f_equal. f_equal.
    unfold uid_value, cell_of. cbn [map]. rewrite Hd, Hs, Hb. reflexivity.
Qed.

Lemma uid_is_leading_key_witness :
  exists df rest rest',
    buildDataFrame (R := sample_runtime)
      [sample_record "A_B" "C"; sample_record "A" "B_C"] = Ok df /\
    nth_error (rows df) 0 = Some (VStr (py "2020-01-02_A_B_C") :: rest) /\
    nth_error (rows df) 1 = Some (VStr (py "2020-01-02_A_B_C") :: rest').
Proof.
  destruct (buildDataFrame (R := sample_runtime)
              [sample_record "A_B" "C"; sample_record "A" "B_C"]) as [df |] eqn:H;
    [| discriminate].
  destruct (proj2 (uid_is_leading_key _ _ H) 0%nat _
              (VStr (py "2020-01-02")) (VStr (py "A_B")) (VStr (py "C"))
              eq_refl eq_refl eq_refl eq_refl) as [rest Hr].
  destruct (proj2 (uid_is_leading_key _ _ H) 1%nat _
              (VStr (py "2020-01-02")) (VStr (py "A")) (VStr (py "B_C"))
              eq_refl eq_refl eq_refl eq_refl) as [rest' Hr'].
  now exists df, rest, rest'.
Defined.

Lemma NoDup_snoc {A} (a : list A) k : NoDup a -> ~ In k a -> NoDup (a ++ [k]).
Proof.
  induction 1 as [| x a Hx _ IH]; cbn; intros Hk.
  - constructor; [easy | constructor].
  - constructor; [| apply IH; tauto].
    rewrite in_app_iff. cbn. intros [H | [-> | []]]; tauto.
Qed.

Lemma existsb_eqb_false l cols : existsb (String.eqb l) cols = false <-> ~ In l cols.
Proof.
  rewrite <- existsb_eqb_In. destruct (existsb _ _); split; congruence.
Qed.

Lemma union_keys_NoDup b : forall a, NoDup a -> NoDup (union_keys a b).
Proof.
  induction b as [| k b IH]; intros a Ha; cbn; [exact Ha |].
  destruct (existsb _ a) eqn:E; apply IH; [exact Ha |].
  apply NoDup_snoc; [exact Ha | now apply existsb_eqb_false].
Qed.

Lemma fold_keys_NoDup data : forall acc,
  NoDup acc -> NoDup (fold_left (fun acc (d : dict) => union_keys acc (map fst d)) data acc).
Proof.
  induction data as [| d data IH]; intros acc Ha; cbn; [exact Ha |].
  apply IH. now apply union_keys_NoDup.
Qed.

Lemma all_keys_NoDup data : NoDup (all_keys data).
Proof. apply fold_keys_NoDup. constructor. Qed.

Lemma union_keys_fresh K : forall a, NoDup (a ++ K) -> union_keys a K = a ++ K.
Proof.
  induction K as [| k K IH]; intros a H; cbn; [now rewrite app_nil_r |].
  assert (Hk : ~ In k a).
  { intros Hin. apply NoDup_remove_2 in H. apply H. apply in_or_app. now left. }
  rewrite (proj2 (existsb_eqb_false _ _) Hk).
  change (k :: K) with ([k] ++ K) in *. rewrite app_assoc in *. now apply IH.
Qed.

Lemma union_keys_incl b : forall a, incl b a -> union_keys a b = a.
Proof.
  induction b as [| k b IH]; intros a H; cbn; [reflexivity |].
  rewrite (proj2 (existsb_eqb_In _ _) (H k (or_introl eq_refl))).
  apply IH. intros x Hx. apply H. now right.
Qed.

Lemma fold_keys_same K data :
  Forall (fun d : dict => map fst d = K) data ->
  fold_left (fun acc (d : dict) => union_keys acc (map fst d)) data K = K.
Proof.
  induction 1 as [| d data Hd _ IH]; cbn; [reflexivity |].
  rewrite Hd, union_keys_incl by apply incl_refl. exact IH.
Qed.

(** Dicts with the same keys give these keys as columns. *)
Lemma all_keys_same K d data :
  NoDup K -> map fst d = K -> Forall (fun d : dict => map fst d = K) data ->
  all_keys (d :: data) = K.
Proof.
  intros HK Hd H. unfold all_keys. cbn [fold_left]. rewrite Hd.
  rewrite (union_keys_fresh K []) by exact HK. now apply fold_keys_same.
Qed.

Lemma kept_In c cols : In c (kept cols) <-> In c cols /\ c <> "brokerage_code".
Proof.
  unfold kept. rewrite filter_In, negb_true_iff, String.eqb_neq. tauto.
Qed.

Lemma kept_id cols : ~ In "brokerage_code" cols -> kept cols = cols.
Proof.
  intros H. unfold kept. induction cols as [| c cols IH]; cbn; [reflexivity |].
  destruct (String.eqb_spec c "brokerage_code") as [-> | _]; cbn.
  - elim H. now left.
  - rewrite IH; [reflexivity |]. intros Hin. apply H. now right.
Qed.

Lemma kept_idem cols : kept (kept cols) = kept cols.
Proof. apply kept_id. rewrite kept_In. tauto. Qed.

Lemma lookup_map_pair {V} (f : string -> V) cols l :
  lookup l (map (fun c => (c, f c)) cols) = if existsb (String.eqb l) cols then Some (f l) else None.
Proof.
  induction cols as [| c cols IH]; cbn; [reflexivity |].
  destruct (String.eqb_spec l c) as [-> | _]; [reflexivity | exact IH].
Qed.

Lemma lookup_without k d c : c <> k -> lookup c (without k d) = lookup c d.
Proof.
  intros Hc. unfold without. induction d as [| [k' v] d IH]; cbn; [reflexivity |].
  destruct (String.eqb_spec k' k) as [-> | _]; cbn.
  - rewrite (proj2 (String.eqb_neq _ _) Hc). exact IH.
  - destruct (String.eqb c k'); [reflexivity | exact IH].
Qed.

Lemma existsb_filter_keep (p : string -> bool) k a :
  p k = true -> existsb (String.eqb k) (filter p a) = existsb (String.eqb k) a.
Proof.
  intros Hk. induction a as [| x a IH]; cbn; [reflexivity |].
  destruct (p x) eqn:Hx; cbn; [now rewrite IH |].
  destruct (String.eqb_spec k x) as [-> | _]; [congruence | exact IH].
Qed.

Lemma union_keys_filter (p : string -> bool) b : forall a,
  union_keys (filter p a) (filter p b) = filter p (union_keys a b).
Proof.
  induction b as [| k b IH]; intros a; cbn; [reflexivity |].
  destruct (p k) eqn:Hk; cbn.
  - rewrite (existsb_filter_keep p k a Hk).
    destruct (existsb _ a); [apply IH |].
    rewrite <- IH, filter_app. cbn. now rewrite Hk.
  - destruct (existsb _ a); [apply IH |].
    rewrite <- IH, filter_app. cbn. now rewrite Hk, app_nil_r.
Qed.

Lemma keys_without k (d : dict) :
  map fst (without k d) = filter (fun c => negb (String.eqb c k)) (map fst d).
Proof.
  unfold without. induction d as [| [c v] d IH]; cbn; [reflexivity |].
  destruct (String.eqb c k); cbn; now rewrite IH.
Qed.

Lemma fold_keys_without data : forall acc,
  fold_left (fun acc (d : dict) => union_keys acc (map fst d))
    (map (without "brokerage_code") data) (kept acc)
  = kept (fold_left (fun acc (d : dict) => union_keys acc (map fst d)) data acc).
Proof.
  induction data as [| d data IH]; intros acc; cbn; [reflexivity |].
  rewrite keys_without. unfold kept at 1. rewrite union_keys_filter. apply IH.
Qed.

(** Dicts without the brokerage code give the kept columns. *)
Lemma all_keys_without data :
  all_keys (map (without "brokerage_code") data) = kept (all_keys data).
Proof. exact (fold_keys_without data []). Qed.

Lemma combine_self_map {A B} (g : A -> B) l :
  combine l (map g l) = map (fun c => (c, g c)) l.
Proof. induction l as [| x l IH]; cbn; [reflexivity | now rewrite IH]. Qed.

Lemma keys_map_pair {A B} (g : A -> B) l : map fst (map (fun c => (c, g c)) l) = l.
Proof. rewrite map_map. cbn. apply map_id. Qed.

(** C9, as the code has it: a Dataset the builder returned is what every
    run of the builder on the same records returns; it has uid once among
    its columns and no brokerage_code; the builder run on the records of
    that Dataset, which hold uid, computes the same uid values again and
    then raises a ValueError instead of inserting a second uid column; and
    the builder returns the same Dataset for the records without their
    brokerage_code. *)
Theorem rebuild_of_built_records {R : PyRuntime} :
  forall (data : list dict) (df : DataFrame),
    buildDataFrame data = Ok df ->
    (forall df', buildDataFrame data = Ok df' -> df' = df) /\
    count_occ string_dec (columns df) "uid" = 1%nat /\
    ~ In "brokerage_code" (columns df) /\
    buildDataFrame (records_of df) = Raise ValueError /\
    (exists sub,
        select ["date"; "symbol"; "brokerage"]
          (drop_column "brokerage_code" (frame_of (records_of df))) = Ok sub /\
        uid_column sub = map (fun row => hd VNone row) (rows df)) /\
    buildDataFrame (map (without "brokerage_code") data) = Ok df.
Proof.
  intros data df H. split; [intros df' H'; congruence |].
  rewrite buildDataFrame_eq in H.
  set (cols := kept (all_keys data)) in *.
  destruct (forallb _ _) eqn:Hlab; [| discriminate].
  destruct (existsb _ cols) eqn:Huid; [discriminate |].
  injection H as <-. cbn [columns rows].
  assert (Hnu : ~ In "uid" cols) by now apply existsb_eqb_false.
  assert (Hnb : ~ In "brokerage_code" cols).
  { unfold cols. rewrite kept_In. tauto. }
  assert (Hnd : NoDup ("uid" :: cols)).
  { constructor; [exact Hnu |]. unfold cols, kept. apply NoDup_filter, all_keys_NoDup. }
  assert (Hkept : kept ("uid" :: cols) = "uid" :: cols).
  { apply kept_id. intros [E | Hin]; [discriminate | tauto]. }
  assert (Hlab' : forallb (fun l => existsb (String.eqb l) ("uid" :: cols))
                    ["date"; "symbol"; "brokerage"] = true).
  { rewrite forallb_forall in *. intros l Hl. apply existsb_eqb_In. right.
    apply existsb_eqb_In. now apply Hlab. }
  assert (Hrec : records_of
                   (mkframe ("uid" :: cols)
                      (map (fun d => uid_value d :: map (cell_of d) cols) data))
                 = map (fun d => ("uid", uid_value d) :: map (fun c => (c, cell_of d c)) cols) data).
  { unfold records_of. cbn [columns rows]. rewrite map_map. apply map_ext.
    intros d. cbn [combine]. now rewrite combine_self_map. }
  assert (Hkeys : all_keys
                    (map (fun d => ("uid", uid_value d) :: map (fun c => (c, cell_of d c)) cols) data)
                  = "uid" :: cols).
  { destruct data as [| d data]; [discriminate Hlab |]. cbn [map].
    apply all_keys_same; [exact Hnd | cbn; now rewrite keys_map_pair |].
    apply Forall_forall. intros r Hr. apply in_map_iff in Hr as (d' & <- & _).
    cbn. now rewrite keys_map_pair. }
  repeat split.
  - cbn [count_occ]. destruct (string_dec "uid" "uid") as [_ | Hne]; [| easy].
    f_equal. now apply count_occ_not_In.
  - intros [E | Hin]; [discriminate | tauto].
  - rewrite Hrec, buildDataFrame_eq, Hkeys, Hkept, Hlab'. reflexivity.
  - rewrite Hrec. unfold frame_of. rewrite Hkeys.
    rewrite (drop_column_frame cell_of), Hkept, (select_frame cell_of), Hlab'.
    eexists. split; [reflexivity |].
    unfold uid_column. cbn [rows]. rewrite !map_map. apply map_ext. intros d.
    cbn [hd]. unfold uid_value. do 3 f_equal.
    apply map_ext_in. intros l Hl. unfold cell_of at 1. cbn [lookup].
    rewrite forallb_forall in Hlab. specialize (Hlab l Hl).
    destruct (String.eqb_spec l "uid") as [-> | _].
    + apply existsb_eqb_In in Hlab. tauto.
    + now rewrite lookup_map_pair, Hlab.
  - rewrite buildDataFrame_eq, all_keys_without, kept_idem. fold cols.
    rewrite Hlab, Huid. do 2 f_equal. rewrite map_map. apply map_ext. intros d.
    f_equal.
    + unfold uid_value, cell_of. cbn [map]. now rewrite !lookup_without by discriminate.
    + apply map_ext_in. intros c Hc. unfold cols in Hc. apply kept_In in Hc as [_ Hc].
      unfold cell_of. now rewrite lookup_without.
Qed.

Lemma rebuild_of_built_records_witness :
  exists df,
    buildDataFrame (R := sample_runtime) [sample_record "AAPL" "Smith_Barney"] = Ok df /\
    count_occ string_dec (columns df) "uid" = 1%nat /\
    buildDataFrame (R := sample_runtime)
      (map (without "brokerage_code") [sample_record "AAPL" "Smith_Barney"]) = Ok df.
Proof.
  destruct (buildDataFrame (R := sample_runtime) [sample_record "AAPL" "Smith_Barney"])
    as [df |] eqn:H; [| discriminate].
  exists df. split; [reflexivity |].
  pose proof (rebuild_of_built_records _ _ H) as (_ & H1 & _ & _ & _ & H5).
  now split.
Defined.

(** The builder is not idempotent on the records of a Dataset it built:
    they hold uid, and the second build raises. *)
Lemma rebuild_counterexample :
  exists df,
    buildDataFrame (R := sample_runtime) [sample_record "AAPL" "Smith_Barney"] = Ok df /\
    buildDataFrame (R := sample_runtime) (records_of df) = Raise ValueError.
Proof. eexists. split; vm_compute; reflexivity. Qed.

(** ** Rows *)

Lemma fold_rows_app (f : list node -> result dict) data : forall acc,
  fold_left (fun row_data row => match f row with
                                 | Ok d => row_data ++ [d]
                                 | Raise _ => row_data
                                 end) data acc
  = acc ++ survivors f data.
Proof.
  induction data as [| row data IH]; intros acc; cbn; [now rewrite app_nil_r |].
  rewrite IH. destruct (f row); cbn; [now rewrite <- app_assoc | reflexivity].
Qed.

(** The loop over the rows keeps the records of the rows that parse, in the
    order of the rows, and nothing of the others. *)
Lemma process_rows_survivors (f : list node -> result dict) data :
  process_rows f data = survivors f data.
Proof. unfold process_rows. now rewrite fold_rows_app. Qed.

Lemma survivors_app (f : list node -> result dict) a b :
  survivors f (a ++ b) = survivors f a ++ survivors f b.
Proof. apply flat_map_app. Qed.

Lemma survivors_drop (f : list node -> result dict) a row b e :
  f row = Raise e -> survivors f (a ++ row :: b) = survivors f (a ++ b).
Proof.
  intros H. rewrite !survivors_app. cbn. now rewrite H.
Qed.

Lemma find_first {A} (p : A -> bool) l x :
  List.find p l = Some x <->
  exists before after,
    l = before ++ x :: after /\ Forall (fun y => p y = false) before /\ p x = true.
Proof.
  split.
  - induction l as [| y l IH]; cbn; [discriminate |].
    destruct (p y) eqn:Hy.
    + intros [= ->]. exists [], l. now repeat split.
    + intros H. destruct (IH H) as (b & a & -> & Hb & Hx).
      exists (y :: b), a. repeat split; trivial. now constructor.
  - intros (b & a & -> & Hb & Hx). induction Hb as [| y b Hy _ IH]; cbn.
    + now rewrite Hx.
    + now rewrite Hy.
Qed.

Lemma find_nothing {A} (p : A -> bool) l :
  List.find p l = None <-> Forall (fun y => p y = false) l.
Proof.
  split.
  - induction l as [| y l IH]; cbn; [constructor |].
    destruct (p y) eqn:Hy; [discriminate |]. intros H. constructor; auto.
  - induction 1 as [| y l Hy _ IH]; cbn; [reflexivity |]. now rewrite Hy.
Qed.

Lemma position_first {A} (p : A -> bool) l k :
  position p l = Some k <->
  exists before x after,
    l = before ++ x :: after /\ List.length before = k /\
    Forall (fun y => p y = false) before /\ p x = true.
Proof.
  split.
  - revert k. induction l as [| y l IH]; cbn; [discriminate |]. intros k.
    destruct (p y) eqn:Hy.
    + intros [= <-]. exists [], y, l. now repeat split.
    + destruct (position p l) as [j |]; [| discriminate]. intros [= <-].
      destruct (IH j eq_refl) as (b & x & a & -> & <- & Hb & Hx).
      exists (y :: b), x, a. repeat split; trivial. now constructor.
  - intros (b & x & a & -> & <- & Hb & Hx). induction Hb as [| y b Hy _ IH]; cbn.
    + now rewrite Hx.
    + now rewrite Hy, IH.
Qed.

Lemma position_nothing {A} (p : A -> bool) l :
  position p l = None <-> Forall (fun y => p y = false) l.
Proof.
  split.
  - induction l as [| y l IH]; cbn; [constructor |].
    destruct (p y) eqn:Hy; [discriminate |].
    destruct (position p l); [discriminate |]. intros _. constructor; auto.
  - induction 1 as [| y l Hy _ IH]; cbn; [reflexivity |]. now rewrite Hy, IH.
Qed.

Lemma Forall_forallb {A} (p : A -> bool) l :
  forallb (fun x => negb (p x)) l = true -> Forall (fun x => p x = false) l.
Proof.
  rewrite forallb_forall, Forall_forall. intros H x Hx.
  apply negb_true_iff. now apply H.
Qed.

Section WorkflowFacts.
Context {R : PyRuntime}.

Lemma processRow_daily_record date row d :
  processRow_daily date row = Ok d -> record_of_date date d.
Proof.
  unfold processRow_daily, bind. intros H. repeat bind_step H.
  injection H as <-. unfold record_of_date. repeat eexists.
Qed.

Lemma processRow_symbol_record symbol exchange row d :
  processRow_symbol symbol exchange row = Ok d -> exists date, record_of_date date d.
Proof.
  unfold processRow_symbol, bind. intros H. repeat bind_step H.
  injection H as <-. unfold record_of_date. repeat eexists.
Qed.

Lemma record_keys_NoDup : NoDup record_keys.
Proof. unfold record_keys. repeat constructor; cbn; intuition discriminate. Qed.

Lemma record_of_date_keys date d : record_of_date date d -> map fst d = record_keys.
Proof. intros (? & ? & ? & ? & ? & ? & ? & ? & ? & ->). reflexivity. Qed.

Lemma record_of_date_emitted date d :
  record_of_date date d ->
  combine dataset_columns (uid_value d :: map (cell_of d) (kept record_keys)) = emitted d /\
  lookup "date" (emitted d) = Some (VStr date).
Proof. intros (? & ? & ? & ? & ? & ? & ? & ? & ? & ->). now split. Qed.

(** The Dataset built from records of [processRow], at least one. *)
Lemma buildDataFrame_records data :
  data <> [] -> Forall (fun d => exists date, record_of_date date d) data ->
  exists df,
    buildDataFrame data = Ok df /\ columns df = dataset_columns /\
    records_of df = map emitted data.
Proof.
  intros Hne Hall.
  assert (Hkeys : all_keys data = record_keys).
  { destruct Hall as [| d data [date Hd] Hrest]; [easy |].
    apply all_keys_same; [exact record_keys_NoDup | exact (record_of_date_keys _ _ Hd) |].
    revert Hrest. apply Forall_impl. intros r [date' Hr].
    exact (record_of_date_keys _ _ Hr). }
  rewrite buildDataFrame_eq, Hkeys. cbn [forallb existsb kept filter record_keys
    String.eqb Ascii.eqb Bool.eqb negb andb orb]. 
  eexists. split; [reflexivity |]. split; [reflexivity |].
  unfold records_of. cbn [columns rows]. rewrite map_map.
  apply map_ext_in. intros d Hd. rewrite Forall_forall in Hall.
  destruct (Hall d Hd) as [date Hrec].
  exact (proj1 (record_of_date_emitted _ _ Hrec)).
Qed.

Lemma buildDataFrame_empty : buildDataFrame [] = Raise KeyError.
Proof. reflexivity. Qed.

End WorkflowFacts.

Section WorkflowTheorems.
Context {R : PyRuntime}.

Lemma resolve_date_page today soup iso :
  resolve_date today soup = Ok iso <-> page_date today soup iso.
Proof.
  unfold resolve_date, page_date, find. split.
  - destruct (List.find is_date_div (descendants soup)) as [t |] eqn:E.
    + apply find_first in E as (b & a & E & Hb & Ht).
      destruct (DATE_RE_search (text t)) as [g |] eqn:Hg; [| discriminate]. cbn.
      destruct (strptime g) as [d |] eqn:Hd; [| discriminate]. cbn.
      intros [= <-]. left. now exists b, t, a, g, d.
    + apply find_nothing in E. intros [= <-]. now right.
  - intros [(b & t & a & g & d & E & Hb & Ht & Hg & Hd & ->) | [Hall ->]].
    + assert (Hf : List.find is_date_div (descendants soup) = Some t).
      { apply find_first. now exists b, a. }
      rewrite Hf, Hg. cbn. now rewrite Hd.
    + now rewrite (proj2 (find_nothing _ _) Hall).
Qed.

Lemma daily_unfold getSoup today headers data soup iso :
  readTable getSoup ratings_url None = Ok (headers, data, soup) ->
  page_date today soup iso ->
  getDailyRatingsTable getSoup today
  = buildDataFrame (survivors (processRow_daily iso) data).
Proof.
  intros Hr Hd. apply resolve_date_page in Hd. unfold getDailyRatingsTable.
  fold ratings_url. rewrite Hr. cbn [bind]. rewrite Hd. cbn [bind].
  now rewrite process_rows_survivors.
Qed.

Lemma survivors_daily_records iso data :
  Forall (fun d => exists date, record_of_date date d /\ date = iso)
    (survivors (processRow_daily iso) data).
Proof.
  apply Forall_forall. intros d Hd. unfold survivors in Hd.
  apply in_flat_map in Hd as (row & _ & Hd).
  destruct (processRow_daily iso row) as [d' |] eqn:E; [| easy].
  destruct Hd as [<- | []]. exists iso. split; [| reflexivity].
  exact (processRow_daily_record _ _ _ E).
Qed.

(** C5, as the code has it: when the table is read (it is located and holds
    a thead and a tbody), the page gives a date and at least one row parses,
    the daily workflow returns the Dataset of the rows that parse, in their
    order; an exception of [readTable] is the workflow's. *)
Theorem daily_workflow_outcome :
  forall (getSoup : pystr -> node) (today : date),
    (forall e,
        readTable getSoup ratings_url None = Raise e ->
        getDailyRatingsTable getSoup today = Raise e) /\
    (forall headers data soup iso,
        readTable getSoup ratings_url None = Ok (headers, data, soup) ->
        page_date today soup iso ->
        survivors (processRow_daily iso) data <> [] ->
        exists df,
          getDailyRatingsTable getSoup today = Ok df /\
          columns df = dataset_columns /\
          records_of df = map emitted (survivors (processRow_daily iso) data)).
Proof.
  intros getSoup today. split.
  - intros e H. unfold getDailyRatingsTable. fold ratings_url. now rewrite H.
  - intros headers data soup iso Hr Hd Hne.
    rewrite (daily_unfold _ _ _ _ _ _ Hr Hd).
    apply buildDataFrame_records; [exact Hne |].
    generalize (survivors_daily_records iso data). apply Forall_impl.
    intros d (date & Hrec & _). now exists date.
Qed.

(** C1, where the code departs from it: when no row of the table parses,
    the record list is empty and the builder raises a KeyError, so the batch
    is aborted instead of giving an empty Dataset. *)
Theorem daily_workflow_aborts_without_survivor :
  forall (getSoup : pystr -> node) (today : date) headers data soup iso,
    readTable getSoup ratings_url None = Ok (headers, data, soup) ->
    page_date today soup iso ->
    survivors (processRow_daily iso) data = [] ->
    getDailyRatingsTable getSoup today = Raise KeyError.
Proof.
  intros getSoup today headers data soup iso Hr Hd He.
  rewrite (daily_unfold _ _ _ _ _ _ Hr Hd), He. apply buildDataFrame_empty.
Qed.

(** C8, as the code has it: the Dataset of the daily workflow carries one
    date in all its records, the one the page gives: the first match of the
    date pattern in the first div whose string has one, and today's date
    when no div has one. *)
Theorem daily_workflow_date :
  forall (getSoup : pystr -> node) (today : date) (df : DataFrame),
    getDailyRatingsTable getSoup today = Ok df ->
    exists headers data soup iso,
      readTable getSoup ratings_url None = Ok (headers, data, soup) /\
      page_date today soup iso /\
      Forall (fun r => lookup "date" r = Some (VStr iso)) (records_of df).
Proof.
  intros getSoup today df H. pose proof H as H0. unfold getDailyRatingsTable in H.
  fold ratings_url in H.
  destruct (readTable getSoup ratings_url None) as [[[headers data] soup] |] eqn:Hr;
    [| discriminate].
  cbn [bind] in H. destruct (resolve_date today soup) as [iso |] eqn:Hd; [| discriminate].
  apply resolve_date_page in Hd. exists headers, data, soup, iso.
  split; [reflexivity |]. split; [exact Hd |].
  rewrite (daily_unfold _ _ _ _ _ _ Hr Hd) in H0.
  destruct (survivors (processRow_daily iso) data) as [| d0 ds] eqn:Hs.
  { rewrite buildDataFrame_empty in H0. discriminate. }
  pose proof (survivors_daily_records iso data) as Hall. rewrite Hs in Hall.
  destruct (buildDataFrame_records (d0 :: ds)) as (df' & Hb & _ & Hrec); [easy | |].
  { revert Hall. apply Forall_impl. intros d (date & Hrec & _). now exists date. }
  rewrite Hb in H0. injection H0 as ->. rewrite Hrec.
  apply Forall_forall. intros r Hr'. apply in_map_iff in Hr' as (d & <- & Hin).
  rewrite Forall_forall in Hall. destruct (Hall d Hin) as (date & Hd' & ->).
  exact (proj2 (record_of_date_emitted _ _ Hd')).
Qed.

End WorkflowTheorems.

Lemma daily_workflow_outcome_witness :
  exists df,
    getDailyRatingsTable (R := sample_runtime) (fun _ => mixed_page) clock = Ok df /\
    map (lookup "symbol") (records_of df) = [Some (VStr (py "AAPL")); Some (VStr (py "MSFT"))].
Proof.
  set (p := parts_of (readTable (R := sample_runtime) (fun _ => mixed_page) ratings_url None)).
  destruct (proj2 (daily_workflow_outcome (R := sample_runtime) (fun _ => mixed_page) clock)
              (fst (fst p)) (snd (fst p)) (snd p) (py "2026-11-03"))
    as (df & Hdf & _ & Hrec).
  - vm_compute. reflexivity.
  - apply resolve_date_page. vm_compute. reflexivity.
  - vm_compute. discriminate.
  - exists df. split; [exact Hdf |]. rewrite Hrec. vm_compute. reflexivity.
Defined.

(** A table that is located and has no thead, and a page whose date marker
    is no date: the workflow fails, though the table is found and every row
    parses. *)
Lemma daily_workflow_counterexample :
  locate_root (R := sample_runtime) no_thead_page None = Ok (Some 4%nat) /\
  getDailyRatingsTable (R := sample_runtime) (fun _ => no_thead_page) clock
  = Raise AttributeError /\
  (exists headers data soup,
      readTable (R := sample_runtime) (fun _ => bad_date_page) ratings_url None
      = Ok (headers, data, soup) /\
      List.length (survivors (processRow_daily (R := sample_runtime) (py "2026-11-04")) data)
      = List.length data) /\
  getDailyRatingsTable (R := sample_runtime) (fun _ => bad_date_page) clock
  = Raise ValueError.
Proof.
  split; [vm_compute; reflexivity |]. split; [vm_compute; reflexivity |].
  split; [| vm_compute; reflexivity].
  set (p := parts_of (readTable (R := sample_runtime) (fun _ => bad_date_page) ratings_url None)).
  exists (fst (fst p)), (snd (fst p)), (snd p). split; vm_compute; reflexivity.
Qed.

Lemma daily_workflow_aborts_witness :
  getDailyRatingsTable (R := sample_runtime) (fun _ => single_bad_page) clock
  = Raise KeyError.
Proof.
  set (p := parts_of (readTable (R := sample_runtime) (fun _ => single_bad_page) ratings_url None)).
  refine (daily_workflow_aborts_without_survivor (fun _ => single_bad_page) clock
            (fst (fst p)) (snd (fst p)) (snd p) (py "2026-11-03") _ _ _).
  - vm_compute. reflexivity.
  - apply resolve_date_page. vm_compute. reflexivity.
  - vm_compute. reflexivity.
Defined.

Lemma daily_workflow_date_witness :
  exists df,
    getDailyRatingsTable (R := sample_runtime) (fun _ => daily_page) clock = Ok df /\
    records_of df <> [] /\
    Forall (fun r => lookup "date" r = Some (VStr (py "2026-11-03"))) (records_of df).
Proof.
  destruct (getDailyRatingsTable (R := sample_runtime) (fun _ => daily_page) clock)
    as [df | e] eqn:H; [| vm_compute in H; discriminate H].
  destruct (daily_workflow_date _ _ _ H) as (_ & _ & _ & iso & _ & _ & Hall).
  exists df. split; [reflexivity |].
  vm_compute in H. injection H as <-. split; [discriminate |].
  assert (E : iso = py "2026-11-03"); [| now rewrite <- E].
  inversion Hall as [| r rs Hr _]. vm_compute in Hr. now injection Hr.
Defined.

(** The date stands in a paragraph, not in a div: the records carry the
    date of the clock. *)
Lemma daily_workflow_date_counterexample :
  DATE_RE_search (R := sample_runtime) (text paragraph_page) = Some (py "11/3/2026") /\
  exists df,
    getDailyRatingsTable (R := sample_runtime) (fun _ => paragraph_page) clock = Ok df /\
    map (lookup "date") (records_of df)
    = [Some (VStr (py "2026-11-04")); Some (VStr (py "2026-11-04"))].
Proof.
  split; [vm_compute; reflexivity |]. eexists. split; vm_compute; reflexivity.
Qed.

(** ** The table locator *)

Section LocatorFacts.
Context {R : PyRuntime}.

Lemma is_heading_plain hint t :
  forallb re_plain hint = true ->
  is_heading (heading_pattern hint) t = heading_with hint t.
Proof.
  intros H. unfold is_heading, heading_with, heading_pattern.
  destruct (string_of t) as [s |]; [| reflexivity].
  now rewrite (proj2 (re_search_plain hint H) s).
Qed.

Lemma nth_error_middle {A} (a : list A) x b : nth_error (a ++ x :: b) (List.length a) = Some x.
Proof. rewrite nth_error_app2, Nat.sub_diag by lia. reflexivity. Qed.

Lemma skipn_middle {A} (a : list A) x b : skipn (S (List.length a)) (a ++ x :: b) = b.
Proof. induction a as [| y a IH]; [reflexivity | exact IH]. Qed.

Lemma locate_no_hint soup before t after :
  descendants soup = before ++ t :: after ->
  Forall (fun n => is_tag "table" n = false) before ->
  is_tag "table" t = true ->
  locate_root soup None = Ok (Some (List.length before)).
Proof.
  intros E Hb Ht. unfold locate_root. do 2 f_equal.
  apply position_first. now exists before, t, after.
Qed.

Lemma locate_heading_missing soup hint :
  forallb re_plain hint = true ->
  Forall (fun n => heading_with hint n = false) (descendants soup) ->
  locate_root soup (Some hint) = Raise AttributeError.
Proof.
  intros Hp Hall. unfold locate_root.
  rewrite (proj1 (re_search_plain hint Hp)).
  assert (Hn : position (is_heading (heading_pattern hint)) (descendants soup) = None).
  { apply position_nothing. revert Hall. apply Forall_impl. intros n Hn.
    now rewrite is_heading_plain. }
  now rewrite Hn.
Qed.

Lemma locate_heading soup hint before h after :
  forallb re_plain hint = true ->
  descendants soup = before ++ h :: after ->
  Forall (fun n => heading_with hint n = false) before ->
  heading_with hint h = true ->
  locate_root soup (Some hint)
  = Ok (option_map (fun j => S (List.length before) + j)%nat
          (position (is_tag "table") after)).
Proof.
  intros Hp E Hb Hh. unfold locate_root.
  rewrite (proj1 (re_search_plain hint Hp)).
  assert (Hn : position (is_heading (heading_pattern hint)) (descendants soup)
               = Some (List.length before)).
  { apply position_first. exists before, h, after. repeat split; trivial.
    - revert Hb. apply Forall_impl. intros n Hn. now rewrite is_heading_plain.
    - now rewrite is_heading_plain. }
  now rewrite Hn, E, skipn_middle.
Qed.

End LocatorFacts.

(** C4, as the code has it: without a hint the table read is the first
    table of the document; with a hint (of plain characters) it is the
    first table after the first h2 whose string holds the hint, in the
    case written, anywhere in it. *)
Theorem table_selection {R : PyRuntime} :
  forall (getSoup : pystr -> node) (url : pystr),
    (forall before t after,
        descendants (getSoup url) = before ++ t :: after ->
        Forall (fun n => is_tag "table" n = false) before ->
        is_tag "table" t = true ->
        readTable getSoup url None
        = table_parts (getSoup url) (List.length before) t) /\
    (forall hint before h between t after,
        forallb re_plain hint = true ->
        descendants (getSoup url) = before ++ h :: between ++ t :: after ->
        Forall (fun n => heading_with hint n = false) before ->
        heading_with hint h = true ->
        Forall (fun n => is_tag "table" n = false) between ->
        is_tag "table" t = true ->
        readTable getSoup url (Some hint)
        = table_parts (getSoup url) (S (List.length before) + List.length between) t).
Proof.
  intros getSoup url. split.
  - intros before t after E Hb Ht. unfold readTable.
    rewrite (locate_no_hint _ _ _ _ E Hb Ht). cbn [bind attr_of].
    now rewrite E, nth_error_middle.
  - intros hint before h between t after Hp E Hb Hh Hm Ht. unfold readTable.
    rewrite (locate_heading _ _ _ _ _ Hp E Hb Hh).
    assert (Hpos : position (is_tag "table") (between ++ t :: after)
                   = Some (List.length between)).
    { apply position_first. now exists between, t, after. }
    rewrite Hpos. cbn [option_map bind attr_of]. rewrite E.
    replace (before ++ h :: between ++ t :: after)
      with ((before ++ h :: between) ++ t :: after) by now rewrite <- app_assoc.
    replace (S (List.length before) + List.length between)%nat
      with (List.length (before ++ h :: between)) by (rewrite length_app; cbn; lia).
    now rewrite nth_error_middle.
Qed.

Lemma table_selection_witness :
  (exists headers data soup,
      readTable (R := sample_runtime) (fun _ => daily_page) ratings_url None
      = Ok (headers, data, soup) /\ List.length data = 2%nat) /\
  (exists headers data soup,
      readTable (R := sample_runtime) (fun _ => history_page) nowhere (Some history_hint)
      = Ok (headers, data, soup) /\
      map (fun row => option_map (fun c => get c "data-sort-value") (nth_error row 6)) data
      = [Some (Some (py "3"))]).
Proof.
  split.
  - set (desc := descendants daily_page).
    set (i := match position (is_tag "table") desc with Some i => i | None => O end).
    assert (E : readTable (R := sample_runtime) (fun _ => daily_page) ratings_url None
                = table_parts daily_page (List.length (firstn i desc)) (nth i desc (Comment []))).
    { apply (proj1 (table_selection (R := sample_runtime) (fun _ => daily_page) ratings_url)
               (firstn i desc) (nth i desc (Comment [])) (skipn (S i) desc)).
      - vm_compute. reflexivity.
      - apply Forall_forallb. vm_compute. reflexivity.
      - vm_compute. reflexivity. }
    do 3 eexists. split; [eapply eq_trans; [exact E |] |]; vm_compute; reflexivity.
  - set (desc := descendants history_page).
    set (i := match position (heading_with history_hint) desc with Some i => i | None => O end).
    set (rest := skipn (S i) desc).
    set (j := match position (is_tag "table") rest with Some j => j | None => O end).
    assert (E : readTable (R := sample_runtime) (fun _ => history_page) nowhere (Some history_hint)
                = table_parts history_page
                    (S (List.length (firstn i desc)) + List.length (firstn j rest))
                    (nth j rest (Comment []))).
    { apply (proj2 (table_selection (R := sample_runtime) (fun _ => history_page) nowhere)
               history_hint (firstn i desc) (nth i desc (Comment []))
               (firstn j rest) (nth j rest (Comment [])) (skipn (S j) rest) eq_refl).
      - vm_compute. reflexivity.
      - apply Forall_forallb. vm_compute. reflexivity.
      - vm_compute. reflexivity.
      - apply Forall_forallb. vm_compute. reflexivity.
      - vm_compute. reflexivity. }
    do 3 eexists. split; [eapply eq_trans; [exact E |] |]; vm_compute; reflexivity.
Defined.

(** The heading holds the history_hint in capitals only: no table is selected. *)
Lemma table_selection_counterexample :
  find (is_tag "h2") upper_page = Some (el "h2" [] [txt "RATINGS HISTORY"]) /\
  contains (map lower history_hint) (map lower (py "RATINGS HISTORY")) = true /\
  readTable (R := sample_runtime) (fun _ => upper_page) nowhere (Some history_hint)
  = Raise AttributeError.
Proof. repeat split; vm_compute; reflexivity. Qed.

(** C3, as the code has it: with a hint (of plain characters), when no h2
    of the document has a string that holds the hint, or no table follows
    the first that has, [readTable] raises an AttributeError; and an
    exception of [readTable] is the exception of the symbol workflow. *)
Theorem heading_not_found {R : PyRuntime} :
  forall (getSoup : pystr -> node),
    (forall url hint,
        forallb re_plain hint = true ->
        (Forall (fun n => heading_with hint n = false) (descendants (getSoup url)) ->
         readTable getSoup url (Some hint) = Raise AttributeError) /\
        (forall before h after,
            descendants (getSoup url) = before ++ h :: after ->
            Forall (fun n => heading_with hint n = false) before ->
            heading_with hint h = true ->
            Forall (fun n => is_tag "table" n = false) after ->
            readTable getSoup url (Some hint) = Raise AttributeError)) /\
    (forall symbol href exchange e,
        ratings_link (getSoup (overview_url symbol)) href exchange ->
        readTable getSoup (BASE_URL ++ href) (Some (py "Ratings History")) = Raise e ->
        getSymbolRatingsTable getSoup symbol = Raise e).
Proof.
  intros getSoup. split.
  - intros url hint Hp. split.
    + intros Hall. unfold readTable. now rewrite (locate_heading_missing _ _ Hp Hall).
    + intros before h after E Hb Hh Ha. unfold readTable.
      rewrite (locate_heading _ _ _ _ _ Hp E Hb Hh).
      now rewrite (proj2 (position_nothing _ _) Ha).
  - intros symbol href exchange e (li & a & Hli & Ha & Hh & Hx) Hr.
    unfold getSymbolRatingsTable. fold (overview_url symbol).
    rewrite Hli. cbn [attr_of bind]. rewrite Ha. cbn [attr_of bind].
    rewrite Hh. cbn [bind]. rewrite Hx. cbn [attr_of bind]. now rewrite Hr.
Qed.

Lemma heading_not_found_witness :
  readTable (R := sample_runtime) (fun _ => other_page) nowhere (Some history_hint)
  = Raise AttributeError /\
  readTable (R := sample_runtime) (fun _ => lonely_page) nowhere (Some history_hint)
  = Raise AttributeError.
Proof.
  split.
  - refine (proj1 (proj1 (heading_not_found (R := sample_runtime) (fun _ => other_page))
                     nowhere history_hint eq_refl) _).
    apply Forall_forallb. vm_compute. reflexivity.
  - set (desc := descendants lonely_page).
    set (i := match position (heading_with history_hint) desc with Some i => i | None => O end).
    refine (proj2 (proj1 (heading_not_found (R := sample_runtime) (fun _ => lonely_page))
                     nowhere history_hint eq_refl)
              (firstn i desc) (nth i desc (Comment [])) (skipn (S i) desc) _ _ _ _).
    + vm_compute. reflexivity.
    + apply Forall_forallb. vm_compute. reflexivity.
    + vm_compute. reflexivity.
    + apply Forall_forallb. vm_compute. reflexivity.
Defined.

(** No heading holds the history_hint: the exception is an AttributeError, the one
    any attribute access on None raises. *)
Lemma heading_not_found_counterexample :
  readTable (R := sample_runtime) (fun _ => other_page) nowhere (Some history_hint)
  = Raise AttributeError /\
  exc_name AttributeError <> TableNotFoundError.
Proof. split; [vm_compute; reflexivity | discriminate]. Qed.

Section RatingRows.
Context {R : PyRuntime}.

Lemma processRow_daily_rating date row cell e :
  nth_error row 6 = Some cell -> parseRatingTag cell = Raise e ->
  exists e', processRow_daily date row = Raise e'.
Proof.
  intros H6 He. unfold processRow_daily, bind, index. rewrite H6.
  raise_through He.
Qed.

Lemma processRow_symbol_rating symbol exchange row cell e :
  nth_error row 4 = Some cell -> parseRatingTag cell = Raise e ->
  exists e', processRow_symbol symbol exchange row = Raise e'.
Proof.
  intros H4 He. unfold processRow_symbol, bind, index. rewrite H4.
  raise_through He.
Qed.

Lemma parseRatingTag_code name attrs contents v label z :
  lookup "data-sort-value" attrs = Some v ->
  parseRatingTag (Tag name attrs contents) = Ok (label, z) ->
  int_of_str v = Ok z.
Proof.
  intros Hv. unfold parseRatingTag, get_default, get. rewrite Hv.
  destruct (int_of_str v); cbn; [now intros [= _ ->] | discriminate].
Qed.

End RatingRows.

(** C10: a rating cell with a data-sort-value attribute gets the code the
    attribute spells and no other, -1 included; when the attribute is no
    decimal integer string the rating parser raises a ValueError, and the
    row of such a cell leaves no record, in either workflow. *)
Theorem malformed_rating_code {R : PyRuntime} :
  forall (name : string) (attrs : list (string * pystr)) (contents : list node)
         (v : pystr),
    lookup "data-sort-value" attrs = Some v ->
    (forall label z,
        parseRatingTag (Tag name attrs contents) = Ok (label, z) -> int_literal v z) /\
    (~ decimal_integer_string v ->
     parseRatingTag (Tag name attrs contents) = Raise ValueError /\
     (forall date before row after,
         nth_error row 6 = Some (Tag name attrs contents) ->
         process_rows (processRow_daily date) (before ++ row :: after)
         = process_rows (processRow_daily date) (before ++ after)) /\
     (forall symbol exchange before row after,
         nth_error row 4 = Some (Tag name attrs contents) ->
         process_rows (processRow_symbol symbol exchange) (before ++ row :: after)
         = process_rows (processRow_symbol symbol exchange) (before ++ after))).
Proof.
  intros name attrs contents v Hv. split.
  - intros label z H. apply int_of_str_sound.
    exact (parseRatingTag_code _ _ _ _ _ _ Hv H).
  - intros Hbad.
    assert (He : parseRatingTag (Tag name attrs contents) = Raise ValueError).
    { unfold parseRatingTag, get_default, get. rewrite Hv.
      destruct (int_of_str_outcome v) as [[z Hz] | Hz]; [| now rewrite Hz].
      elim Hbad. exists z. now apply int_of_str_sound. }
    split; [exact He |]. split.
    + intros date before row after H6. rewrite !process_rows_survivors.
      destruct (processRow_daily_rating date row _ _ H6 He) as [e' He'].
      exact (survivors_drop _ _ _ _ _ He').
    + intros symbol exchange before row after H4. rewrite !process_rows_survivors.
      destruct (processRow_symbol_rating symbol exchange row _ _ H4 He) as [e' He'].
      exact (survivors_drop _ _ _ _ _ He').
Qed.

Lemma malformed_rating_code_witness :
  parseRatingTag (R := sample_runtime) (rating_cell "n/a") = Raise ValueError /\
  process_rows (processRow_daily (R := sample_runtime) (py "2026-11-03"))
    ([cells (daily_row "AAPL" (rating_cell "3"))]
       ++ cells (daily_row "IBM" (rating_cell "n/a")) :: [])
  = process_rows (processRow_daily (R := sample_runtime) (py "2026-11-03"))
      ([cells (daily_row "AAPL" (rating_cell "3"))] ++ []).
Proof.
  assert (Hbad : ~ decimal_integer_string (R := sample_runtime) (py "n/a")).
  { intros [z Hz]. apply int_of_str_complete in Hz. vm_compute in Hz. discriminate Hz. }
  destruct (proj2 (malformed_rating_code (R := sample_runtime) "td"
                     [("data-sort-value", py "n/a")] [arrow_text "Hold " " Buy"]
                     (py "n/a") eq_refl) Hbad) as (H1 & H2 & _).
  split; [exact H1 |]. apply H2. reflexivity.
Defined.

Section SymbolWorkflow.
Context {R : PyRuntime}.

Lemma symbol_unfold getSoup symbol href exchange headers data soup :
  ratings_link (getSoup (overview_url symbol)) href exchange ->
  readTable getSoup (BASE_URL ++ href) (Some (py "Ratings History"))
  = Ok (headers, data, soup) ->
  getSymbolRatingsTable getSoup symbol
  = buildDataFrame (survivors (processRow_symbol symbol exchange) data).
Proof.
  intros (li & a & Hli & Ha & Hh & Hx) Hr.
  unfold getSymbolRatingsTable. fold (overview_url symbol).
  rewrite Hli. cbn [attr_of bind]. rewrite Ha. cbn [attr_of bind].
  rewrite Hh. cbn [bind]. rewrite Hx. cbn [attr_of bind]. rewrite Hr. cbn [bind].
  now rewrite process_rows_survivors.
Qed.

End SymbolWorkflow.

(** X1: the loop over the rows (lines 190-195 and 253-258): a row on which
    [processRow] raises leaves nothing in the record list and changes
    nothing for the rows before and after it; a row it accepts leaves its
    record between theirs. *)
Theorem row_isolation :
  forall (processRow : list node -> result dict) (before : list (list node))
         (row : list node) (after : list (list node)),
    (forall e,
        processRow row = Raise e ->
        process_rows processRow (before ++ row :: after)
        = process_rows processRow before ++ process_rows processRow after) /\
    (forall d,
        processRow row = Ok d ->
        process_rows processRow (before ++ row :: after)
        = process_rows processRow before ++ d :: process_rows processRow after).
Proof.
  intros f before row after. rewrite !process_rows_survivors, survivors_app. cbn.
  split; intros x Hx; now rewrite Hx.
Qed.

Lemma row_isolation_witness :
  process_rows (processRow_daily (R := sample_runtime) (py "2026-11-03"))
    ([cells (daily_row "AAPL" (rating_cell "3"))]
       ++ cells (bad_row "IBM") :: [cells (daily_row "MSFT" (rating_cell "4"))])
  = process_rows (processRow_daily (R := sample_runtime) (py "2026-11-03"))
      [cells (daily_row "AAPL" (rating_cell "3"))]
    ++ process_rows (processRow_daily (R := sample_runtime) (py "2026-11-03"))
         [cells (daily_row "MSFT" (rating_cell "4"))].
Proof.
  apply (proj1 (row_isolation (processRow_daily (R := sample_runtime) (py "2026-11-03"))
                  [cells (daily_row "AAPL" (rating_cell "3"))] (cells (bad_row "IBM"))
                  [cells (daily_row "MSFT" (rating_cell "4"))]) AttributeError).
  vm_compute. reflexivity.
Defined.

(** X2: the symbol workflow (lines 239-259): when the overview page links to the
    ratings page and the table under the heading is read, the workflow
    returns the Dataset of the rows that parse, in their order, if there is
    one, and raises a KeyError if there is none. *)
Theorem symbol_workflow_outcome {R : PyRuntime} :
  forall (getSoup : pystr -> node) (symbol href exchange : pystr) headers data soup,
    ratings_link (getSoup (overview_url symbol)) href exchange ->
    readTable getSoup (BASE_URL ++ href) (Some (py "Ratings History"))
    = Ok (headers, data, soup) ->
    (survivors (processRow_symbol symbol exchange) data <> [] ->
     exists df,
       getSymbolRatingsTable getSoup symbol = Ok df /\
       columns df = dataset_columns /\
       records_of df = map emitted (survivors (processRow_symbol symbol exchange) data)) /\
    (survivors (processRow_symbol symbol exchange) data = [] ->
     getSymbolRatingsTable getSoup symbol = Raise KeyError).
Proof.
  intros getSoup symbol href exchange headers data soup Hl Hr.
  rewrite (symbol_unfold _ _ _ _ _ _ _ Hl Hr). split.
  - intros Hne. apply buildDataFrame_records; [exact Hne |].
    apply Forall_forall. intros d Hd. unfold survivors in Hd.
    apply in_flat_map in Hd as (row & _ & Hd).
    destruct (processRow_symbol symbol exchange row) as [d' |] eqn:E; [| easy].
    destruct Hd as [<- | []]. exact (processRow_symbol_record _ _ _ _ E).
  - intros ->. apply buildDataFrame_empty.
Qed.

Lemma symbol_workflow_outcome_witness :
  exists df,
    getSymbolRatingsTable (R := sample_runtime) web (py "IBM") = Ok df /\
    map (lookup "date") (records_of df)
    = [Some (VStr (py "2026-11-03")); Some (VStr (py "2025-09-01"))] /\
    map (lookup "exchange") (records_of df)
    = [Some (VStr (py "NYSE")); Some (VStr (py "NYSE"))].
Proof.
  set (p := parts_of (readTable (R := sample_runtime) web
                        (BASE_URL ++ py "/stocks/NYSE/IBM/price-target/")
                        (Some (py "Ratings History")))).
  destruct (proj1 (symbol_workflow_outcome (R := sample_runtime) web (py "IBM")
                     (py "/stocks/NYSE/IBM/price-target/") (py "NYSE")
                     (fst (fst p)) (snd (fst p)) (snd p)
                     ltac:(do 2 eexists; repeat split; vm_compute; reflexivity)
                     ltac:(vm_compute; reflexivity)))
    as (df & Hdf & _ & Hrec).
  - vm_compute. discriminate.
  - exists df. split; [exact Hdf |]. rewrite Hrec. split; vm_compute; reflexivity.
Defined.

(* ================================================================== *)
(** * Further properties *)

(** ** The builder *)

Lemma union_keys_In k b : forall a, In k (union_keys a b) <-> In k a \/ In k b.
Proof.
  induction b as [| x b IH]; intros a; cbn; [tauto |].
  destruct (existsb (String.eqb x) a) eqn:E.
  - rewrite IH. apply existsb_eqb_In in E. split; [tauto |].
    intros [H | [<- | H]]; tauto.
  - rewrite IH, in_app_iff. cbn. tauto.
Qed.

Lemma fold_keys_In k data : forall acc,
  In k (fold_left (fun acc (d : dict) => union_keys acc (map fst d)) data acc)
  <-> In k acc \/ exists d, In d data /\ In k (map fst d).
Proof.
  induction data as [| d data IH]; intros acc; cbn.
  - split; [tauto | intros [H | (d & [] & _)]; exact H].
  - rewrite IH, union_keys_In. split.
    + intros [[H | H] | (d' & H1 & H2)]; eauto.
    + intros [H | (d' & [<- | H1] & H2)]; eauto.
Qed.

Lemma has_key_In k data :
  has_key k data = true <-> exists d, In d data /\ In k (map fst d).
Proof.
  unfold has_key. rewrite existsb_exists. split; intros (d & H1 & H2); exists d.
  - split; [exact H1 | now apply existsb_eqb_In].
  - split; [exact H1 | now apply existsb_eqb_In].
Qed.

Lemma all_keys_has_key k data :
  existsb (String.eqb k) (all_keys data) = has_key k data.
Proof.
  apply eq_true_iff_eq. rewrite existsb_eqb_In, has_key_In.
  unfold all_keys. rewrite fold_keys_In. cbn. tauto.
Qed.

Lemma kept_has_key k data :
  k <> "brokerage_code" ->
  existsb (String.eqb k) (kept (all_keys data)) = has_key k data.
Proof.
  intros Hk. rewrite <- all_keys_has_key. apply eq_true_iff_eq.
  rewrite !existsb_eqb_In, kept_In. tauto.
Qed.

Section BuilderFacts.
Context {R : PyRuntime}.

Lemma buildDataFrame_cases data :
  buildDataFrame data
  = if keyed data
    then if has_key "uid" data then Raise ValueError
         else Ok (mkframe ("uid" :: kept (all_keys data))
                    (map (fun d => uid_value d :: map (cell_of d) (kept (all_keys data))) data))
    else Raise KeyError.
Proof.
  rewrite buildDataFrame_eq. cbn [forallb].
  rewrite !kept_has_key by discriminate. unfold keyed.
  now rewrite andb_true_r, andb_assoc.
Qed.

End BuilderFacts.



Lemma lookup_In_keys {V} k (d : list (string * V)) :
  In k (map fst d) <-> lookup k d <> None.
Proof.
  induction d as [| [k' v] d IH]; cbn; [tauto |].
  destruct (String.eqb_spec k k') as [-> | Hne].
  - split; [discriminate | auto].
  - rewrite <- IH. split; [intros [E | H]; [congruence | exact H] | auto].
Qed.

Lemma has_key_of_record k data i r v :
  nth_error data i = Some r -> lookup k r = Some v -> has_key k data = true.
Proof.
  intros Hi Hv. apply has_key_In. exists r. split; [exact (nth_error_In _ _ Hi) |].
  apply lookup_In_keys. congruence.
Qed.

(** X4: the shape of a Dataset the builder returns. Its columns are uid and
    then the keys of the dicts in the order they first appear, brokerage_code
    left out; no column name occurs twice; there is one row for each dict,
    and every row has one cell for each column. The list of dicts was not
    empty. *)
Theorem buildDataFrame_shape {R : PyRuntime} :
  forall (data : list dict) (df : DataFrame),
    buildDataFrame data = Ok df ->
    columns df = "uid" :: kept (all_keys data) /\
    NoDup (columns df) /\
    List.length (rows df) = List.length data /\
    Forall (fun row => List.length row = List.length (columns df)) (rows df) /\
    data <> [].
Proof.
  intros data df H. rewrite buildDataFrame_cases in H.
  destruct (keyed data) eqn:Hk; [| discriminate].
  destruct (has_key "uid" data) eqn:Hu; [discriminate |].
  injection H as <-. cbn [columns rows]. repeat split.
  - constructor.
    + rewrite <- kept_has_key in Hu by discriminate. now apply existsb_eqb_false.
    + unfold kept. apply NoDup_filter, all_keys_NoDup.
  - apply length_map.
  - apply Forall_forall. intros row Hrow. apply in_map_iff in Hrow as (d & <- & _).
    cbn. now rewrite length_map.
  - intros ->. discriminate Hk.
Qed.

Lemma buildDataFrame_shape_witness :
  exists df,
    buildDataFrame (R := sample_runtime)
      [sample_record "AAPL" "Smith_Barney"; [("date", VStr (py "2020-01-03"))];
       sample_record "AAPL" "Smith_Barney"] = Ok df /\
    columns df = dataset_columns /\
    List.length (rows df) = 3%nat /\
    Forall (fun row => List.length row = 10%nat) (rows df).
Proof.
  destruct (buildDataFrame (R := sample_runtime)
              [sample_record "AAPL" "Smith_Barney"; [("date", VStr (py "2020-01-03"))];
               sample_record "AAPL" "Smith_Barney"]) as [df |] eqn:H; [| discriminate].
  destruct (buildDataFrame_shape _ _ H) as (Hc & _ & Hl & Hw & _).
  exists df. split; [reflexivity |]. rewrite Hc in *. now repeat split.
Defined.

(** X5: what a Dataset the builder returns holds. Row i is the dict number
    i: under every key other than uid and brokerage_code it has the string
    the dict has there, NaN where the dict lacks a key that another dict
    holds, and nothing under a key no dict holds; brokerage_code is gone.
    (Numbers are left out: pandas may convert them with their column.) *)
Theorem built_record_values {R : PyRuntime} :
  forall (data : list dict) (df : DataFrame) (i : nat) (r : dict),
    buildDataFrame data = Ok df ->
    nth_error data i = Some r ->
    exists rec,
      nth_error (records_of df) i = Some rec /\
      map fst rec = columns df /\
      lookup "brokerage_code" rec = None /\
      forall k, k <> "uid" -> k <> "brokerage_code" ->
        (forall s, lookup k r = Some (VStr s) -> lookup k rec = Some (VStr s)) /\
        (lookup k r = None ->
         lookup k rec = if has_key k data then Some (VFloat NaN) else None).
Proof.
  intros data df i r H Hi. rewrite buildDataFrame_cases in H.
  destruct (keyed data) eqn:Hk; [| discriminate].
  destruct (has_key "uid" data) eqn:Hu; [discriminate |].
  injection H as <-. unfold records_of. cbn [columns rows].
  rewrite map_map. rewrite (map_nth_error _ _ _ Hi).
  eexists. split; [reflexivity |]. cbn [combine].
  rewrite combine_self_map. cbn [map fst lookup String.eqb Ascii.eqb Bool.eqb].
  split; [now rewrite keys_map_pair |]. split.
  - rewrite lookup_map_pair.
    destruct (existsb _ _) eqn:E; [| reflexivity].
    apply existsb_eqb_In, kept_In in E. tauto.
  - intros k Hk1 Hk2. apply String.eqb_neq in Hk1. rewrite Hk1.
    rewrite lookup_map_pair, kept_has_key by exact Hk2.
    unfold cell_of. split.
    + intros s Hs. now rewrite (has_key_of_record _ _ _ _ _ Hi Hs), Hs.
    + now intros ->.
Qed.

Lemma built_record_values_witness :
  exists df rec,
    buildDataFrame (R := sample_runtime)
      [sample_record "AAPL" "Smith_Barney"; [("date", VStr (py "2020-01-03"))]] = Ok df /\
    nth_error (records_of df) 1 = Some rec /\
    lookup "date" rec = Some (VStr (py "2020-01-03")) /\
    lookup "symbol" rec = Some (VFloat NaN) /\
    lookup "brokerage_code" rec = None /\
    lookup "volume" rec = None.
Proof.
  destruct (buildDataFrame (R := sample_runtime)
              [sample_record "AAPL" "Smith_Barney"; [("date", VStr (py "2020-01-03"))]])
    as [df |] eqn:H; [| discriminate].
  destruct (built_record_values _ df 1%nat _ H eq_refl) as (rec & H1 & _ & H2 & H3).
  exists df, rec. split; [reflexivity |]. split; [exact H1 |].
  split; [exact (proj1 (H3 "date" ltac:(discriminate) ltac:(discriminate)) _ eq_refl) |].
  split; [exact (proj2 (H3 "symbol" ltac:(discriminate) ltac:(discriminate)) eq_refl) |].
  split; [exact H2 |].
  exact (proj2 (H3 "volume" ltac:(discriminate) ltac:(discriminate)) eq_refl).
Defined.

Lemma app_sep_inj (c : char) (a a' x x' : pystr) :
  ~ In c a -> ~ In c a' -> a ++ c :: x = a' ++ c :: x' -> a = a' /\ x = x'.
Proof.
  revert a'. induction a as [| y a IH]; intros [| y' a'] Ha Ha'; cbn.
  - now intros [= ->].
  - intros [= <- _]. elim Ha'. now left.
  - intros [= -> _]. elim Ha. now left.
  - intros [= -> E]. destruct (IH a') as [-> ->]; cbn in *; tauto.
Qed.

Lemma uid_text_inj (d s b d' s' b' : pystr) :
  ~ In UNDERSCORE d -> ~ In UNDERSCORE s -> ~ In UNDERSCORE d' -> ~ In UNDERSCORE s' ->
  uid_text d s b = uid_text d' s' b' -> d = d' /\ s = s' /\ b = b'.
Proof.
  intros Hd Hs Hd' Hs' E. unfold uid_text in E. change (py "_") with [UNDERSCORE] in E.
  cbn [app] in E.
  destruct (app_sep_inj _ _ _ _ _ Hd Hd' E) as [-> E'].
  destruct (app_sep_inj _ _ _ _ _ Hs Hs' E') as [-> ->]. easy.
Qed.

Section UidFacts.
Context {R : PyRuntime}.

Lemma uid_at_record data df i r d s b :
  buildDataFrame data = Ok df -> nth_error data i = Some r -> keyed_by r d s b ->
  uid_at df i = Some (VStr (uid_text d s b)).
Proof.
  intros H Hi (Hd & Hs & Hb). rewrite buildDataFrame_cases in H.
  destruct (keyed data); [| discriminate].
  destruct (has_key "uid" data); [discriminate |].
  injection H as <-. unfold uid_at. cbn [rows].
  rewrite (map_nth_error _ _ _ Hi). cbn [option_map hd].
  unfold uid_value, cell_of. cbn [map]. now rewrite Hd, Hs, Hb.
Qed.

End UidFacts.

(** X6: the key tells records apart when date and symbol hold no
    underscore: two rows of a Dataset have the same uid exactly when their
    dicts agree on date, symbol and brokerage, whatever the brokerage name
    holds. *)
Theorem uid_separates {R : PyRuntime} :
  forall (data : list dict) (df : DataFrame) (i j : nat) (ri rj : dict)
         (d s b d' s' b' : pystr),
    buildDataFrame data = Ok df ->
    nth_error data i = Some ri -> keyed_by ri d s b ->
    nth_error data j = Some rj -> keyed_by rj d' s' b' ->
    ~ In UNDERSCORE d -> ~ In UNDERSCORE s ->
    ~ In UNDERSCORE d' -> ~ In UNDERSCORE s' ->
    (uid_at df i = uid_at df j <-> d = d' /\ s = s' /\ b = b').
Proof.
  intros data df i j ri rj d s b d' s' b' H Hi Hri Hj Hrj Hd Hs Hd' Hs'.
  rewrite (uid_at_record _ _ _ _ _ _ _ H Hi Hri), (uid_at_record _ _ _ _ _ _ _ H Hj Hrj).
  split.
  - intros [= E]. now apply uid_text_inj.
  - now intros (-> & -> & ->).
Qed.

Lemma uid_separates_witness :
  exists df,
    buildDataFrame (R := sample_runtime)
      [sample_record "AAPL" "Smith_Barney"; sample_record "AAPL" "Smith"] = Ok df /\
    uid_at df 0 <> uid_at df 1.
Proof.
  destruct (buildDataFrame (R := sample_runtime)
              [sample_record "AAPL" "Smith_Barney"; sample_record "AAPL" "Smith"])
    as [df |] eqn:H; [| discriminate].
  exists df. split; [reflexivity |]. intros E.
  apply (uid_separates _ df 0%nat 1%nat _ _
           (py "2020-01-02") (py "AAPL") (py "Smith_Barney")
           (py "2020-01-02") (py "AAPL") (py "Smith") H eq_refl
           ltac:(now repeat split) eq_refl ltac:(now repeat split)) in E.
  - destruct E as (_ & _ & E). discriminate E.
  - cbn. intuition discriminate.
  - cbn. intuition discriminate.
  - cbn. intuition discriminate.
  - cbn. intuition discriminate.
Defined.

(** ** The symbol cell *)

Lemma split_cons_inv sep s p ps :
  split sep s = p :: ps ->
  ~ In sep p /\
  ((ps = [] /\ s = p) \/ (exists r, s = p ++ sep :: r /\ split sep r = ps)).
Proof.
  revert p ps. induction s as [| c s IH]; intros p ps; cbn.
  - intros [= <- <-]. split; [easy | now left].
  - destruct (N.eqb_spec c sep) as [-> | Hne].
    + intros [= <- <-]. split; [easy |]. right. now exists s.
    + destruct (split sep s) as [| h t] eqn:E.
      * now destruct (split_nonempty sep s).
      * intros [= <- <-]. destruct (IH h t eq_refl) as [Hh Hs]. split.
        -- intros [-> | H]; tauto.
        -- destruct Hs as [[-> ->] | (r & -> & Hr)]; [now left |].
           right. now exists r.
Qed.

Lemma split_length sep s :
  List.length (split sep s) = S (count_occ N.eq_dec s sep).
Proof.
  induction s as [| c s IH]; cbn; [reflexivity |].
  destruct (N.eqb_spec c sep) as [-> | Hne].
  - destruct (N.eq_dec sep sep); [| easy]. cbn. now rewrite IH.
  - destruct (N.eq_dec c sep); [easy |].
    destruct (split sep s) as [| h t]; [discriminate IH | exact IH].
Qed.

Lemma split_third s seg :
  nth_error (split SLASH s) 2 = Some seg <-> third_field s seg.
Proof.
  split.
  - destruct (split SLASH s) as [| p0 [| p1 [| p2 ps]]] eqn:E; try discriminate.
    intros [= ->].
    destruct (split_cons_inv _ _ _ _ E) as [H0 [[? _] | (r1 & -> & E1)]]; [discriminate |].
    destruct (split_cons_inv _ _ _ _ E1) as [H1 [[? _] | (r2 & -> & E2)]]; [discriminate |].
    destruct (split_cons_inv _ _ _ _ E2) as [H2 [[_ ->] | (r3 & -> & _)]].
    + exists p0, p1, []. rewrite app_nil_r. repeat split; trivial. now left.
    + exists p0, p1, (SLASH :: r3). repeat split; trivial. right. now exists r3.
  - intros (p0 & p1 & tail & -> & H0 & H1 & H2 & Ht).
    rewrite split_app, (split_none _ _ H0). cbn [app nth_error].
    rewrite split_app, (split_none _ _ H1). cbn [app nth_error].
    destruct Ht as [-> | [t ->]].
    + rewrite app_nil_r, (split_none _ _ H2). reflexivity.
    + rewrite split_app, (split_none _ _ H2). reflexivity.
Qed.

Lemma split_short s :
  nth_error (split SLASH s) 2 = None <-> (slashes s < 2)%nat.
Proof.
  rewrite nth_error_None, split_length. unfold slashes. lia.
Qed.

Lemma trimmed_strip s : trimmed s (strip s).
Proof.
  destruct (strip_trimmed s) as (l & r & E & Hl & Hr & H1 & H2).
  exists l, r. now repeat split.
Qed.

(** X7: the symbol cell (lines 78-81). The parser returns the text of the
    first div of class ticker-area, the text of the first div of class
    title-area, and as exchange the third of the fields the slashes of the
    first anchor's href separate, trimmed. It raises an IndexError exactly
    when the ticker div and the anchor are there and the href (the empty
    string when the anchor has none) has fewer than two slashes, and nothing
    but an AttributeError otherwise. *)
Theorem parseSymbolTag_outcome :
  forall tag : node,
    (forall symbol company exchange,
        parseSymbolTag tag = Ok (symbol, company, exchange) <->
        exists d a seg d',
          find is_ticker_area tag = Some d /\ symbol = text d /\
          find (is_tag "a") tag = Some a /\
          third_field (get_default a "href" []) seg /\ trimmed seg exchange /\
          find is_title_area tag = Some d' /\ company = text d') /\
    (parseSymbolTag tag = Raise IndexError <->
       exists d a,
         find is_ticker_area tag = Some d /\ find (is_tag "a") tag = Some a /\
         (slashes (get_default a "href" []) < 2)%nat) /\
    (forall e, parseSymbolTag tag = Raise e -> e = AttributeError \/ e = IndexError).
Proof.
  intros tag. unfold parseSymbolTag, is_ticker_area, is_title_area.
  destruct (find (fun t => is_tag "div" t && has_class (py "ticker-area") t) tag) as [d |];
    cbn [attr_of bind].
  2:{ repeat split; try discriminate.
      - intros (? & ? & ? & ? & H & _). discriminate H.
      - intros (? & ? & H & _). discriminate H.
      - intros e [= <-]. now left. }
  destruct (find (is_tag "a") tag) as [a |]; cbn [attr_of bind].
  2:{ repeat split; try discriminate.
      - intros (? & ? & ? & ? & _ & _ & H & _). discriminate H.
      - intros (? & ? & _ & H & _). discriminate H.
      - intros e [= <-]. now left. }
  unfold index. change 47%N with SLASH.
  destruct (nth_error (split SLASH (get_default a "href" [])) 2) as [seg |] eqn:E;
    cbn [bind].
  2:{ apply split_short in E. repeat split; try discriminate.
      - intros (? & a' & seg & ? & _ & _ & [= <-] & H & _).
        apply split_third in H. apply split_short in E. congruence.
      - intros _. now exists d, a.
      - intros e [= <-]. now right. }
  assert (Hshort : ~ (slashes (get_default a "href" []) < 2)%nat).
  { intros H. apply split_short in H. congruence. }
  pose proof (proj1 (split_third _ _) E) as Hthird.
  destruct (find (fun t => is_tag "div" t && has_class (py "title-area") t) tag) as [d' |];
    cbn [attr_of bind].
  - repeat split; try discriminate.
    + intros [= <- <- <-]. exists d, a, seg, d'. repeat split; trivial.
      apply trimmed_strip.
    + intros (d0 & a0 & seg0 & d0' & [= <-] & -> & [= <-] & H3 & Ht & [= <-] & ->).
      apply split_third in H3. rewrite E in H3. injection H3 as <-.
      now rewrite (strip_of_trimmed _ _ Ht).
    + intros (? & a0 & _ & [= <-] & H). tauto.
  - repeat split; try discriminate.
    + intros (? & ? & ? & ? & _ & _ & _ & _ & _ & H & _). discriminate H.
    + intros (? & a0 & _ & [= <-] & H). tauto.
    + intros e [= <-]. now left.
Qed.

Lemma parseSymbolTag_outcome_witness :
  parseSymbolTag
    (el "td" [] [el "a" [("href", "/stocks/ NYSE /IBM/")]
                   [el "div" [("class", "ticker-area")] [txt "IBM"];
                    el "div" [("class", "title-area")] [txt "International Business Machines"]]])
  = Ok (py "IBM", py "International Business Machines", py "NYSE") /\
  parseSymbolTag
    (el "td" [] [el "a" [("href", "IBM")] [el "div" [("class", "ticker-area")] [txt "IBM"]]])
  = Raise IndexError.
Proof.
  split.
  - apply (proj1 (parseSymbolTag_outcome _)).
    eexists _, _, (py " NYSE "), _. repeat split; try reflexivity.
    + exists [], (py "stocks"), (py "/IBM/"). repeat split; try reflexivity.
      * easy.
      * cbn. intuition discriminate.
      * cbn. intuition discriminate.
      * right. now exists (py "IBM/").
    + exists (py " "), (py " "). repeat split; try reflexivity.
      * repeat constructor.
      * repeat constructor.
      * now intros x t [= <- _].
      * intros x t E. apply (f_equal (fun l => last l 0%N)) in E.
        rewrite last_last in E. now subst x.
  - apply (proj1 (proj2 (parseSymbolTag_outcome _))).
    eexists _, _. repeat split; try reflexivity. cbn. lia.
Defined.

(** ** The brokerage cell *)

Lemma starts_with_spec p s : starts_with p s = true <-> exists r, s = p ++ r.
Proof.
  revert s. induction p as [| x p IH]; intros s; cbn.
  - split; [intros _; now exists s | reflexivity].
  - destruct s as [| y s].
    + split; [discriminate | intros [r H]; discriminate H].
    + rewrite andb_true_iff, N.eqb_eq, IH. split.
      * intros [-> [r ->]]. now exists r.
      * intros [r [= -> ->]]. split; [reflexivity | now exists r].
Qed.

Lemma starts_with_app p r : starts_with p (p ++ r) = true.
Proof. apply starts_with_spec. now exists r. Qed.

Lemma starts_with_prefix p u v :
  (List.length p <= List.length u)%nat -> starts_with p (u ++ v) = starts_with p u.
Proof.
  revert u. induction p as [| x p IH]; intros [| y u] H; cbn in *; try reflexivity; [lia |].
  rewrite IH by lia. reflexivity.
Qed.

Lemma skipn_exact {A} (p r : list A) : skipn (List.length p) (p ++ r) = r.
Proof. induction p as [| x p IH]; [reflexivity | exact IH]. Qed.

Lemma takewhile_forallb {A} (p : A -> bool) s : forallb p (takewhile p s) = true.
Proof.
  induction s as [| c s IH]; cbn; [reflexivity |].
  destruct (p c) eqn:E; cbn; [now rewrite E | reflexivity].
Qed.

Lemma takewhile_dropwhile {A} (p : A -> bool) s : s = takewhile p s ++ dropwhile p s.
Proof.
  induction s as [| c s IH]; cbn; [reflexivity |].
  destruct (p c); cbn; [now f_equal | reflexivity].
Qed.

Lemma takewhile_run {A} (p : A -> bool) g rest :
  forallb p g = true ->
  match rest with [] => True | c :: _ => p c = false end ->
  takewhile p (g ++ rest) = g.
Proof.
  intros Hg Hr. induction g as [| c g IH]; cbn in *.
  - destruct rest as [| c r]; [reflexivity |]. cbn. now rewrite Hr.
  - apply andb_true_iff in Hg as [Hc Hg]. rewrite Hc. f_equal. now apply IH.
Qed.

Lemma group_after_spec prefix p href g :
  (if starts_with prefix href
   then match takewhile p (skipn (List.length prefix) href) with
        | [] => None
        | g => Some g
        end
   else None) = Some g
  <-> group_after prefix p href g.
Proof.
  split.
  - destruct (starts_with prefix href) eqn:E; [| discriminate].
    apply starts_with_spec in E as [r ->]. rewrite skipn_exact.
    intros H. exists (dropwhile p r).
    assert (Hg : takewhile p r = g) by (destruct (takewhile p r); congruence).
    subst g. repeat split.
    + f_equal. apply takewhile_dropwhile.
    + intros E. now rewrite E in H.
    + apply takewhile_forallb.
    + destruct (dropwhile p r) as [| c t] eqn:Ed; [exact I |].
      exact (dropwhile_head _ _ _ _ Ed).
  - intros (rest & -> & Hne & Hg & Hr).
    rewrite starts_with_app, skipn_exact, (takewhile_run _ _ _ Hg Hr).
    now destruct g.
Qed.

Lemma replace_from_skip old new x b :
  replace_from old new (List.length x) (x ++ b) = replace_from old new O b.
Proof. induction x as [| c x IH]; [reflexivity | exact IH]. Qed.

(** Nothing is replaced in a text that does not hold [old]. *)
Lemma replace_absent old new s : contains old s = false -> replace old new s = s.
Proof.
  unfold replace. induction s as [| c s IH]; [reflexivity |].
  cbn [contains]. intros H. apply orb_false_iff in H as [H1 H2].
  cbn [replace_from]. rewrite H1, IH by exact H2. reflexivity.
Qed.

(** An occurrence of [old] at the end, and no other, is replaced. *)
Lemma replace_at_end old new a :
  old <> [] -> contains old (a ++ removelast old) = false ->
  replace old new (a ++ old) = a ++ new.
Proof.
  intros Hne. unfold replace. induction a as [| x a IH]; intros H.
  - destruct old as [| c old']; [easy |]. cbn [app replace_from].
    pose proof (starts_with_app (c :: old') []) as Hs. rewrite app_nil_r in Hs.
    rewrite Hs. cbn [List.length Nat.pred].
    pose proof (replace_from_skip (c :: old') new old' []) as Hsk.
    rewrite app_nil_r in Hsk. rewrite Hsk. cbn [replace_from].
    now rewrite app_nil_r.
  - cbn [app contains] in H. apply orb_false_iff in H as [H1 H2].
    cbn [app replace_from].
    assert (Hs : starts_with old (x :: a ++ old) = false).
    { rewrite (app_removelast_last 0%N Hne) at 2.
      rewrite app_assoc, app_comm_cons.
      rewrite starts_with_prefix; [exact H1 |].
      cbn [List.length]. rewrite length_app.
      destruct old as [| c old']; [easy |].
      rewrite (app_removelast_last 0%N Hne) at 1.
      rewrite length_app. cbn. lia. }
    rewrite Hs, IH by exact H2. reflexivity.
Qed.

Lemma replace_from_In old k s c :
  In c (replace_from old [] k s) -> In c s.
Proof.
  revert k. induction s as [| x s IH]; intros k; cbn; [easy |].
  destruct k as [| k].
  - destruct (starts_with old (x :: s)); cbn; [eauto | intros [-> | H]; eauto].
  - eauto.
Qed.

Lemma replace_forallb (p : char -> bool) old s :
  forallb p s = true -> forallb p (replace old [] s) = true.
Proof.
  rewrite !forallb_forall. intros H c Hc. apply H.
  exact (replace_from_In _ _ _ _ Hc).
Qed.

Section BrokerageFacts.
Context {R : PyRuntime}.

Lemma by_issuer_match_spec href g :
  by_issuer_match href = Some g <-> group_after ISSUER_PREFIX is_slug_char href g.
Proof. exact (group_after_spec ISSUER_PREFIX is_slug_char href g). Qed.

Lemma stocks_match_spec href g :
  stocks_match href = Some g <-> group_after (py "/stocks/") is_word href g.
Proof. exact (group_after_spec (py "/stocks/") is_word href g). Qed.

Lemma parseBrokerageTag_ok tag brokerage code :
  parseBrokerageTag tag = Ok (brokerage, code) <->
  exists a href g,
    find (is_tag "a") tag = Some a /\ brokerage = text a /\
    get a "href" = Some href /\
    group_after ISSUER_PREFIX is_slug_char href g /\
    code = replace SUFFIX [] g.
Proof.
  unfold parseBrokerageTag.
  destruct (find (is_tag "a") tag) as [a |]; cbn [attr_of bind].
  2:{ split; [discriminate | intros (? & ? & ? & H & _); discriminate H]. }
  destruct (get a "href") as [href |] eqn:Eh; cbn [bind].
  2:{ split; [discriminate |].
      intros (a0 & ? & ? & [= <-] & _ & H & _). congruence. }
  destruct (by_issuer_match href) as [g |] eqn:E; cbn [attr_of bind].
  - apply by_issuer_match_spec in E. split.
    + intros [= <- <-]. now exists a, href, g.
    + intros (a0 & href0 & g0 & [= <-] & -> & Hh & Hg & ->).
      assert (href0 = href) as -> by congruence.
      apply by_issuer_match_spec in E, Hg.
      assert (g0 = g) as -> by congruence. reflexivity.
  - split; [discriminate |].
    intros (a0 & href0 & g0 & [= <-] & _ & Hh & Hg & _).
    assert (href0 = href) as -> by congruence.
    apply by_issuer_match_spec in Hg. congruence.
Qed.

End BrokerageFacts.

(** X8: the brokerage cell (lines 92-95). The parser returns the text of
    the first anchor and the code read off its href: the longest run of word
    characters and hyphens after /ratings/by-issuer/, which is not empty,
    with every -stock-recommendations removed. The code holds word characters
    and hyphens only. A TypeError is raised exactly when the first anchor has
    no href, and nothing but an AttributeError otherwise. *)
Theorem parseBrokerageTag_outcome {R : PyRuntime} :
  forall tag : node,
    (forall brokerage code,
        parseBrokerageTag tag = Ok (brokerage, code) <->
        exists a href g,
          find (is_tag "a") tag = Some a /\ brokerage = text a /\
          get a "href" = Some href /\
          group_after ISSUER_PREFIX is_slug_char href g /\
          code = replace SUFFIX [] g) /\
    (forall brokerage code,
        parseBrokerageTag tag = Ok (brokerage, code) ->
        forallb is_slug_char code = true) /\
    (parseBrokerageTag tag = Raise TypeError <->
       exists a, find (is_tag "a") tag = Some a /\ get a "href" = None) /\
    (forall e, parseBrokerageTag tag = Raise e -> e = AttributeError \/ e = TypeError).
Proof.
  intros tag. split; [intros brokerage code; apply parseBrokerageTag_ok |]. split.
  { intros brokerage code H. apply parseBrokerageTag_ok in H
      as (a & href & g & _ & _ & _ & (rest & _ & _ & Hg & _) & ->).
    now apply replace_forallb. }
  unfold parseBrokerageTag.
  destruct (find (is_tag "a") tag) as [a |]; cbn [attr_of bind].
  2:{ repeat split; try discriminate.
      - intros (? & H & _). discriminate H.
      - intros e [= <-]. now left. }
  destruct (get a "href") as [href |] eqn:Eh; cbn [bind].
  2:{ repeat split; try discriminate.
      - intros _. now exists a.
      - intros e [= <-]. now right. }
  destruct (by_issuer_match href) as [g |]; cbn [attr_of bind].
  - repeat split; try discriminate.
    intros (? & [= <-] & H). congruence.
  - repeat split; try discriminate.
    + intros (? & [= <-] & H). congruence.
    + intros e [= <-]. now left.
Qed.

Lemma parseBrokerageTag_outcome_witness :
  parseBrokerageTag (R := sample_runtime) (brokerage_cell "Morgan Stanley" "34")
  = Ok (py "Morgan Stanley", py "34") /\
  parseBrokerageTag (R := sample_runtime)
    (el "td" [] [el "a" [("name", "ms")] [txt "Morgan Stanley"]]) = Raise TypeError.
Proof.
  split.
  - apply (proj1 (parseBrokerageTag_outcome (R := sample_runtime) _)).
    eexists _, _, (py "34"). repeat split; try reflexivity.
    exists (py "/"). now repeat split.
  - apply (proj1 (proj2 (proj2 (parseBrokerageTag_outcome (R := sample_runtime) _)))).
    eexists. split; reflexivity.
Defined.

(** X9: the brokerage code (line 93). A group that does not hold
    -stock-recommendations is the code as it stands (a numeric code); a group
    that ends with it, and holds it nowhere else, gives the text before
    it. *)
Theorem brokerage_code_value {R : PyRuntime} :
  forall (tag a : node) (href g : pystr),
    find (is_tag "a") tag = Some a ->
    get a "href" = Some href ->
    group_after ISSUER_PREFIX is_slug_char href g ->
    (contains SUFFIX g = false -> parseBrokerageTag tag = Ok (text a, g)) /\
    (forall slug,
        g = slug ++ SUFFIX ->
        contains SUFFIX (slug ++ removelast SUFFIX) = false ->
        parseBrokerageTag tag = Ok (text a, slug)).
Proof.
  intros tag a href g Ha Hh Hg.
  split.
  - intros Hno. apply parseBrokerageTag_ok. exists a, href, g. repeat split; trivial.
    symmetry. now apply replace_absent.
  - intros slug -> Hno. apply parseBrokerageTag_ok. exists a, href, (slug ++ SUFFIX). repeat split; trivial.
    rewrite replace_at_end; [now rewrite app_nil_r | discriminate | exact Hno].
Qed.

Lemma brokerage_code_value_witness :
  parseBrokerageTag (R := sample_runtime)
    (brokerage_cell "Morgan Stanley" "morgan-stanley-stock-recommendations")
  = Ok (py "Morgan Stanley", py "morgan-stanley") /\
  parseBrokerageTag (R := sample_runtime) (brokerage_cell "Morgan Stanley" "34")
  = Ok (py "Morgan Stanley", py "34").
Proof.
  split.
  - refine (proj2 (brokerage_code_value (R := sample_runtime)
                     (brokerage_cell "Morgan Stanley" "morgan-stanley-stock-recommendations")
                     _ _ (py "morgan-stanley-stock-recommendations") eq_refl eq_refl _)
              (py "morgan-stanley") eq_refl eq_refl).
    exists (py "/"). now repeat split.
  - refine (proj1 (brokerage_code_value (R := sample_runtime)
                     (brokerage_cell "Morgan Stanley" "34")
                     _ _ (py "34") eq_refl eq_refl _) eq_refl).
    exists (py "/"). now repeat split.
Defined.

(** ** Rows, the analyst cell and the price cell *)

Section RowFacts.
Context {R : PyRuntime}.

Lemma processRow_daily_price date row cell e :
  nth_error row 5 = Some cell -> parsePriceTargetTag cell = Raise e ->
  exists e', processRow_daily date row = Raise e'.
Proof.
  intros H5 He. unfold processRow_daily, bind, index. rewrite H5.
  raise_through He.
Qed.

Lemma processRow_symbol_price symbol exchange row cell e :
  nth_error row 5 = Some cell -> parsePriceTargetTag cell = Raise e ->
  exists e', processRow_symbol symbol exchange row = Raise e'.
Proof.
  intros H5 He. unfold processRow_symbol, bind, index. rewrite H5.
  raise_through He.
Qed.

Lemma index_short {A} (row : list A) n i :
  List.length row = n -> (n <= i)%nat -> index row i = Raise IndexError.
Proof.
  intros Hl Hi. unfold index.
  now rewrite (proj2 (nth_error_None row i)) by lia.
Qed.

Lemma processRow_daily_short date row :
  (List.length row < 7)%nat -> exists e, processRow_daily date row = Raise e.
Proof.
  intros H. assert (H6 : nth_error row 6 = None) by (apply nth_error_None; lia).
  unfold processRow_daily, bind, index. rewrite H6.
  repeat match goal with
         | |- exists _, match ?x with _ => _ end = Raise _ =>
             destruct x; cbn beta iota
         end; eexists; reflexivity.
Qed.

Lemma processRow_symbol_short symbol exchange row :
  (List.length row < 6)%nat -> exists e, processRow_symbol symbol exchange row = Raise e.
Proof.
  intros H. assert (H5 : nth_error row 5 = None) by (apply nth_error_None; lia).
  unfold processRow_symbol, bind, index. rewrite H5.
  repeat match goal with
         | |- exists _, match ?x with _ => _ end = Raise _ =>
             destruct x; cbn beta iota
         end; eexists; reflexivity.
Qed.

End RowFacts.

(** X12: the rows are read by position (lines 145-160 and 207-222). A row
    of fewer than seven cells leaves no record in the daily workflow, one of
    fewer than six none in the symbol workflow; the daily workflow never
    reads cell 4, and neither workflow reads a cell after the last one it
    needs. *)
Theorem rows_read_by_position {R : PyRuntime} :
  forall (before : list (list node)) (row : list node) (after : list (list node)),
    (forall date,
        (List.length row < 7)%nat ->
        process_rows (processRow_daily date) (before ++ row :: after)
        = process_rows (processRow_daily date) (before ++ after)) /\
    (forall symbol exchange,
        (List.length row < 6)%nat ->
        process_rows (processRow_symbol symbol exchange) (before ++ row :: after)
        = process_rows (processRow_symbol symbol exchange) (before ++ after)) /\
    (forall date c0 c1 c2 c3 c4 c5 c6 rest c4' rest',
        row = c0 :: c1 :: c2 :: c3 :: c4 :: c5 :: c6 :: rest ->
        processRow_daily date row
        = processRow_daily date (c0 :: c1 :: c2 :: c3 :: c4' :: c5 :: c6 :: rest')) /\
    (forall symbol exchange c0 c1 c2 c3 c4 c5 rest rest',
        row = c0 :: c1 :: c2 :: c3 :: c4 :: c5 :: rest ->
        processRow_symbol symbol exchange row
        = processRow_symbol symbol exchange (c0 :: c1 :: c2 :: c3 :: c4 :: c5 :: rest')).
Proof.
  intros before row after. repeat split.
  - intros date H. rewrite !process_rows_survivors.
    destruct (processRow_daily_short date row H) as [e He].
    exact (survivors_drop _ _ _ _ _ He).
  - intros symbol exchange H. rewrite !process_rows_survivors.
    destruct (processRow_symbol_short symbol exchange row H) as [e He].
    exact (survivors_drop _ _ _ _ _ He).
  - now intros date c0 c1 c2 c3 c4 c5 c6 rest c4' rest' ->.
  - now intros symbol exchange c0 c1 c2 c3 c4 c5 rest rest' ->.
Qed.

Lemma rows_read_by_position_witness :
  process_rows (processRow_daily (R := sample_runtime) (py "2026-11-03"))
    ([cells (daily_row "AAPL" (rating_cell "3"))]
       ++ removelast (cells (daily_row "IBM" (rating_cell "3")))
       :: [cells (daily_row "MSFT" (rating_cell "4"))])
  = process_rows (processRow_daily (R := sample_runtime) (py "2026-11-03"))
      ([cells (daily_row "AAPL" (rating_cell "3"))]
         ++ [cells (daily_row "MSFT" (rating_cell "4"))]) /\
  List.length (process_rows (processRow_daily (R := sample_runtime) (py "2026-11-03"))
                 ([cells (daily_row "AAPL" (rating_cell "3"))]
                    ++ [cells (daily_row "MSFT" (rating_cell "4"))])) = 2%nat.
Proof.
  split; [| vm_compute; reflexivity].
  apply (proj1 (rows_read_by_position (R := sample_runtime) _ _ _)).
  vm_compute. lia.
Defined.

Section AnalystFacts.
Context {R : PyRuntime}.

Lemma processRow_daily_analyst date c0 c1 c2 c3 c4 c5 c6 rest d cell :
  processRow_daily date (c0 :: c1 :: c2 :: c3 :: c4 :: c5 :: c6 :: rest) = Ok d ->
  exists d',
    processRow_daily date (c0 :: c1 :: c2 :: cell :: c4 :: c5 :: c6 :: rest) = Ok d' /\
    lookup "analyst" d' = Some (opt_str (parseAnalystTag cell)) /\
    without "analyst" d' = without "analyst" d.
Proof.
  unfold processRow_daily, bind, index. cbn [nth_error]. intros H.
  repeat bind_step H. injection H as <-.
  eexists. split; [reflexivity |]. split; reflexivity.
Qed.

Lemma processRow_symbol_analyst symbol exchange c0 c1 c2 c3 c4 c5 rest d cell :
  processRow_symbol symbol exchange (c0 :: c1 :: c2 :: c3 :: c4 :: c5 :: rest) = Ok d ->
  exists d',
    processRow_symbol symbol exchange (c0 :: c1 :: cell :: c3 :: c4 :: c5 :: rest) = Ok d' /\
    lookup "analyst" d' = Some (opt_str (parseAnalystTag cell)) /\
    without "analyst" d' = without "analyst" d.
Proof.
  unfold processRow_symbol, bind, index. cbn [nth_error]. intros H.
  repeat bind_step H. injection H as <-.
  eexists. split; [reflexivity |]. split; reflexivity.
Qed.

End AnalystFacts.

(** X10: the analyst cell (lines 104-106) never costs a row. The analyst is
    None exactly when the cell holds no anchor, and the trimmed text of the
    first anchor otherwise; a row that gives a record gives one with any
    other analyst cell in its place, the same but for the analyst. *)
Theorem analyst_cell_never_drops {R : PyRuntime} :
  forall cell : node,
    (parseAnalystTag cell = None <-> find (is_tag "a") cell = None) /\
    (forall s,
        parseAnalystTag cell = Some s ->
        exists a, find (is_tag "a") cell = Some a /\ trimmed (text a) s) /\
    (forall date c0 c1 c2 c3 c4 c5 c6 rest d,
        processRow_daily date (c0 :: c1 :: c2 :: c3 :: c4 :: c5 :: c6 :: rest) = Ok d ->
        exists d',
          processRow_daily date (c0 :: c1 :: c2 :: cell :: c4 :: c5 :: c6 :: rest) = Ok d' /\
          lookup "analyst" d' = Some (opt_str (parseAnalystTag cell)) /\
          without "analyst" d' = without "analyst" d) /\
    (forall symbol exchange c0 c1 c2 c3 c4 c5 rest d,
        processRow_symbol symbol exchange (c0 :: c1 :: c2 :: c3 :: c4 :: c5 :: rest) = Ok d ->
        exists d',
          processRow_symbol symbol exchange (c0 :: c1 :: cell :: c3 :: c4 :: c5 :: rest) = Ok d' /\
          lookup "analyst" d' = Some (opt_str (parseAnalystTag cell)) /\
          without "analyst" d' = without "analyst" d).
Proof.
  intros cell. split; [| split; [| split]].
  - unfold parseAnalystTag. destruct (find (is_tag "a") cell); split; congruence.
  - unfold parseAnalystTag. destruct (find (is_tag "a") cell) as [a |]; [| discriminate].
    intros s [= <-]. exists a. split; [reflexivity |].
    destruct (strip_trimmed (text a)) as (l & r & E & Hl & Hr & H1 & H2).
    exists l, r. now repeat split.
  - intros. now apply processRow_daily_analyst with (c3 := c3).
  - intros. now apply processRow_symbol_analyst with (c2 := c2).
Qed.

Lemma analyst_cell_never_drops_witness :
  exists d',
    processRow_daily (R := sample_runtime) (py "2026-11-03")
      [symbol_cell "AAPL" "Company"; el "td" [] [txt " Upgraded by "];
       brokerage_cell "Morgan Stanley" "34"; el "td" [] [txt "J. Doe"];
       el "td" [] [txt "$11.00"]; price_cell; rating_cell "3"] = Ok d' /\
    lookup "analyst" d' = Some VNone.
Proof.
  destruct (proj1 (proj2 (proj2 (analyst_cell_never_drops (R := sample_runtime)
                                   (el "td" [] [txt "J. Doe"]))))
              (py "2026-11-03") (symbol_cell "AAPL" "Company")
              (el "td" [] [txt " Upgraded by "]) (brokerage_cell "Morgan Stanley" "34")
              (analyst_cell " J. Doe ") (el "td" [] [txt "$11.00"]) price_cell
              (rating_cell "3") [] _ eq_refl) as (d' & H1 & H2 & _).
  exists d'. split; [exact H1 | exact H2].
Defined.

Section PriceFacts.
Context {R : PyRuntime}.

Lemma special_shape neg u f : special neg u = Some f -> f = NaN \/ f = Inf neg.
Proof.
  unfold special. destruct (str_eqb _ _ || str_eqb _ _).
  - intros [= <-]. now right.
  - destruct (str_eqb _ _); [intros [= <-]; now left | discriminate].
Qed.

Lemma special_ascii u : special_text u -> Forall (fun c => (c < 127)%N) u.
Proof.
  intros H. apply Forall_forall. intros c Hc.
  assert (Hin : In (lower c) (map lower u)) by now apply in_map.
  unfold special_text in H. cbn in H.
  assert (Hl : (lower c <= 122)%N).
  { destruct H as [H | [H | [H | []]]]; rewrite <- H in Hin; cbn in Hin;
      repeat (destruct Hin as [<- | Hin]; [lia |]); destruct Hin. }
  unfold lower, in_range in Hl.
  destruct (N.leb_spec 65 c), (N.leb_spec c 90); cbn in Hl; lia.
Qed.

Lemma special_head u :
  special_text u -> match u with [] => True | c :: _ => c <> 43%N /\ c <> 45%N end.
Proof.
  intros Hs. destruct u as [| c r]; [exact I |]. unfold special_text in Hs. cbn in Hs.
  unfold lower, in_range in Hs.
  destruct (N.eqb_spec c 43) as [-> | ?]; [cbn in Hs; intuition discriminate |].
  destruct (N.eqb_spec c 45) as [-> | ?]; [cbn in Hs; intuition discriminate |].
  now split.
Qed.

Lemma float_of_special sg neg w :
  sign_text sg neg -> special_text w ->
  exists f, float_of_str (sg ++ w) = Ok f /\ (f = NaN \/ f = Inf neg).
Proof.
  intros Hsg Hw. unfold float_of_str.
  rewrite to_ascii_id.
  2:{ apply Forall_app. split; [| now apply special_ascii].
      destruct Hsg; repeat constructor. }
  pose proof (strip_c_solid [] (sg ++ w) []) as Hs. cbn [app] in Hs.
  rewrite app_nil_r in Hs. rewrite Hs; [| constructor | constructor |].
  2:{ apply solid_app; [exact (sign_text_solid _ _ Hsg) | now apply special_solid]. }
  rewrite (sign_of_text sg neg w Hsg (special_head w Hw)).
  destruct (special_complete neg w Hw) as [f Hf]. rewrite Hf.
  exists f. split; [reflexivity | exact (special_shape _ _ _ Hf)].
Qed.

End PriceFacts.

(** X13: a row without a price target is dropped. When the text after the
    last arrow of the price cell holds blanks, dollar signs and commas only
    (an empty cell is one), the parser raises a ValueError, and the row
    leaves no record in either workflow. *)
Theorem blank_price_drops_row {R : PyRuntime} :
  forall (cell : node) (seg : pystr),
    final_segment (text cell) seg ->
    spaces (unpriced seg) ->
    parsePriceTargetTag cell = Raise ValueError /\
    (forall date before row after,
        nth_error row 5 = Some cell ->
        process_rows (processRow_daily date) (before ++ row :: after)
        = process_rows (processRow_daily date) (before ++ after)) /\
    (forall symbol exchange before row after,
        nth_error row 5 = Some cell ->
        process_rows (processRow_symbol symbol exchange) (before ++ row :: after)
        = process_rows (processRow_symbol symbol exchange) (before ++ after)).
Proof.
  intros cell seg Hseg Hblank.
  assert (He : parsePriceTargetTag cell = Raise ValueError).
  { unfold parsePriceTargetTag.
    rewrite (final_segment_last _ _ Hseg), replace_price, (strip_spaces _ Hblank).
    reflexivity. }
  split; [exact He |]. split.
  - intros date before row after H5. rewrite !process_rows_survivors.
    destruct (processRow_daily_price date row _ _ H5 He) as [e' He'].
    exact (survivors_drop _ _ _ _ _ He').
  - intros symbol exchange before row after H5. rewrite !process_rows_survivors.
    destruct (processRow_symbol_price symbol exchange row _ _ H5 He) as [e' He'].
    exact (survivors_drop _ _ _ _ _ He').
Qed.

Lemma blank_price_drops_row_witness :
  parsePriceTargetTag (R := sample_runtime) (Tag "td" [] [arrow_text "$10.00 " " "])
  = Raise ValueError /\
  parsePriceTargetTag (R := sample_runtime) (Tag "td" [] []) = Raise ValueError.
Proof.
  split.
  - refine (proj1 (blank_price_drops_row (R := sample_runtime)
                     (Tag "td" [] [arrow_text "$10.00 " " "]) (py " ") _ _)).
    + split; [cbn; intuition discriminate | right; now exists (py "$10.00 ")].
    + repeat constructor.
  - refine (proj1 (blank_price_drops_row (R := sample_runtime) (Tag "td" [] []) [] _ _)).
    + split; [easy | now left].
    + constructor.
Defined.

(** X14: a price target need not be finite: nan, inf and infinity, in any
    case and with a sign, give the float NaN or an infinity, not an
    exception. *)
Theorem nonfinite_price_accepted {R : PyRuntime} :
  forall (cell : node) (seg sg w : pystr) (neg : bool),
    final_segment (text cell) seg ->
    strip (unpriced seg) = sg ++ w ->
    sign_text sg neg -> special_text w ->
    exists f,
      parsePriceTargetTag cell = Ok f /\ (f = NaN \/ f = Inf neg) /\
      float_value f = None.
Proof.
  intros cell seg sg w neg Hseg E Hsg Hw. unfold parsePriceTargetTag.
  rewrite (final_segment_last _ _ Hseg), replace_price, E.
  destruct (float_of_special sg neg w Hsg Hw) as (f & Hf & Hshape).
  exists f. split; [exact Hf |]. split; [exact Hshape |].
  now destruct Hshape as [-> | ->].
Qed.

Lemma nonfinite_price_accepted_witness :
  parsePriceTargetTag (R := sample_runtime) (Tag "td" [] [arrow_text "$10.00 " " NaN"])
  = Ok NaN /\
  parsePriceTargetTag (R := sample_runtime) (Tag "td" [] [txt "-$Infinity"])
  = Ok (Inf true).
Proof.
  split.
  - destruct (nonfinite_price_accepted (R := sample_runtime)
                (Tag "td" [] [arrow_text "$10.00 " " NaN"]) (py " NaN") [] (py "NaN") false)
      as (f & Hf & _ & _).
    + split; [cbn; intuition discriminate | right; now exists (py "$10.00 ")].
    + reflexivity.
    + constructor.
    + right. right. now left.
    + rewrite Hf. vm_compute in Hf. symmetry. exact Hf.
  - destruct (nonfinite_price_accepted (R := sample_runtime)
                (Tag "td" [] [txt "-$Infinity"]) (py "-$Infinity") (py "-") (py "Infinity") true)
      as (f & Hf & _ & _).
    + split; [cbn; intuition discriminate | now left].
    + reflexivity.
    + constructor.
    + right. now left.
    + rewrite Hf. vm_compute in Hf. symmetry. exact Hf.
Defined.

(** ** The date cell *)

Lemma upto_In n : forall z y, In y (upto n z) <-> (z <= y < z + Z.of_nat n)%Z.
Proof.
  induction n as [| n IH]; intros z y.
  - cbn. lia.
  - cbn [upto In]. rewrite IH. lia.
Qed.

Section DateFacts.
Context {R : PyRuntime}.

Lemma decimal_of_digit c : is_ascii_digit c = true -> is_decimal c = true.
Proof.
  intros H. unfold is_decimal, decimal_value. rewrite H.
  apply digit_bounds in H. now rewrite (proj2 (N.ltb_lt c 128)) by lia.
Qed.

Lemma int_of_digits ds :
  ds <> [] -> digits_only ds -> int_of_str ds = Ok (Z.of_N (N_of_digits ds)).
Proof.
  intros Hne Hd. apply int_of_str_complete.
  exists [], [], ds, ds, [], false. rewrite to_ascii_id by now apply digits_ascii.
  rewrite app_nil_r. repeat split; try constructor. now apply digits_run.
Qed.

Lemma year_text y :
  (1000 <= y <= 9999)%Z ->
  exists a b c d,
    str_of_Z y = [a; b; c; d] /\ digits_only [a; b; c; d] /\
    int_of_str [a; b; c; d] = Ok y.
Proof.
  intros Hy.
  assert (H : forallb (fun y =>
                match str_of_Z y with
                | [a; b; c; d] =>
                    is_ascii_digit a && is_ascii_digit b && is_ascii_digit c
                    && is_ascii_digit d && (Z.of_N (N_of_digits [a; b; c; d]) =? y)%Z
                | _ => false
                end) (upto (Z.to_nat 9000) 1000) = true)
    by (vm_compute; reflexivity).
  rewrite forallb_forall in H. specialize (H y).
  assert (Hin : In y (upto (Z.to_nat 9000) 1000)) by (apply upto_In; lia).
  specialize (H Hin).
  destruct (str_of_Z y) as [| a [| b [| c [| d [| ? ?]]]]]; try discriminate.
  rewrite !andb_true_iff in H. destruct H as ((((Ha & Hb) & Hc) & Hd) & Hz).
  apply Z.eqb_eq in Hz.
  assert (Hds : digits_only [a; b; c; d]) by now repeat constructor.
  exists a, b, c, d. repeat split; trivial.
  rewrite int_of_digits by easy. now f_equal.
Qed.

Lemma pct_Y_digits a b c d rest :
  digits_only [a; b; c; d] -> pct_Y (a :: b :: c :: d :: rest) = [([a; b; c; d], rest)].
Proof.
  intros H. unfold digits_only in H. rewrite Forall_forall in H.
  unfold pct_Y, digit4, then_, digit, one. cbn [flat_map map app fst snd].
  rewrite !decimal_of_digit by (apply H; cbn; tauto).
  cbn [flat_map map app fst snd]. rewrite !decimal_of_digit by (apply H; cbn; tauto).
  cbn [flat_map map app fst snd]. rewrite !decimal_of_digit by (apply H; cbn; tauto).
  cbn [flat_map map app fst snd]. rewrite !decimal_of_digit by (apply H; cbn; tauto).
  reflexivity.
Qed.

(** The month at the head of a date. *)
Lemma month_match m ms rest :
  (1 <= m <= 12)%Z -> numeral m ms ->
  int_of_str ms = Ok m /\
  match_format (ms ++ SLASH :: rest)
  = hd_error
      (flat_map (fun d =>
         flat_map (fun s2 => map (fun y => (ms, fst d, fst y, snd y)) (pct_Y (snd s2)))
           (lit 47 (snd d)))
         (pct_d rest)).
Proof.
  intros Hm Hms.
  assert (Hin : In m (upto 12 1)) by (apply upto_In; lia).
  each_of Hin; destruct Hms as [-> | ->];
    (split; [vm_compute; reflexivity |]);
    unfold match_format; cbn -[pct_d pct_Y]; now rewrite ?app_nil_r.
Qed.

(** The day that follows. *)
Lemma day_match d ds (ms rest : pystr) :
  (1 <= d <= 31)%Z -> numeral d ds ->
  int_of_str ds = Ok d /\
  hd_error
    (flat_map (fun d =>
       flat_map (fun s2 => map (fun y => (ms, fst d, fst y, snd y)) (pct_Y (snd s2)))
         (lit 47 (snd d)))
       (pct_d (ds ++ SLASH :: rest)))
  = hd_error (map (fun y => (ms, ds, fst y, snd y)) (pct_Y rest)).
Proof.
  intros Hd Hds.
  assert (Hin : In d (upto 31 1)) by (apply upto_In; lia).
  each_of Hin; destruct Hds as [-> | ->];
    (split; [vm_compute; reflexivity |]);
    cbn -[pct_Y]; now rewrite ?app_nil_r.
Qed.

Lemma strptime_date y m d ms ds :
  (1000 <= y <= 9999)%Z -> (1 <= m <= 12)%Z -> (1 <= d <= 31)%Z ->
  numeral m ms -> numeral d ds ->
  strptime (date_text ms ds (str_of_Z y))
  = if valid_date y m d then Ok (mkdate y m d) else Raise ValueError.
Proof.
  intros Hy Hm Hd Hms Hds.
  destruct (year_text y Hy) as (a & b & c & e & Ey & Hdig & Hint).
  destruct (month_match m ms (ds ++ SLASH :: str_of_Z y) Hm Hms) as [Him Hmm].
  destruct (day_match d ds ms (str_of_Z y) Hd Hds) as [Hid Hdm].
  unfold strptime, date_text. rewrite Hmm, Hdm, Ey, (pct_Y_digits _ _ _ _ [] Hdig).
  cbn [map hd_error fst snd]. rewrite Him, Hid, Hint. reflexivity.
Qed.

Lemma strptime_valid s dt :
  strptime s = Ok dt -> exists y m d, dt = mkdate y m d /\ valid_date y m d = true.
Proof.
  unfold strptime. destruct (match_format s) as [[[[m d] y] [| ? ?]] |]; try discriminate.
  destruct (int_of_str m) as [zm |]; [| discriminate].
  destruct (int_of_str d) as [zd |]; [| discriminate].
  destruct (int_of_str y) as [zy |]; [| discriminate].
  cbn [bind]. destruct (valid_date zy zm zd) eqn:E; [| discriminate].
  intros [= <-]. now exists zy, zm, zd.
Qed.

Lemma strptime_error s e : strptime s = Raise e -> e = ValueError.
Proof.
  unfold strptime. destruct (match_format s) as [[[[m d] y] [| ? ?]] |];
    try (now intros [= <-]).
  destruct (int_of_str_outcome m) as [[zm ->] | ->]; [| now intros [= <-]].
  destruct (int_of_str_outcome d) as [[zd ->] | ->]; [| now intros [= <-]].
  destruct (int_of_str_outcome y) as [[zy ->] | ->]; [| now intros [= <-]].
  cbn [bind]. destruct (valid_date zy zm zd); [discriminate | now intros [= <-]].
Qed.

End DateFacts.

(** X11: the date cell (line 134). The parser raises nothing but a
    ValueError; whatever it returns is the rendering of a calendar date that
    exists; and a text m/d/yyyy, month and day written with or without a
    leading zero, year from 1000 to 9999, gives yyyy-mm-dd when the day
    exists and a ValueError when it does not (February 30). *)
Theorem parseDateTag_iso {R : PyRuntime} :
  forall tag : node,
    (forall e, parseDateTag tag = Raise e -> e = ValueError) /\
    (forall iso,
        parseDateTag tag = Ok iso ->
        exists y m d, valid_date y m d = true /\ iso = strftime (mkdate y m d)) /\
    (forall y m d ms ds,
        (1000 <= y <= 9999)%Z -> (1 <= m <= 12)%Z -> (1 <= d <= 31)%Z ->
        numeral m ms -> numeral d ds ->
        text tag = date_text ms ds (str_of_Z y) ->
        parseDateTag tag
        = if valid_date y m d then Ok (iso_text y m d) else Raise ValueError).
Proof.
  intros tag. unfold parseDateTag. split; [| split].
  - intros e. destruct (strptime (text tag)) as [dt |] eqn:E; [discriminate |].
    intros [= <-]. exact (strptime_error _ _ E).
  - intros iso. destruct (strptime (text tag)) as [dt |] eqn:E; [| discriminate].
    intros [= <-]. destruct (strptime_valid _ _ E) as (y & m & d & -> & Hv).
    now exists y, m, d.
  - intros y m d ms ds Hy Hm Hd Hms Hds ->.
    rewrite (strptime_date y m d ms ds Hy Hm Hd Hms Hds).
    destruct (valid_date y m d); [| reflexivity]. cbn [bind].
    unfold strftime, iso_text. cbn [year month day].
    now rewrite (@strftime_Y_four _ y Hy).
Qed.

Lemma parseDateTag_iso_witness :
  parseDateTag (R := sample_runtime) (el "td" [] [txt "9/1/2025"]) = Ok (py "2025-09-01") /\
  parseDateTag (R := sample_runtime) (el "td" [] [txt "02/29/2024"]) = Ok (py "2024-02-29") /\
  parseDateTag (R := sample_runtime) (el "td" [] [txt "2/29/2025"]) = Raise ValueError.
Proof.
  split; [| split].
  - apply (proj2 (proj2 (parseDateTag_iso (R := sample_runtime) (el "td" [] [txt "9/1/2025"])))
             2025%Z 9%Z 1%Z (py "9") (py "1")); try lia; try (now left); reflexivity.
  - apply (proj2 (proj2 (parseDateTag_iso (R := sample_runtime) (el "td" [] [txt "02/29/2024"])))
             2024%Z 2%Z 29%Z (py "02") (py "29")); try lia;
      try (now left); try (now right); reflexivity.
  - apply (proj2 (proj2 (parseDateTag_iso (R := sample_runtime) (el "td" [] [txt "2/29/2025"])))
             2025%Z 2%Z 29%Z (py "2") (py "29")); try lia; try (now left); reflexivity.
Defined.

(** ** The table and the document *)

(** Induction on the document tree. *)
Lemma node_induction (P : node -> Prop) :
  (forall s, P (NavigableString s)) ->
  (forall s, P (Comment s)) ->
  (forall n a cs, Forall P cs -> P (Tag n a cs)) ->
  forall t, P t.
Proof.
  intros Hs Hc Ht.
  exact (fix IH (t : node) : P t :=
           match t with
           | NavigableString s => Hs s
           | Comment s => Hc s
           | Tag n a cs =>
               Ht n a cs
                 ((fix go (cs : list node) : Forall P cs :=
                     match cs with
                     | [] => Forall_nil P
                     | c :: cs' => Forall_cons c (IH c) (go cs')
                     end) cs)
           end).
Qed.

Lemma decompose_all_Tag p n a cs :
  decompose_all p (Tag n a cs)
  = Tag n a (map (decompose_all p) (filter (fun c => negb (p c)) cs)).
Proof.
  cbn [decompose_all]. f_equal.
  induction cs as [| c cs IH]; [reflexivity |].
  cbn [filter]. destruct (p c); cbn [negb map]; now rewrite <- IH.
Qed.

Lemma is_junk_decompose p t : is_junk (decompose_all p t) = is_junk t.
Proof. destruct t; reflexivity. Qed.

Lemma filter_flat_map {A B} (p : B -> bool) (f : A -> list B) l :
  filter p (flat_map f l) = flat_map (fun x => filter p (f x)) l.
Proof.
  induction l as [| x l IH]; [reflexivity |]. cbn. now rewrite filter_app, IH.
Qed.

Lemma flat_map_nil {A B} (f : A -> list B) l :
  (forall x, In x l -> f x = []) -> flat_map f l = [].
Proof.
  induction l as [| x l IH]; intros H; [reflexivity |]. cbn.
  rewrite (H x) by now left. apply IH. intros y Hy. apply H. now right.
Qed.

(** After the removal no advertisement row is left. *)
Lemma decompose_all_clean t : find_all is_junk (decompose_all is_junk t) = [].
Proof.
  unfold find_all. induction t as [s | s | n a cs IH] using node_induction;
    [reflexivity | reflexivity |].
  rewrite decompose_all_Tag. cbn [descendants].
  rewrite filter_flat_map. apply flat_map_nil. intros c' Hc'.
  apply in_map_iff in Hc' as (c & <- & Hc). apply filter_In in Hc as [Hc Hp].
  cbn [filter]. rewrite is_junk_decompose. apply negb_true_iff in Hp. rewrite Hp.
  rewrite Forall_forall in IH. now apply IH.
Qed.

Lemma flat_map_eq_nil {A B} (f : A -> list B) l :
  flat_map f l = [] -> forall x, In x l -> f x = [].
Proof.
  induction l as [| y l IH]; cbn; [easy |]. intros H x [<- | Hx].
  - now apply app_eq_nil in H.
  - apply IH; [now apply app_eq_nil in H | exact Hx].
Qed.

(** Without an advertisement row the removal changes nothing. *)
Lemma decompose_all_none p t : find_all p t = [] -> decompose_all p t = t.
Proof.
  unfold find_all. induction t as [s | s | n a cs IH] using node_induction;
    [reflexivity | reflexivity |].
  cbn [descendants]. rewrite filter_flat_map. intros H.
  pose proof (flat_map_eq_nil _ _ H) as Hall. cbn [filter] in Hall.
  rewrite decompose_all_Tag. f_equal.
  rewrite Forall_forall in IH. clear H.
  induction cs as [| c cs IHcs]; [reflexivity |].
  assert (Hc := Hall c (or_introl eq_refl)).
  destruct (p c) eqn:Hp; [discriminate |].
  cbn [filter]. rewrite Hp. cbn [negb map]. f_equal.
  - apply IH; [now left | exact Hc].
  - apply IHcs.
    + intros x Hx. apply IH. now right.
    + intros x Hx. apply Hall. now right.
Qed.

Lemma descendants_trans t : forall x y,
  In x (descendants t) -> In y (descendants x) -> In y (descendants t).
Proof.
  induction t as [s | s | n a cs IH] using node_induction; [easy | easy |].
  intros x y Hx Hy. cbn [descendants] in *. rewrite in_flat_map in *.
  destruct Hx as (c & Hc & [<- | Hx]).
  - exists c. split; [exact Hc | now right].
  - exists c. split; [exact Hc |]. right.
    rewrite Forall_forall in IH. exact (IH c Hc x y Hx Hy).
Qed.

Lemma update_desc_Tag f n a cs k :
  update_desc f (Tag n a cs) k = Tag n a (update_children f cs k).
Proof.
  cbn [update_desc]. f_equal. revert k.
  induction cs as [| c cs IH]; intros k; [reflexivity |].
  cbn [update_children]. destruct k as [| k']; [reflexivity |].
  destruct (k' <? List.length (descendants c))%nat; [reflexivity |].
  now rewrite <- IH.
Qed.

(** The document sees the change made to the tag at place [k]. *)
Lemma update_desc_nth f t : forall k x,
  nth_error (descendants t) k = Some x ->
  nth_error (descendants (update_desc f t k)) k = Some (f x).
Proof.
  induction t as [s | s | n a cs IH] using node_induction;
    [now intros [| k] | now intros [| k] |].
  intros k x. rewrite update_desc_Tag. cbn [descendants].
  rewrite Forall_forall in IH. revert k x.
  induction cs as [| c cs IHcs]; intros k x; [now destruct k |].
  cbn [flat_map update_children]. destruct k as [| k']; cbn [app nth_error].
  - now intros [= ->].
  - destruct (Nat.ltb_spec k' (List.length (descendants c))) as [Hlt | Hge].
    + rewrite nth_error_app1 by exact Hlt. intros Hx.
      cbn [flat_map app nth_error].
      pose proof (IH c (or_introl eq_refl) k' x Hx) as Hc.
      rewrite nth_error_app1; [exact Hc |].
      apply nth_error_Some. congruence.
    + rewrite nth_error_app2 by exact Hge. intros Hx.
      cbn [flat_map app nth_error]. rewrite nth_error_app2 by exact Hge.
      apply IHcs; [| exact Hx]. intros y Hy. apply IH. now right.
Qed.

(** A change that changes nothing leaves the document as it is. *)
Lemma update_desc_same f t : forall k x,
  nth_error (descendants t) k = Some x -> f x = x -> update_desc f t k = t.
Proof.
  induction t as [s | s | n a cs IH] using node_induction;
    [reflexivity | reflexivity |].
  intros k x. rewrite update_desc_Tag. cbn [descendants]. intros Hx Hf. f_equal.
  rewrite Forall_forall in IH. revert k Hx.
  induction cs as [| c cs IHcs]; intros k; [reflexivity |].
  cbn [flat_map update_children]. destruct k as [| k']; cbn [app nth_error].
  - intros [= ->]. now rewrite Hf.
  - destruct (Nat.ltb_spec k' (List.length (descendants c))) as [Hlt | Hge].
    + rewrite nth_error_app1 by exact Hlt. intros Hx. f_equal.
      exact (IH c (or_introl eq_refl) k' x Hx Hf).
    + rewrite nth_error_app2 by exact Hge. intros Hx. f_equal.
      apply IHcs; [| exact Hx]. intros y Hy. apply IH. now right.
Qed.

Lemma position_nth {A} (p : A -> bool) l k :
  position p l = Some k -> exists x, nth_error l k = Some x /\ p x = true.
Proof.
  intros H. apply position_first in H as (b & x & a & -> & <- & _ & Hx).
  exists x. split; [apply nth_error_middle | exact Hx].
Qed.

Section TableFacts.
Context {R : PyRuntime}.

(** The place [locate_root] gives is the place of a table. *)
Lemma locate_root_table soup hint k :
  locate_root soup hint = Ok (Some k) ->
  exists root, nth_error (descendants soup) k = Some root /\ is_tag "table" root = true.
Proof.
  unfold locate_root. destruct hint as [h |].
  - destruct (re_compile_ok _); [| discriminate].
    destruct (position (is_heading _) _) as [i |]; [| discriminate].
    destruct (position (is_tag "table") _) as [j |] eqn:Ej; [| discriminate].
    cbn [option_map]. intros [= <-].
    destruct (position_nth _ _ _ Ej) as (x & Hx & Hp). exists x. split; [| exact Hp].
    rewrite nth_error_skipn in Hx. exact Hx.
  - intros [= H]. exact (position_nth _ _ _ H).
Qed.

Lemma locate_root_error soup hint e :
  locate_root soup hint = Raise e ->
  e = AttributeError \/
  (e = ReError /\ exists h, hint = Some h /\ re_compile_ok (heading_pattern h) = false).
Proof.
  unfold locate_root. destruct hint as [h |]; [| discriminate].
  destruct (re_compile_ok _) eqn:E.
  - destruct (position _ _); [discriminate | intros [= <-]; now left].
  - intros [= <-]. right. split; [reflexivity |]. now exists h.
Qed.

Lemma readTable_unfold getSoup url hint k root :
  locate_root (getSoup url) hint = Ok (Some k) ->
  nth_error (descendants (getSoup url)) k = Some root ->
  readTable getSoup url hint = table_parts (getSoup url) k root.
Proof.
  intros Hk Hr. unfold readTable. cbn zeta. rewrite Hk. cbn [bind attr_of].
  now rewrite Hr.
Qed.

Lemma readTable_located getSoup url hint p :
  readTable getSoup url hint = Ok p ->
  exists k root,
    locate_root (getSoup url) hint = Ok (Some k) /\
    nth_error (descendants (getSoup url)) k = Some root /\
    is_tag "table" root = true /\
    table_parts (getSoup url) k root = Ok p.
Proof.
  intros H. pose proof H as H0. unfold readTable in H. cbn zeta in H.
  destruct (locate_root (getSoup url) hint) as [[k |] |] eqn:Hk; try discriminate.
  destruct (locate_root_table _ _ _ Hk) as (root & Hr & Ht).
  exists k, root. repeat split; trivial.
  now rewrite <- (readTable_unfold _ _ _ _ _ Hk Hr).
Qed.

End TableFacts.

(** X15: the advertisement rows (lines 40-49). When readTable returns, what
    it found is a table element; the document it returns holds, at the place
    of that table, the table without its rows of class bottom-sort, and is
    the document fetched when the table had none; the header cells are the
    th elements of the first thead of the cleaned table, and the rows are the
    td elements of each tr of its first tbody, none of which is an
    advertisement. *)
Theorem readTable_removes_ads {R : PyRuntime} :
  forall (getSoup : pystr -> node) (url : pystr) (hint : option pystr)
         headers data soup',
    readTable getSoup url hint = Ok (headers, data, soup') ->
    exists k root thead tbody,
      locate_root (getSoup url) hint = Ok (Some k) /\
      nth_error (descendants (getSoup url)) k = Some root /\
      is_tag "table" root = true /\
      nth_error (descendants soup') k = Some (decompose_all is_junk root) /\
      find_all is_junk (decompose_all is_junk root) = [] /\
      (find_all is_junk root = [] -> soup' = getSoup url) /\
      find (is_tag "thead") (decompose_all is_junk root) = Some thead /\
      headers = find_all (is_tag "th") thead /\
      find (is_tag "tbody") (decompose_all is_junk root) = Some tbody /\
      data = map cells (find_all (is_tag "tr") tbody) /\
      Forall (fun tr => is_junk tr = false) (find_all (is_tag "tr") tbody).
Proof.
  intros getSoup url hint headers data soup' H.
  destruct (readTable_located _ _ _ _ H) as (k & root & Hk & Hr & Ht & Hp).
  unfold table_parts in Hp. cbn zeta in Hp.
  destruct (find (is_tag "thead") (decompose_all is_junk root)) as [th |] eqn:Eh;
    [| discriminate].
  destruct (find (is_tag "tbody") (decompose_all is_junk root)) as [tb |] eqn:Eb;
    [| discriminate].
  cbn [attr_of bind] in Hp. injection Hp as <- <- <-.
  exists k, root, th, tb. repeat split; trivial.
  - now apply update_desc_nth.
  - apply decompose_all_clean.
  - intros Hnone. apply (update_desc_same _ _ _ _ Hr).
    now apply decompose_all_none.
  - apply Forall_forall. intros tr Htr. unfold find_all in Htr.
    apply filter_In in Htr as [Htr _].
    assert (Htb : In tb (descendants (decompose_all is_junk root))).
    { unfold find in Eb. apply find_some in Eb. tauto. }
    pose proof (descendants_trans _ _ _ Htb Htr) as Hin.
    pose proof (decompose_all_clean root) as Hclean. unfold find_all in Hclean.
    destruct (is_junk tr) eqn:E; [| reflexivity].
    assert (Hf : In tr (filter is_junk (descendants (decompose_all is_junk root)))).
    { apply filter_In. now split. }
    rewrite Hclean in Hf. destruct Hf.
Qed.

Lemma readTable_removes_ads_witness :
  exists headers data soup' table,
    readTable (R := sample_runtime) (fun _ => daily_page) ratings_url None
    = Ok (headers, data, soup') /\
    find_all is_junk daily_page <> [] /\
    nth_error (descendants soup') 4 = Some table /\
    find_all is_junk table = [] /\
    List.length data = 2%nat.
Proof.
  set (p := parts_of (readTable (R := sample_runtime) (fun _ => daily_page) ratings_url None)).
  assert (H : readTable (R := sample_runtime) (fun _ => daily_page) ratings_url None
              = Ok (fst (fst p), snd (fst p), snd p)) by (vm_compute; reflexivity).
  destruct (readTable_removes_ads _ _ _ _ _ _ H)
    as (k & root & th & tb & Hk & _ & _ & Hs & Hc & _).
  vm_compute in Hk. injection Hk as <-.
  exists (fst (fst p)), (snd (fst p)), (snd p), (decompose_all is_junk root).
  split; [exact H |]. split; [vm_compute; discriminate |].
  split; [exact Hs |]. split; [exact Hc |]. vm_compute. reflexivity.
Defined.

(** X16: the failures of readTable. It raises an AttributeError, or the
    error of re.compile for a hint that is no pattern, and nothing else; an
    AttributeError when no table is found, and, when one is found, exactly
    when the table without its advertisement rows has no thead or no
    tbody. *)
Theorem readTable_errors {R : PyRuntime} :
  forall (getSoup : pystr -> node) (url : pystr) (hint : option pystr),
    (forall e,
        readTable getSoup url hint = Raise e ->
        e = AttributeError \/
        (e = ReError /\
         exists h, hint = Some h /\ re_compile_ok (heading_pattern h) = false)) /\
    (locate_root (getSoup url) hint = Ok None ->
     readTable getSoup url hint = Raise AttributeError) /\
    (forall k root,
        locate_root (getSoup url) hint = Ok (Some k) ->
        nth_error (descendants (getSoup url)) k = Some root ->
        (readTable getSoup url hint = Raise AttributeError <->
         find (is_tag "thead") (decompose_all is_junk root) = None \/
         find (is_tag "tbody") (decompose_all is_junk root) = None)).
Proof.
  intros getSoup url hint. split; [| split].
  - intros e H. unfold readTable in H. cbn zeta in H.
    destruct (locate_root (getSoup url) hint) as [[k |] |] eqn:Hk; cbn [bind attr_of] in H.
    + destruct (locate_root_table _ _ _ Hk) as (root & Hr & _). rewrite Hr in H.
      cbn [bind attr_of] in H. unfold table_parts in H. cbn zeta in H.
      destruct (find (is_tag "thead") _); cbn [bind attr_of] in H;
        [| injection H as <-; now left].
      destruct (find (is_tag "tbody") _); cbn [bind attr_of] in H;
        [discriminate | injection H as <-; now left].
    + injection H as <-. now left.
    + injection H as <-. exact (locate_root_error _ _ _ Hk).
  - intros Hk. unfold readTable. cbn zeta. now rewrite Hk.
  - intros k root Hk Hr. rewrite (readTable_unfold _ _ _ _ _ Hk Hr).
    unfold table_parts. cbn zeta.
    destruct (find (is_tag "thead") _); cbn [bind attr_of].
    + destruct (find (is_tag "tbody") _); cbn [bind attr_of].
      * split; [discriminate | intros [H | H]; discriminate H].
      * split; [now right | reflexivity].
    + split; [now left | reflexivity].
Qed.

Lemma readTable_errors_witness :
  readTable (R := sample_runtime) (fun _ => no_thead_page) ratings_url None
  = Raise AttributeError.
Proof.
  apply (proj2 (proj2 (readTable_errors (R := sample_runtime)
                         (fun _ => no_thead_page) ratings_url None))
           4%nat (el "table" [] [el "tbody" [] [daily_row "AAPL" (rating_cell "3")]])).
  - vm_compute. reflexivity.
  - vm_compute. reflexivity.
  - left. vm_compute. reflexivity.
Defined.

(** ** The failures of the workflows *)

Section ErrorFacts.
Context {R : PyRuntime}.

Lemma readTable_plain_error getSoup url hint e :
  match hint with Some h => forallb re_plain h = true | None => True end ->
  readTable getSoup url hint = Raise e -> e = AttributeError.
Proof.
  intros Hh H. unfold readTable in H. cbn zeta in H.
  destruct (locate_root (getSoup url) hint) as [[k |] |] eqn:Hk; cbn [bind attr_of] in H.
  - destruct (locate_root_table _ _ _ Hk) as (root & Hr & _). rewrite Hr in H.
    cbn [bind attr_of] in H. unfold table_parts in H. cbn zeta in H.
    destruct (find (is_tag "thead") _); cbn [bind attr_of] in H; [| congruence].
    destruct (find (is_tag "tbody") _); cbn [bind attr_of] in H; congruence.
  - congruence.
  - injection H as <-.
    destruct (locate_root_error _ _ _ Hk) as [-> | (-> & h & -> & Hc)]; [reflexivity |].
    unfold heading_pattern in Hc.
    destruct (re_search_plain h Hh) as [Hok _]. congruence.
Qed.

Lemma resolve_date_cases today soup :
  resolve_date today soup
  = match find is_date_div soup with
    | None => Ok (strftime today)
    | Some t =>
        match DATE_RE_search (text t) with
        | None => Raise AttributeError
        | Some g =>
            match strptime g with
            | Ok d => Ok (strftime d)
            | Raise e => Raise e
            end
        end
    end.
Proof.
  unfold resolve_date. destruct (find is_date_div soup); [| reflexivity].
  destruct (DATE_RE_search _); [| reflexivity]. cbn [attr_of bind].
  now destruct (strptime _).
Qed.

Lemma survivors_daily_build iso data :
  survivors (processRow_daily iso) data <> [] ->
  exists df, buildDataFrame (survivors (processRow_daily iso) data) = Ok df.
Proof.
  intros Hne. destruct (buildDataFrame_records (survivors (processRow_daily iso) data))
    as (df & H & _); [exact Hne | | now exists df].
  generalize (survivors_daily_records iso data). apply Forall_impl.
  intros d (date & Hrec & _). now exists date.
Qed.

Lemma survivors_symbol_build symbol exchange data :
  survivors (processRow_symbol symbol exchange) data <> [] ->
  exists df, buildDataFrame (survivors (processRow_symbol symbol exchange) data) = Ok df.
Proof.
  intros Hne.
  destruct (buildDataFrame_records (survivors (processRow_symbol symbol exchange) data))
    as (df & H & _); [exact Hne | | now exists df].
  apply Forall_forall. intros d Hd. unfold survivors in Hd.
  apply in_flat_map in Hd as (row & _ & Hd).
  destruct (processRow_symbol symbol exchange row) as [d' |] eqn:E; [| easy].
  destruct Hd as [<- | []]. exact (processRow_symbol_record _ _ _ _ E).
Qed.

Lemma resolve_date_outcome today soup :
  (resolve_date today soup = Raise ValueError <-> bad_marker soup) /\
  (resolve_date today soup = Raise AttributeError <-> hidden_marker soup) /\
  (forall e, resolve_date today soup = Raise e -> e = ValueError \/ e = AttributeError).
Proof.
  rewrite resolve_date_cases. unfold bad_marker, hidden_marker.
  destruct (find is_date_div soup) as [t |].
  2:{ repeat split; try discriminate.
      - intros (? & ? & H & _). discriminate H.
      - intros (? & H & _). discriminate H. }
  destruct (DATE_RE_search (text t)) as [g |] eqn:Hg.
  2:{ repeat split; try discriminate.
      - intros (t' & g' & [= <-] & H & _). congruence.
      - intros _. now exists t.
      - intros e [= <-]. now right. }
  destruct (strptime g) as [d | e0] eqn:Hs.
  - repeat split; try discriminate.
    + intros (t' & g' & [= <-] & H & H'). congruence.
    + intros (t' & [= <-] & H). congruence.
  - pose proof (strptime_error _ _ Hs) as ->. repeat split; try discriminate.
    + intros _. now exists t, g.
    + intros (t' & [= <-] & H). congruence.
    + intros e [= <-]. now left.
Qed.

(** The daily workflow, by the cases of its steps. *)
Lemma daily_cases getSoup today :
  getDailyRatingsTable getSoup today
  = match readTable getSoup ratings_url None with
    | Raise e => Raise e
    | Ok (_, data, soup) =>
        match resolve_date today soup with
        | Raise e => Raise e
        | Ok iso => buildDataFrame (survivors (processRow_daily iso) data)
        end
    end.
Proof.
  unfold getDailyRatingsTable. fold ratings_url.
  destruct (readTable getSoup ratings_url None) as [[[headers data] soup] |]; [| reflexivity].
  cbn [bind]. destruct (resolve_date today soup); cbn [bind]; [| reflexivity].
  now rewrite process_rows_survivors.
Qed.

End ErrorFacts.

(** X17: the failures of the daily workflow, the page once fetched. It
    raises a KeyError exactly when the table is read, the page gives a date
    and no row parses; a ValueError exactly when the table is read and the
    first div with a date marker spells a date that does not exist; an
    AttributeError exactly when readTable raises one, or the first such div
    holds its marker in a comment; and nothing else. *)
Theorem daily_workflow_errors {R : PyRuntime} :
  forall (getSoup : pystr -> node) (today : date),
    (forall e,
        getDailyRatingsTable getSoup today = Raise e ->
        e = AttributeError \/ e = ValueError \/ e = KeyError) /\
    (getDailyRatingsTable getSoup today = Raise KeyError <->
     exists headers data soup iso,
       readTable getSoup ratings_url None = Ok (headers, data, soup) /\
       page_date today soup iso /\
       survivors (processRow_daily iso) data = []) /\
    (getDailyRatingsTable getSoup today = Raise ValueError <->
     exists headers data soup,
       readTable getSoup ratings_url None = Ok (headers, data, soup) /\
       bad_marker soup) /\
    (getDailyRatingsTable getSoup today = Raise AttributeError <->
     readTable getSoup ratings_url None = Raise AttributeError \/
     exists headers data soup,
       readTable getSoup ratings_url None = Ok (headers, data, soup) /\
       hidden_marker soup).
Proof.
  intros getSoup today. rewrite daily_cases.
  destruct (readTable getSoup ratings_url None) as [[[headers data] soup] | e0] eqn:Hr.
  2:{ pose proof (readTable_plain_error getSoup ratings_url None e0 I Hr) as ->.
      repeat split; try discriminate.
      - intros e [= <-]. now left.
      - intros (? & ? & ? & ? & H & _). discriminate H.
      - intros (? & ? & ? & H & _). discriminate H.
      - intros _. now left. }
  destruct (resolve_date_outcome today soup) as (Hv & Ha & He).
  destruct (resolve_date today soup) as [iso | e1] eqn:Hd.
  - assert (Hbad : ~ bad_marker soup) by (intros H; apply Hv in H; discriminate H).
    assert (Hhid : ~ hidden_marker soup) by (intros H; apply Ha in H; discriminate H).
    destruct (survivors (processRow_daily iso) data) as [| d0 ds] eqn:Hs.
    + rewrite buildDataFrame_empty. repeat split; try discriminate.
      * intros e [= <-]. now right; right.
      * intros _. exists headers, data, soup, iso. repeat split; trivial.
        now apply resolve_date_page.
      * intros (h' & d' & s' & [= <- <- <-] & H). tauto.
      * intros [H | (h' & d' & s' & [= <- <- <-] & H)]; [discriminate H | tauto].
    + destruct (survivors_daily_build iso data) as [df Hdf]; [now rewrite Hs |].
      rewrite Hs in Hdf. rewrite Hdf. repeat split; try discriminate.
      * intros (h' & d' & s' & iso' & [= <- <- <-] & Hp & Hs').
        apply resolve_date_page in Hp. assert (iso' = iso) as -> by congruence.
        congruence.
      * intros (h' & d' & s' & [= <- <- <-] & H). tauto.
      * intros [H | (h' & d' & s' & [= <- <- <-] & H)]; [discriminate H | tauto].
  - assert (Hno : forall iso, ~ page_date today soup iso).
    { intros iso H. apply resolve_date_page in H. congruence. }
    destruct (He e1 eq_refl) as [-> | ->].
    + pose proof (proj1 Hv eq_refl) as Hbad. repeat split; try discriminate.
      * intros e [= <-]. now right; left.
      * intros (h' & d' & s' & iso & [= <- <- <-] & Hp & _). now apply Hno in Hp.
      * intros _. now exists headers, data, soup.
      * intros [H | (h' & d' & s' & [= <- <- <-] & H)]; [discriminate H |].
        apply Ha in H. discriminate H.
    + pose proof (proj1 Ha eq_refl) as Hhid. repeat split; try discriminate.
      * intros e [= <-]. now left.
      * intros (h' & d' & s' & iso & [= <- <- <-] & Hp & _). now apply Hno in Hp.
      * intros (h' & d' & s' & [= <- <- <-] & H). apply Hv in H. discriminate H.
      * intros _. right. now exists headers, data, soup.
Qed.

Lemma daily_workflow_errors_witness :
  getDailyRatingsTable (R := sample_runtime) (fun _ => bad_date_page) clock
  = Raise ValueError /\
  getDailyRatingsTable (R := sample_runtime)
    (fun _ => page_of [el "div" [] [Comment (py "(11/3/2026)")];
                       table_of [daily_row "AAPL" (rating_cell "3")]]) clock
  = Raise AttributeError.
Proof.
  split.
  - apply (proj1 (proj2 (proj2 (daily_workflow_errors (R := sample_runtime) _ clock)))).
    set (p := parts_of (readTable (R := sample_runtime) (fun _ => bad_date_page) ratings_url None)).
    exists (fst (fst p)), (snd (fst p)), (snd p). split; [vm_compute; reflexivity |].
    exists (el "div" [] [txt "Ratings of today (13/45/2026)"]), (py "13/45/2026").
    repeat split; vm_compute; reflexivity.
  - apply (proj2 (proj2 (proj2 (daily_workflow_errors (R := sample_runtime) _ clock)))).
    right.
    set (p := parts_of (readTable (R := sample_runtime)
                          (fun _ => page_of [el "div" [] [Comment (py "(11/3/2026)")];
                                             table_of [daily_row "AAPL" (rating_cell "3")]])
                          ratings_url None)).
    exists (fst (fst p)), (snd (fst p)), (snd p). split; [vm_compute; reflexivity |].
    exists (el "div" [] [Comment (py "(11/3/2026)")]). split; vm_compute; reflexivity.
Defined.

Section SymbolErrors.
Context {R : PyRuntime}.

Lemma symbol_cases getSoup symbol :
  getSymbolRatingsTable getSoup symbol
  = match find is_ratings_item (getSoup (overview_url symbol)) with
    | None => Raise AttributeError
    | Some li =>
        match find (is_tag "a") li with
        | None => Raise AttributeError
        | Some a =>
            match get a "href" with
            | None => Raise TypeError
            | Some href =>
                match stocks_match href with
                | None => Raise AttributeError
                | Some exchange =>
                    match readTable getSoup (BASE_URL ++ href) (Some history_hint) with
                    | Raise e => Raise e
                    | Ok (_, data, _) =>
                        buildDataFrame (survivors (processRow_symbol symbol exchange) data)
                    end
                end
            end
        end
    end.
Proof.
  unfold getSymbolRatingsTable, is_ratings_item. fold (overview_url symbol).
  destruct (find _ (getSoup (overview_url symbol))) as [li |]; [| reflexivity].
  cbn [attr_of bind]. destruct (find (is_tag "a") li) as [a |]; [| reflexivity].
  cbn [attr_of bind]. destruct (get a "href") as [href |]; [| reflexivity].
  cbn [bind]. destruct (stocks_match href) as [exchange |]; [| reflexivity].
  cbn [attr_of bind]. fold history_hint.
  destruct (readTable getSoup (BASE_URL ++ href) (Some history_hint))
    as [[[headers data] soup] |]; [| reflexivity].
  cbn [bind]. now rewrite process_rows_survivors.
Qed.

End SymbolErrors.

(** X18: the failures of the symbol workflow, the pages once fetched. It
    raises a TypeError exactly when the anchor of the ratings item has no
    href; a KeyError exactly when the link and the table are read and no row
    parses; an AttributeError exactly when the overview page has no ratings
    item or the item no anchor, the href does not start with /stocks/ and a
    word character, or readTable raises one; and nothing else. *)
Theorem symbol_workflow_errors {R : PyRuntime} :
  forall (getSoup : pystr -> node) (symbol : pystr),
    (forall e,
        getSymbolRatingsTable getSoup symbol = Raise e ->
        e = AttributeError \/ e = TypeError \/ e = KeyError) /\
    (getSymbolRatingsTable getSoup symbol = Raise TypeError <->
     link_state (getSoup (overview_url symbol)) None) /\
    (getSymbolRatingsTable getSoup symbol = Raise KeyError <->
     exists href exchange headers data soup,
       ratings_link (getSoup (overview_url symbol)) href exchange /\
       readTable getSoup (BASE_URL ++ href) (Some history_hint)
       = Ok (headers, data, soup) /\
       survivors (processRow_symbol symbol exchange) data = []) /\
    (getSymbolRatingsTable getSoup symbol = Raise AttributeError <->
     no_link (getSoup (overview_url symbol)) \/
     (exists href,
         link_state (getSoup (overview_url symbol)) (Some href) /\
         stocks_match href = None) \/
     (exists href exchange,
         ratings_link (getSoup (overview_url symbol)) href exchange /\
         readTable getSoup (BASE_URL ++ href) (Some history_hint)
         = Raise AttributeError)).
Proof.
  intros getSoup symbol. rewrite symbol_cases.
  set (page := getSoup (overview_url symbol)).
  unfold no_link, ratings_link. fold is_ratings_item.
  destruct (find is_ratings_item page) as [li |] eqn:Hli.
  2:{ repeat split; try discriminate.
      - intros e [= <-]. now left.
      - intros H. inversion H; congruence.
      - intros (? & ? & ? & ? & ? & (? & ? & H & _) & _). discriminate H.
      - intros _. left. now left. }
  destruct (find (is_tag "a") li) as [a |] eqn:Ha.
  2:{ repeat split; try discriminate.
      - intros e [= <-]. now left.
      - intros H. inversion H; congruence.
      - intros (? & ? & ? & ? & ? & (li' & ? & [= <-] & H & _) & _). congruence.
      - intros _. left. right. now exists li. }
  assert (Hlink : forall P : Prop,
             Some li = None \/
             (exists li', Some li = Some li' /\ find (is_tag "a") li' = None) -> P).
  { intros P [H | (li' & [= <-] & H)]; congruence. }
  destruct (get a "href") as [href |] eqn:Hh.
  2:{ repeat split; try discriminate.
      - intros e [= <-]. now right; left.
      - intros _. now apply link_bare with li a.
      - intros (? & ? & ? & ? & ? & (li' & a' & [= <-] & Ha' & H & _) & _). congruence.
      - intros [H | [(href & H & _) | (? & ? & (li' & a' & [= <-] & Ha' & H & _) & _)]].
        + now apply Hlink.
        + inversion H; congruence.
        + congruence. }
  assert (Hstate : forall h, link_state page h -> h = Some href).
  { intros h H. inversion H; congruence. }
  assert (Hrl : forall href' ex,
             (exists li' a', Some li = Some li' /\ find (is_tag "a") li' = Some a' /\
                             get a' "href" = Some href' /\ stocks_match href' = Some ex) ->
             href' = href /\ stocks_match href = Some ex).
  { intros href' ex (li' & a' & [= <-] & Ha' & Hh' & Hx).
    assert (a' = a) as -> by congruence. assert (href' = href) as -> by congruence.
    now split. }
  destruct (stocks_match href) as [exchange |] eqn:Hx.
  2:{ repeat split; try discriminate.
      - intros e [= <-]. now left.
      - intros H. apply Hstate in H. discriminate H.
      - intros (href' & ex & ? & ? & ? & H & _). apply Hrl in H as [_ H]. discriminate H.
      - intros _. right. left. exists href. split; [now apply link_href with li a | exact Hx]. }
  destruct (readTable getSoup (BASE_URL ++ href) (Some history_hint))
    as [[[headers data] soup] | e0] eqn:Hr.
  2:{ pose proof (readTable_plain_error getSoup _ (Some history_hint) e0 eq_refl Hr) as ->.
      repeat split; try discriminate.
      - intros e [= <-]. now left.
      - intros H. apply Hstate in H. discriminate H.
      - intros (href' & ex & h' & d' & s' & H & Hr' & _). apply Hrl in H as [-> _].
        congruence.
      - intros _. right. right. exists href, exchange. split; [| exact Hr].
        now exists li, a. }
  destruct (survivors (processRow_symbol symbol exchange) data) as [| d0 ds] eqn:Hs.
  - rewrite buildDataFrame_empty. repeat split; try discriminate.
    + intros e [= <-]. now right; right.
    + intros H. apply Hstate in H. discriminate H.
    + intros _. exists href, exchange, headers, data, soup. repeat split; trivial.
      now exists li, a.
    + intros [H | [(href' & H & Hx') | (href' & ex & H & Hr')]].
      * now apply Hlink.
      * apply Hstate in H. congruence.
      * apply Hrl in H as [-> _]. congruence.
  - destruct (survivors_symbol_build symbol exchange data) as [df Hdf]; [now rewrite Hs |].
    rewrite Hs in Hdf. rewrite Hdf. repeat split; try discriminate.
    + intros H. apply Hstate in H. discriminate H.
    + intros (href' & ex & h' & d' & s' & H & Hr' & Hs').
      apply Hrl in H as [-> Hex]. assert (ex = exchange) as -> by congruence.
      assert (d' = data) as -> by congruence. congruence.
    + intros [H | [(href' & H & Hx') | (href' & ex & H & Hr')]].
      * now apply Hlink.
      * apply Hstate in H. congruence.
      * apply Hrl in H as [-> _]. congruence.
Qed.

Lemma symbol_workflow_errors_witness :
  getSymbolRatingsTable (R := sample_runtime)
    (fun _ => page_of [el "ul" [] [el "li" [("id", "liAnalystRatings")]
                                     [el "a" [] [txt "Analyst Ratings"]]]])
    (py "IBM") = Raise TypeError.
Proof.
  apply (proj1 (proj2 (symbol_workflow_errors (R := sample_runtime) _ (py "IBM")))).
  eapply link_bare; reflexivity.
Defined.

(** ** The records of a Dataset *)





Section SchemaFacts.
Context {R : PyRuntime}.







End SchemaFacts.



(** ** The date marker *)

Lemma In_one (p : char -> bool) s m r :
  In (m, r) (one p s) <-> exists c, s = c :: r /\ p c = true /\ m = [c].
Proof.
  unfold one. destruct s as [| c s'].
  - split; [easy | intros (c & H & _); discriminate H].
  - destruct (p c) eqn:E.
    + cbn. split.
      * intros [[= <- <-] | []]. now exists c.
      * intros (c' & [= <- <-] & _ & ->). now left.
    + split; [easy |]. intros (c' & [= <- <-] & H & _). congruence.
Qed.

Lemma In_lit c s m r : In (m, r) (lit c s) <-> s = c :: r /\ m = [c].
Proof.
  unfold lit. rewrite In_one. split.
  - intros (c' & -> & H & ->). apply N.eqb_eq in H. now subst.
  - intros [-> ->]. exists c. now rewrite N.eqb_refl.
Qed.

Lemma In_then (a b : piece) s m r :
  In (m, r) (then_ a b s) <->
  exists m1 r1 m2, In (m1, r1) (a s) /\ In (m2, r) (b r1) /\ m = m1 ++ m2.
Proof.
  unfold then_. rewrite in_flat_map. split.
  - intros ([m1 r1] & H1 & H2). apply in_map_iff in H2 as ([m2 r2] & [= <- <-] & H2).
    now exists m1, r1, m2.
  - intros (m1 & r1 & m2 & H1 & H2 & ->). exists (m1, r1). split; [exact H1 |].
    apply in_map_iff. now exists (m2, r).
Qed.

Lemma In_alt (a b : piece) s x : In x (alt a b s) <-> In x (a s) \/ In x (b s).
Proof. unfold alt. apply in_app_iff. Qed.

Lemma hd_error_In {A} (l : list A) x : hd_error l = Some x -> In x l.
Proof. destruct l; [discriminate | intros [= ->]; now left]. Qed.

Lemma In_hd_error {A} (l : list A) x : In x l -> exists y, hd_error l = Some y.
Proof. destruct l as [| y l]; [easy | now exists y]. Qed.

Section MarkerFacts.
Context {R : PyRuntime}.

Lemma decimal_not_punct c :
  is_decimal c = true -> c <> SLASH /\ c <> LPAREN /\ c <> RPAREN.
Proof.
  unfold is_decimal, decimal_value, SLASH, LPAREN, RPAREN.
  destruct (N.ltb_spec c 128) as [Hlt | Hge]; [| lia].
  destruct (is_ascii_digit c) eqn:E; [| discriminate].
  apply digit_bounds in E. lia.
Qed.

Lemma In_digit s m r : In (m, r) (digit s) <-> exists c, s = c :: r /\ is_decimal c = true /\ m = [c].
Proof. apply In_one. Qed.

Lemma In_digit12 s m r :
  In (m, r) (digit12 s) <-> s = m ++ r /\ short_run m.
Proof.
  unfold digit12, short_run. rewrite In_alt, In_then. split.
  - intros [(m1 & r1 & m2 & H1 & H2 & ->) | H].
    + apply In_digit in H1 as (c1 & -> & Hc1 & ->).
      apply In_digit in H2 as (c2 & -> & Hc2 & ->).
      cbn. rewrite Hc1, Hc2. repeat split; lia.
    + apply In_digit in H as (c & -> & Hc & ->). cbn. rewrite Hc. repeat split; lia.
  - intros (-> & Hl & Hd). destruct m as [| c1 [| c2 [| ? ?]]]; cbn in Hl; try lia.
    + right. apply In_digit. exists c1. cbn in Hd. rewrite andb_true_r in Hd. now repeat split.
    + left. cbn in Hd. rewrite andb_true_r in Hd. apply andb_true_iff in Hd as [H1 H2].
      exists [c1], (c2 :: r), [c2]. repeat split.
      * apply In_digit. now exists c1.
      * apply In_digit. now exists c2.
Qed.

Lemma In_digit4 s m r :
  In (m, r) (digit4 s) <->
  s = m ++ r /\ List.length m = 4%nat /\ forallb is_decimal m = true.
Proof.
  unfold digit4. split.
  - intros H. apply In_then in H as (m1 & r1 & m' & H1 & H & ->).
    apply In_then in H as (m2 & r2 & m'' & H2 & H & ->).
    apply In_then in H as (m3 & r3 & m4 & H3 & H4 & ->).
    apply In_digit in H1 as (c1 & -> & Hc1 & ->).
    apply In_digit in H2 as (c2 & -> & Hc2 & ->).
    apply In_digit in H3 as (c3 & -> & Hc3 & ->).
    apply In_digit in H4 as (c4 & -> & Hc4 & ->).
    cbn. now rewrite Hc1, Hc2, Hc3, Hc4.
  - intros (-> & Hl & Hd).
    destruct m as [| c1 [| c2 [| c3 [| c4 [| ? ?]]]]]; try discriminate Hl.
    cbn in Hd. rewrite andb_true_r, !andb_true_iff in Hd. destruct Hd as (H1 & H2 & H3 & H4).
    apply In_then. exists [c1], (c2 :: c3 :: c4 :: r), [c2; c3; c4].
    split; [apply In_digit; now exists c1 |]. split; [| reflexivity].
    apply In_then. exists [c2], (c3 :: c4 :: r), [c3; c4].
    split; [apply In_digit; now exists c2 |]. split; [| reflexivity].
    apply In_then. exists [c3], (c4 :: r), [c4].
    split; [apply In_digit; now exists c3 |]. split; [| reflexivity].
    apply In_digit. now exists c4.
Qed.

(** The matches of the body of the pattern at the head of [s]. *)
Lemma In_date_body s g r :
  In (g, r) (then_ digit12 (then_ (lit 47) (then_ digit12 (then_ (lit 47) digit4))) s)
  <-> s = g ++ r /\ date_shaped g.
Proof.
  split.
  - intros H. apply In_then in H as (a & r1 & m' & Ha & H & ->).
    apply In_then in H as (s1 & r2 & m'' & Hs1 & H & ->).
    apply In_then in H as (b & r3 & m3 & Hb & H & ->).
    apply In_then in H as (s2 & r4 & c & Hs2 & Hc & ->).
    apply In_digit12 in Ha as [-> Ha]. apply In_lit in Hs1 as [-> ->].
    apply In_digit12 in Hb as [-> Hb]. apply In_lit in Hs2 as [-> ->].
    apply In_digit4 in Hc as (-> & Hl & Hc). split.
    + now rewrite <- !app_assoc.
    + exists a, b, c.
      split; [reflexivity | split; [exact Ha | split; [exact Hb | split; [exact Hl | exact Hc]]]].
  - intros (-> & a & b & c & -> & Ha & Hb & Hl & Hc).
    match goal with
    | |- In _ (_ ?s) =>
        replace s with (a ++ SLASH :: b ++ SLASH :: c ++ r)
          by (unfold date_text;
              repeat (rewrite <- app_assoc || rewrite <- app_comm_cons); reflexivity)
    end.
    unfold date_text, SLASH.
    apply In_then. exists a, (47%N :: b ++ 47%N :: c ++ r), (47%N :: b ++ 47%N :: c).
    split; [apply In_digit12; now split |]. split; [| reflexivity].
    apply In_then. exists [47%N], (b ++ 47%N :: c ++ r), (b ++ 47%N :: c).
    split; [apply In_lit; now split |]. split; [| reflexivity].
    apply In_then. exists b, (47%N :: c ++ r), (47%N :: c).
    split; [apply In_digit12; now split |]. split; [| reflexivity].
    apply In_then. exists [47%N], (c ++ r), c.
    split; [apply In_lit; now split |]. split; [| reflexivity].
    apply In_digit4. now repeat split.
Qed.

Lemma date_shaped_free g : date_shaped g -> ~ In RPAREN g /\ ~ In LPAREN g.
Proof.
  intros (a & b & c & -> & [_ Ha] & [_ Hb] & _ & Hc).
  assert (H : forall s x, forallb is_decimal s = true -> In x s -> x <> RPAREN /\ x <> LPAREN).
  { intros s x Hs Hx. rewrite forallb_forall in Hs. apply Hs, decimal_not_punct in Hx. tauto. }
  unfold date_text. split; intros Hin;
    repeat (apply in_app_or in Hin as [Hin | Hin] || destruct Hin as [Hin | Hin]);
    try discriminate Hin;
    match goal with
    | Hs : forallb is_decimal ?s = true, Hx : In _ ?s |- _ =>
        destruct (H _ _ Hs Hx); congruence
    end.
Qed.

End MarkerFacts.

Section SearchFacts.
Context {R : PyRuntime}.

Lemma DATE_RE_match_In g s :
  In g (flat_map (fun o =>
          flat_map (fun g => map (fun _ => fst g) (lit 41 (snd g)))
            (then_ digit12 (then_ (lit 47) (then_ digit12 (then_ (lit 47) digit4))) (snd o)))
          (lit 40 s))
  <-> exists post, marked s [] g post /\ date_shaped g.
Proof.
  unfold marked, LPAREN, RPAREN. cbn [app]. rewrite in_flat_map. split.
  - intros ([m0 r0] & H0 & H). apply In_lit in H0 as [-> ->]. cbn [snd] in H.
    apply in_flat_map in H as ([gg r1] & Hb & H). apply In_date_body in Hb as [-> Hg].
    cbn [fst snd] in H. apply in_map_iff in H as ([m2 r2] & <- & H2).
    apply In_lit in H2 as [-> ->]. now exists r2.
  - intros (post & -> & Hg). exists ([40%N], g ++ 41%N :: post).
    split; [apply In_lit; now split |]. cbn [snd]. apply in_flat_map.
    exists (g, 41%N :: post). split; [apply In_date_body; now split |].
    cbn [fst snd]. apply in_map_iff. exists ([41%N], post). split; [reflexivity |].
    apply In_lit. now split.
Qed.

(** The pattern at the head of [s]. *)
Lemma DATE_RE_match_spec s g :
  DATE_RE_match s = Some g <-> exists post, marked s [] g post /\ date_shaped g.
Proof.
  unfold DATE_RE_match. split.
  - intros H. apply hd_error_In in H. now apply DATE_RE_match_In.
  - intros Hg. pose proof (proj2 (DATE_RE_match_In g s) Hg) as Hin.
    destruct (In_hd_error _ _ Hin) as [y Hy]. rewrite Hy. f_equal.
    pose proof (proj1 (DATE_RE_match_In y s) (hd_error_In _ _ Hy)) as (post' & E' & Hy').
    destruct Hg as (post & E & Hg). unfold marked in E, E'. cbn [app] in E, E'.
    rewrite E in E'. injection E' as E'.
    destruct (date_shaped_free _ Hg) as [Hg1 _]. destruct (date_shaped_free _ Hy') as [Hy1 _].
    now destruct (app_sep_inj RPAREN g y post post' Hg1 Hy1 E') as [-> _].
Qed.

Lemma DATE_RE_search_sound s g :
  DATE_RE_search s = Some g -> exists pre post, marked s pre g post /\ date_shaped g.
Proof.
  induction s as [| c s IH].
  - cbn [DATE_RE_search]. destruct (DATE_RE_match []) as [g' |] eqn:E; [| discriminate].
    intros [= ->]. apply DATE_RE_match_spec in E as (post & E & Hg). now exists [], post.
  - cbn [DATE_RE_search]. destruct (DATE_RE_match (c :: s)) as [g' |] eqn:E.
    + intros [= ->]. apply DATE_RE_match_spec in E as (post & E & Hg). now exists [], post.
    + intros H. destruct (IH H) as (pre & post & E' & Hg). exists (c :: pre), post.
      split; [| exact Hg]. unfold marked in *. now rewrite E'.
Qed.

Lemma DATE_RE_search_some s pre g post :
  marked s pre g post -> date_shaped g -> exists g', DATE_RE_search s = Some g'.
Proof.
  revert s. induction pre as [| c pre IH]; intros s E Hg.
  - assert (Hm : DATE_RE_match s = Some g) by (apply DATE_RE_match_spec; now exists post).
    exists g. destruct s; cbn [DATE_RE_search]; now rewrite Hm.
  - unfold marked in E. cbn [app] in E. subst s. cbn [DATE_RE_search].
    destruct (DATE_RE_match _) as [g' |]; [now exists g' |].
    apply (IH _ eq_refl Hg).
Qed.

Lemma DATE_RE_search_first pre g post :
  ~ In LPAREN pre -> date_shaped g ->
  DATE_RE_search (pre ++ LPAREN :: g ++ RPAREN :: post) = Some g.
Proof.
  intros Hpre Hg. induction pre as [| c pre IH].
  - assert (Hm : DATE_RE_match (LPAREN :: g ++ RPAREN :: post) = Some g)
      by (apply DATE_RE_match_spec; now exists post).
    cbn [app DATE_RE_search]. now rewrite Hm.
  - cbn [app DATE_RE_search].
    destruct (DATE_RE_match (c :: pre ++ LPAREN :: g ++ RPAREN :: post)) as [g' |] eqn:E.
    + apply DATE_RE_match_spec in E as (post' & E & _). unfold marked in E. cbn [app] in E.
      injection E as -> _. elim Hpre. now left.
    + apply IH. intros H. apply Hpre. now right.
Qed.

End SearchFacts.

(** X20: the date pattern (line 182). What the search returns stands in
    the text between parentheses and is one or two digits, a slash, one or
    two digits, a slash and four digits; the search finds something exactly
    when the text holds such a marker, and it finds the marker before which
    no parenthesis opens. *)
Theorem date_marker_search {R : PyRuntime} :
  forall s : pystr,
    (forall g,
        DATE_RE_search s = Some g ->
        exists pre post, marked s pre g post /\ date_shaped g) /\
    ((exists g, DATE_RE_search s = Some g) <->
     exists pre g post, marked s pre g post /\ date_shaped g) /\
    (forall pre g post,
        marked s pre g post -> date_shaped g -> ~ In LPAREN pre ->
        DATE_RE_search s = Some g).
Proof.
  intros s. split; [| split].
  - intros g. apply DATE_RE_search_sound.
  - split.
    + intros [g H]. destruct (DATE_RE_search_sound _ _ H) as (pre & post & E & Hg).
      now exists pre, g, post.
    + intros (pre & g & post & E & Hg). exact (DATE_RE_search_some _ _ _ _ E Hg).
  - intros pre g post -> Hg Hpre. now apply DATE_RE_search_first.
Qed.

Lemma date_marker_search_witness :
  DATE_RE_search (R := sample_runtime) (py "as of (11/3/2026), then (1/2/2027)")
  = Some (py "11/3/2026").
Proof.
  apply (proj2 (proj2 (date_marker_search (R := sample_runtime)
                         (py "as of (11/3/2026), then (1/2/2027)")))
           (py "as of ") (py "11/3/2026") (py ", then (1/2/2027)")).
  - reflexivity.
  - exists (py "11"), (py "3"), (py "2026"). repeat split; cbn; lia.
  - cbn. intuition discriminate.
Defined.

Section MarkerDate.
Context {R : PyRuntime}.

Lemma numeral_short n s : (1 <= n <= 31)%Z -> numeral n s -> short_run s.
Proof.
  intros Hn Hs. assert (Hin : In n (upto 31 1)) by (apply upto_In; lia).
  each_of Hin; destruct Hs as [-> | ->]; (split; [cbn; lia | reflexivity]).
Qed.

Lemma date_text_shaped y m d ms ds :
  (1000 <= y <= 9999)%Z -> (1 <= m <= 12)%Z -> (1 <= d <= 31)%Z ->
  numeral m ms -> numeral d ds -> date_shaped (date_text ms ds (str_of_Z y)).
Proof.
  intros Hy Hm Hd Hms Hds. exists ms, ds, (str_of_Z y).
  split; [reflexivity |]. split; [apply (numeral_short m); [lia | exact Hms] |].
  split; [exact (numeral_short d ds Hd Hds) |].
  destruct (year_text y Hy) as (a & b & c & e & -> & Hdig & _).
  split; [reflexivity |]. apply forallb_forall. intros x Hx.
  apply decimal_of_digit. unfold digits_only in Hdig. rewrite Forall_forall in Hdig.
  now apply Hdig.
Qed.

Lemma built_dates iso data df :
  buildDataFrame (survivors (processRow_daily iso) data) = Ok df ->
  Forall (fun r => lookup "date" r = Some (VStr iso)) (records_of df).
Proof.
  intros H. destruct (survivors (processRow_daily iso) data) as [| d0 ds] eqn:Hs.
  { rewrite buildDataFrame_empty in H. discriminate H. }
  pose proof (survivors_daily_records iso data) as Hall. rewrite Hs in Hall.
  destruct (buildDataFrame_records (d0 :: ds)) as (df' & Hb & _ & Hrec); [easy | |].
  { revert Hall. apply Forall_impl. intros d (date & Hrec & _). now exists date. }
  rewrite Hb in H. injection H as <-. rewrite Hrec.
  apply Forall_forall. intros r Hr. apply in_map_iff in Hr as (d & <- & Hin).
  rewrite Forall_forall in Hall. destruct (Hall d Hin) as (date & Hd' & ->).
  exact (proj2 (record_of_date_emitted _ _ Hd')).
Qed.

Lemma resolve_marker today soup t pre post y m d ms ds :
  find is_date_div soup = Some t ->
  marked (text t) pre (date_text ms ds (str_of_Z y)) post -> ~ In LPAREN pre ->
  (1000 <= y <= 9999)%Z -> (1 <= m <= 12)%Z -> (1 <= d <= 31)%Z ->
  numeral m ms -> numeral d ds ->
  resolve_date today soup
  = if valid_date y m d then Ok (iso_text y m d) else Raise ValueError.
Proof.
  intros Ht E Hpre Hy Hm Hd Hms Hds. rewrite resolve_date_cases, Ht, E.
  rewrite (DATE_RE_search_first pre _ post Hpre
             (date_text_shaped y m d ms ds Hy Hm Hd Hms Hds)).
  rewrite (strptime_date y m d ms ds Hy Hm Hd Hms Hds).
  destruct (valid_date y m d); [| reflexivity].
  unfold strftime, iso_text. cbn [year month day].
  now rewrite (@strftime_Y_four _ y Hy).
Qed.

End MarkerDate.

(** X21: from the marker to the records (lines 184-187). When the first div
    with a date marker reads (m/d/yyyy) after a text without an opening
    parenthesis, the daily workflow builds its Dataset with the date
    yyyy-mm-dd, which every record carries, if the day exists, and raises a
    ValueError if it does not. *)
Theorem daily_marker_date {R : PyRuntime} :
  forall (getSoup : pystr -> node) (today : date) headers data soup
         (t : node) (pre post : pystr) (y m d : Z) (ms ds : pystr),
    readTable getSoup ratings_url None = Ok (headers, data, soup) ->
    find is_date_div soup = Some t ->
    marked (text t) pre (date_text ms ds (str_of_Z y)) post -> ~ In LPAREN pre ->
    (1000 <= y <= 9999)%Z -> (1 <= m <= 12)%Z -> (1 <= d <= 31)%Z ->
    numeral m ms -> numeral d ds ->
    (valid_date y m d = true ->
     getDailyRatingsTable getSoup today
     = buildDataFrame (survivors (processRow_daily (iso_text y m d)) data) /\
     forall df,
       getDailyRatingsTable getSoup today = Ok df ->
       Forall (fun r => lookup "date" r = Some (VStr (iso_text y m d))) (records_of df)) /\
    (valid_date y m d = false ->
     getDailyRatingsTable getSoup today = Raise ValueError).
Proof.
  intros getSoup today headers data soup t pre post y m d ms ds
         Hr Ht E Hpre Hy Hm Hd Hms Hds.
  rewrite daily_cases, Hr,
    (resolve_marker today soup t pre post y m d ms ds Ht E Hpre Hy Hm Hd Hms Hds).
  split; intros Hv; rewrite Hv; [| reflexivity].
  split; [reflexivity |]. intros df. apply built_dates.
Qed.

Lemma daily_marker_date_witness :
  exists df,
    getDailyRatingsTable (R := sample_runtime) (fun _ => daily_page) clock = Ok df /\
    Forall (fun r => lookup "date" r = Some (VStr (py "2026-11-03"))) (records_of df) /\
    getDailyRatingsTable (R := sample_runtime) (fun _ => leap_page) clock
    = Raise ValueError.
Proof.
  set (p := parts_of (readTable (R := sample_runtime) (fun _ => daily_page) ratings_url None)).
  set (q := parts_of (readTable (R := sample_runtime) (fun _ => leap_page) ratings_url None)).
  destruct (getDailyRatingsTable (R := sample_runtime) (fun _ => daily_page) clock)
    as [df |] eqn:H; [| vm_compute in H; discriminate H].
  exists df. split; [reflexivity |]. split.
  - refine (proj2 (proj1 (daily_marker_date (R := sample_runtime) (fun _ => daily_page) clock
                            (fst (fst p)) (snd (fst p)) (snd p)
                            marker (py "Ratings of today ") [] 2026%Z 11%Z 3%Z
                            (py "11") (py "3")
                            ltac:(vm_compute; reflexivity) ltac:(vm_compute; reflexivity)
                            ltac:(vm_compute; reflexivity)
                            ltac:(cbn; intuition discriminate)
                            ltac:(lia) ltac:(lia) ltac:(lia)
                            ltac:(now left) ltac:(now left)) eq_refl) df H).
  - refine (proj2 (daily_marker_date (R := sample_runtime) (fun _ => leap_page) clock
                     (fst (fst q)) (snd (fst q)) (snd q)
                     (el "div" [] [txt "Ratings of today (2/29/2026)"])
                     (py "Ratings of today ") [] 2026%Z 2%Z 29%Z
                     (py "2") (py "29")
                     ltac:(vm_compute; reflexivity) ltac:(vm_compute; reflexivity)
                     ltac:(vm_compute; reflexivity)
                     ltac:(cbn; intuition discriminate)
                     ltac:(lia) ltac:(lia) ltac:(lia)
                     ltac:(now left) ltac:(now left)) eq_refl).
Defined.

(** ** The fields of the symbol workflow *)

Section SymbolFields.
Context {R : PyRuntime}.

Lemma processRow_symbol_fields symbol exchange row d :
  processRow_symbol symbol exchange row = Ok d ->
  lookup "symbol" (emitted d) = Some (VStr symbol) /\
  lookup "exchange" (emitted d) = Some (VStr exchange).
Proof.
  unfold processRow_symbol, bind. intros H. repeat bind_step H. injection H as <-.
  now split.
Qed.

Lemma built_symbol_fields symbol exchange data df :
  buildDataFrame (survivors (processRow_symbol symbol exchange) data) = Ok df ->
  Forall (fun r => lookup "symbol" r = Some (VStr symbol) /\
                   lookup "exchange" r = Some (VStr exchange)) (records_of df).
Proof.
  intros H.
  destruct (survivors (processRow_symbol symbol exchange) data) as [| d0 ds] eqn:Hs.
  { rewrite buildDataFrame_empty in H. discriminate H. }
  assert (Hall : forall d, In d (d0 :: ds) ->
                   exists row, processRow_symbol symbol exchange row = Ok d).
  { intros d Hd. rewrite <- Hs in Hd. unfold survivors in Hd.
    apply in_flat_map in Hd as (row & _ & Hd).
    destruct (processRow_symbol symbol exchange row) as [d' |] eqn:E; [| easy].
    destruct Hd as [<- | []]. now exists row. }
  destruct (buildDataFrame_records (d0 :: ds)) as (df' & Hb & _ & Hrec); [easy | |].
  { apply Forall_forall. intros d Hd. destruct (Hall d Hd) as [row Hrow].
    exact (processRow_symbol_record _ _ _ _ Hrow). }
  rewrite Hb in H. injection H as <-. rewrite Hrec.
  apply Forall_forall. intros r Hr. apply in_map_iff in Hr as (d & <- & Hin).
  destruct (Hall d Hin) as [row Hrow]. exact (processRow_symbol_fields _ _ _ _ Hrow).
Qed.

End SymbolFields.

(** X22: every record of the symbol workflow carries the symbol asked for
    and one exchange: the longest run of word characters after /stocks/ in
    the href of the ratings link, the link the ratings page is fetched
    from. *)
Theorem symbol_workflow_fields {R : PyRuntime} :
  forall (getSoup : pystr -> node) (symbol : pystr) (df : DataFrame),
    getSymbolRatingsTable getSoup symbol = Ok df ->
    exists href exchange headers data soup,
      link_state (getSoup (overview_url symbol)) (Some href) /\
      group_after (py "/stocks/") is_word href exchange /\
      readTable getSoup (BASE_URL ++ href) (Some history_hint)
      = Ok (headers, data, soup) /\
      Forall (fun r => lookup "symbol" r = Some (VStr symbol) /\
                       lookup "exchange" r = Some (VStr exchange)) (records_of df).
Proof.
  intros getSoup symbol df H. rewrite symbol_cases in H.
  destruct (find is_ratings_item _) as [li |] eqn:Hli; [| discriminate].
  destruct (find (is_tag "a") li) as [a |] eqn:Ha; [| discriminate].
  destruct (get a "href") as [href |] eqn:Hh; [| discriminate].
  destruct (stocks_match href) as [exchange |] eqn:Hx; [| discriminate].
  destruct (readTable getSoup _ _) as [[[headers data] soup] |] eqn:Hr; [| discriminate].
  exists href, exchange, headers, data, soup. repeat split; trivial.
  - now apply link_href with li a.
  - now apply stocks_match_spec.
  - exact (built_symbol_fields _ _ _ _ H).
Qed.

Lemma symbol_workflow_fields_witness :
  exists df,
    getSymbolRatingsTable (R := sample_runtime) web (py "IBM") = Ok df /\
    Forall (fun r => lookup "symbol" r = Some (VStr (py "IBM")) /\
                     lookup "exchange" r = Some (VStr (py "NYSE"))) (records_of df).
Proof.
  destruct (getSymbolRatingsTable (R := sample_runtime) web (py "IBM")) as [df |] eqn:H;
    [| vm_compute in H; discriminate H].
  destruct (symbol_workflow_fields web (py "IBM") df H)
    as (href & exchange & headers & data & soup & Hl & Hg & _ & Hall).
  exists df. split; [reflexivity |].
  assert (href = py "/stocks/NYSE/IBM/price-target/") as ->.
  { inversion Hl as [li a h Hli Ha Hh |]. subst.
    vm_compute in Hli. injection Hli as <-. vm_compute in Ha. injection Ha as <-.
    vm_compute in Hh. now injection Hh as <-. }
  apply stocks_match_spec in Hg. vm_compute in Hg. injection Hg as <-. exact Hall.
Defined.

(** ** The failures of a row *)

Lemma index_error {A} (l : list A) i e : index l i = Raise e -> e = IndexError.
Proof. unfold index. destruct (nth_error l i); [discriminate | now intros [= <-]]. Qed.

Lemma parseSymbolTag_error tag e :
  parseSymbolTag tag = Raise e -> e = AttributeError \/ e = IndexError.
Proof.
  unfold parseSymbolTag.
  destruct (find _ tag); cbn [attr_of bind]; [| intros [= <-]; now left].
  destruct (find (is_tag "a") tag); cbn [attr_of bind]; [| intros [= <-]; now left].
  destruct (index _ 2) eqn:E; cbn [bind].
  - destruct (find _ tag); cbn [attr_of bind]; [discriminate | intros [= <-]; now left].
  - intros [= <-]. right. exact (index_error _ _ _ E).
Qed.

Section RowErrors.
Context {R : PyRuntime}.

Lemma parseBrokerageTag_error tag e :
  parseBrokerageTag tag = Raise e -> e = AttributeError \/ e = TypeError.
Proof.
  unfold parseBrokerageTag.
  destruct (find (is_tag "a") tag) as [a |]; cbn [attr_of bind]; [| intros [= <-]; now left].
  destruct (get a "href"); cbn [bind]; [| intros [= <-]; now right].
  destruct (by_issuer_match _); cbn [attr_of bind]; [discriminate | intros [= <-]; now left].
Qed.

Lemma parsePriceTargetTag_error tag e : parsePriceTargetTag tag = Raise e -> e = ValueError.
Proof.
  unfold parsePriceTargetTag.
  destruct (float_of_str_outcome
              (strip (replace (py ",") [] (replace (py "$") []
                 (last_of (split ARROW (text tag))))))) as [[f ->] | ->];
    [discriminate | now intros [= <-]].
Qed.

Lemma parseRatingTag_error tag e : parseRatingTag tag = Raise e -> e = ValueError.
Proof.
  unfold parseRatingTag. cbn zeta.
  destruct (int_of_str_outcome (get_default tag "data-sort-value" (py "-1")))
    as [[z ->] | ->]; [discriminate | now intros [= <-]].
Qed.

Lemma parseDateTag_error tag e : parseDateTag tag = Raise e -> e = ValueError.
Proof.
  unfold parseDateTag. destruct (strptime (text tag)) eqn:E; [discriminate |].
  intros [= <-]. exact (strptime_error _ _ E).
Qed.

End RowErrors.

(** X23: a row fails in four ways only. Whatever processRow raises, in
    either workflow, is an AttributeError, an IndexError, a TypeError or a
    ValueError: each is an Exception, which the loop catches and passes
    over. *)
Theorem processRow_errors {R : PyRuntime} :
  forall (row : list node) (e : exn),
    (forall date, processRow_daily date row = Raise e -> In e row_errors) /\
    (forall symbol exchange,
        processRow_symbol symbol exchange row = Raise e -> In e row_errors).
Proof.
  intros row e.
  split; [intros date H; unfold processRow_daily, bind in H
         | intros symbol exchange H; unfold processRow_symbol, bind in H];
    repeat raise_step H;
    unfold row_errors; cbn [In];
    match goal with
    | E : index _ _ = Raise _ |- _ => rewrite (index_error _ _ _ E); tauto
    | E : parseSymbolTag _ = Raise _ |- _ =>
        destruct (parseSymbolTag_error _ _ E) as [-> | ->]; tauto
    | E : parseBrokerageTag _ = Raise _ |- _ =>
        destruct (parseBrokerageTag_error _ _ E) as [-> | ->]; tauto
    | E : parsePriceTargetTag _ = Raise _ |- _ =>
        rewrite (parsePriceTargetTag_error _ _ E); tauto
    | E : parseRatingTag _ = Raise _ |- _ =>
        rewrite (parseRatingTag_error _ _ E); tauto
    | E : parseDateTag _ = Raise _ |- _ =>
        rewrite (parseDateTag_error _ _ E); tauto
    end.
Qed.

Lemma processRow_errors_witness :
  processRow_daily (R := sample_runtime) (py "2026-11-03") (cells (bad_row "IBM"))
  = Raise AttributeError /\
  In AttributeError row_errors.
Proof.
  assert (H : processRow_daily (R := sample_runtime) (py "2026-11-03") (cells (bad_row "IBM"))
              = Raise AttributeError) by (vm_compute; reflexivity).
  split; [exact H |].
  exact (proj1 (processRow_errors (R := sample_runtime) _ _) _ H).
Defined.
